(** * Smart door system: recognition and enrollment orchestrator

    A shallow embedding of the React front end of the smart door system:
    the camera context ([contexts/CameraContext.tsx]), the stand-alone
    hooks ([hooks/useCamera.ts], [hooks/useFaceDetection.ts]), the shared
    types ([types]) and the page component ([app/page.tsx]) with its
    detection poller, its automatic recognition loop and its
    multi-variation enrollment flow.

    React state is a record; a [setX(prev => ...)] call is a function
    applied to that record.  Values that a handler reads from the render
    it was created in are passed to it explicitly as a closure record;
    values it reaches through a ref or through a functional updater come
    from the live state.  Promises are split at their [await]: the part
    before it runs on the event that calls the handler, the part after
    it on the event that delivers the reply. *)

From Stdlib Require Import ZArith List String Bool Lia.
From Stdlib Require DecimalString.
Import ListNotations.

Local Open Scope string_scope.
Local Open Scope list_scope.
Local Open Scope Z_scope.

(** ** [types]: shared declarations *)

Module Types.

Inductive DoorStatus := locked | unlocked.

Inductive RecognitionStatus := idle | scanning | recognized | unknown.

(** A face reported by one detection pass.  The bounding box and the
    descriptor are produced by face-api.js and never inspected by the
    orchestrator, which only counts the entries. *)
Record DetectedFace := { faceId : nat }.

(** The fields of [FaceRecognitionResult] the page reads. *)
Record FaceRecognitionResult := {
  res_recognized : bool;
  res_name : option string;
  res_best_variation : option string
}.

Record ApiResponse := {
  success : bool;
  message : string;
  result : option FaceRecognitionResult
}.

Record VariationType := {
  value : string;
  label : string;
  description : string
}.

Definition VARIATION_TYPES : list VariationType :=
  [ {| value := "default"; label := "Mặc định";
       description := "Ảnh thường, nhìn thẳng" |};
    {| value := "with_glasses"; label := "Đeo kính";
       description := "Ảnh có đeo kính" |};
    {| value := "no_glasses"; label := "Không kính";
       description := "Ảnh không đeo kính" |};
    {| value := "left_angle"; label := "Góc trái";
       description := "Nghiêng đầu sang trái 15-30°" |};
    {| value := "right_angle"; label := "Góc phải";
       description := "Nghiêng đầu sang phải 15-30°" |};
    {| value := "slight_smile"; label := "Mỉm cười";
       description := "Ảnh có nụ cười nhẹ" |};
    {| value := "serious"; label := "Nghiêm túc";
       description := "Ảnh biểu cảm nghiêm túc" |} ].

Record AutoRecognitionState := {
  isActive : bool;
  attemptCount : Z;
  maxAttempts : Z;
  cooldownUntil : option Z;
  lastAttempt : Z
}.

End Types.

Import Types.

(** [===] on two recognition statuses. *)
Definition RecognitionStatus_eqb (a b : RecognitionStatus) : bool :=
  match a, b with
  | idle, idle | scanning, scanning
  | recognized, recognized | unknown, unknown => true
  | _, _ => false
  end.

(** ** The DOM pieces the capture functions touch *)

(** The [<video>] element behind [videoRef]. *)
Record Video := {
  srcObject : bool;
  paused : bool;
  ended : bool;
  readyState : Z;
  videoWidth : Z;
  videoHeight : Z
}.

(** The canvas that [document.createElement("canvas")] hands out for one
    capture: whether [getContext("2d")] yields a context, and what
    [drawImage] followed by [toDataURL("image/jpeg", 0.8)] produces once
    the canvas has been given a width and a height ([None] when either
    call throws). *)
Record Canvas := {
  getContext : bool;
  toDataURL : Z * Z -> option string
}.

(** JavaScript truthiness of a [string | null]. *)
Definition truthy (img : option string) : bool :=
  match img with
  | Some s => negb (String.eqb s "")
  | None => false
  end.

(** ** [contexts/CameraContext.tsx] *)

Module CameraContext.

Record Camera := {
  isStreaming : bool;
  cameraError : string;
  modelsLoaded : bool;
  streamRef : bool;
  videoRef : option Video;
  canvasRef : bool
}.

Definition clearSrcObject (v : Video) : Video :=
  {| srcObject := false; paused := paused v; ended := ended v;
     readyState := readyState v; videoWidth := videoWidth v;
     videoHeight := videoHeight v |}.

Definition stopStream (c : Camera) : Camera :=
  {| isStreaming := false;
     cameraError := "";
     modelsLoaded := modelsLoaded c;
     streamRef := false;
     videoRef := option_map clearSrcObject (videoRef c);
     canvasRef := canvasRef c |}.

(** [captureImage] is memoised on [isStreaming], which it therefore
    receives as an argument; the video element is read through the
    ref.  The whole drawing part sits in a [try]/[catch] that returns
    [null]. *)
Definition captureImage (isStreaming : bool) (videoRef : option Video)
    (canvas : Canvas) : option string :=
  match videoRef with
  | None => None
  | Some v =>
      if negb isStreaming then None
      else if paused v || ended v then None
      else if readyState v <? 2 then None
      else if (videoWidth v =? 0) || (videoHeight v =? 0) then None
      else if negb (getContext canvas) then None
      else toDataURL canvas (videoWidth v, videoHeight v)
  end.

End CameraContext.

(** ** [hooks/useCamera.ts] *)

Module UseCamera.

(** What a call does: it returns a value or lets an exception escape. *)
Inductive Outcome := Returns (r : option string) | Throws.

(** [canvas.width = videoWidth || 640], [canvas.height = videoHeight || 480]. *)
Definition canvasSize (v : Video) : Z * Z :=
  ((if videoWidth v =? 0 then 640 else videoWidth v),
   (if videoHeight v =? 0 then 480 else videoHeight v)).

Definition captureImage (isStreaming : bool) (videoRef : option Video)
    (canvas : Canvas) : Outcome :=
  match videoRef with
  | None => Returns None
  | Some v =>
      if negb isStreaming then Returns None
      else if negb (getContext canvas) then Returns None
      else match toDataURL canvas (canvasSize v) with
           | Some url => Returns (Some url)
           | None => Throws
           end
  end.

End UseCamera.

(** ** [hooks/useFaceDetection.ts] *)

Module UseFaceDetection.

Record Hook := {
  detectedFaces : list DetectedFace;
  modelsLoaded : bool;
  detectionIntervalRef : bool;
  (** detection passes started and not yet settled *)
  passes : nat
}.

(** One call of [detectFaces], up to its [await]. *)
Definition detectFaces (videoRef : option Video) (canvasRef : bool)
    (h : Hook) : Hook :=
  match videoRef with
  | None => h
  | Some _ =>
      if negb canvasRef || negb (modelsLoaded h) then h
      else {| detectedFaces := detectedFaces h;
              modelsLoaded := modelsLoaded h;
              detectionIntervalRef := detectionIntervalRef h;
              passes := S (passes h) |}
  end.

Definition startDetection (h : Hook) : Hook :=
  if modelsLoaded h && negb (detectionIntervalRef h)
  then {| detectedFaces := detectedFaces h;
          modelsLoaded := modelsLoaded h;
          detectionIntervalRef := true;
          passes := passes h |}
  else h.

Definition stopDetection (h : Hook) : Hook :=
  {| detectedFaces := [];
     modelsLoaded := modelsLoaded h;
     detectionIntervalRef := false;
     passes := passes h |}.

End UseFaceDetection.

(** ** [app/page.tsx] *)

Module Page.

Import CameraContext.

(** *** State *)

(** The state values a handler created in some render reads directly
    (not through a ref, not through a functional updater). *)
Record Closure := {
  c_isStreaming : bool;
  c_detectedFaces : list DetectedFace;
  c_recognitionStatus : RecognitionStatus;
  c_autoRecognition : AutoRecognitionState;
  c_currentVariationIndex : nat;
  c_capturedVariations : list string;
  c_personNameForVariations : string
}.

(** The [useState] cells of the recognition part. *)
Record Recognition := {
  doorStatus : DoorStatus;
  recognitionStatus : RecognitionStatus;
  detectedFaces : list DetectedFace;
  autoRecognition : AutoRecognitionState
}.

(** The [useState] cells of the multi-variation capture. *)
Record Enrollment := {
  isCapturingVariations : bool;
  currentVariationIndex : nat;
  capturedVariations : list string;
  personNameForVariations : string
}.

(** A running [setInterval]: when it fires next and the callback it
    was given, i.e. the closure of the render that created it. *)
Record Interval := { due : Z; callback : Closure }.

Record Refs := {
  detectionIntervalRef : option Z;
  autoRecognitionIntervalRef : option Interval
}.

(** The notification [div]s appended to [document.body]. *)
Inductive Toast :=
| Welcome (name : option string) (variation : string)
| RetryLater
| NextVariation (captured next : VariationType)
| Finished (count : nat) (person : string).

(** The callbacks handed to [setTimeout]. *)
Inductive TimerAction :=
| RemoveToast (id : nat)
| Relock
| BackToIdle.

(** A call of [apiService.recognizeFace] that has not settled: the
    [now] and the closure of the [performAutoRecognition] call that
    awaits it. *)
Record Attempt := {
  a_id : nat;
  a_now : Z;
  a_closure : Closure;
  a_image : string
}.

(** What the browser holds for the page: the clock, the canvas the
    next capture gets, pending timeouts, unsettled recognition calls,
    the number of recognition calls made so far, unsettled detection
    passes, the notifications on screen and the alerts shown. *)
Record Browser := {
  clock : Z;
  canvas : Canvas;
  timers : list (Z * TimerAction);
  pending : list Attempt;
  issued : nat;
  passes : nat;
  toasts : list (nat * Toast);
  toastCount : nat;
  alerts : list string
}.

Record State := {
  camera : Camera;
  recog : Recognition;
  enroll : Enrollment;
  refs : Refs;
  browser : Browser
}.

(** How a promise returned by [apiService] settles: [makeRequest]
    throws on a transport error, on a non-2xx status and on a body
    that does not parse, and otherwise resolves to the parsed body. *)
Inductive Reply := Rejected | Resolved (r : ApiResponse).

(** *** Setters *)

Definition withCamera (f : Camera -> Camera) (s : State) : State :=
  {| camera := f (camera s); recog := recog s; enroll := enroll s;
     refs := refs s; browser := browser s |}.

Definition withRecog (f : Recognition -> Recognition) (s : State) : State :=
  {| camera := camera s; recog := f (recog s); enroll := enroll s;
     refs := refs s; browser := browser s |}.

Definition withEnroll (f : Enrollment -> Enrollment) (s : State) : State :=
  {| camera := camera s; recog := recog s; enroll := f (enroll s);
     refs := refs s; browser := browser s |}.

Definition withRefs (f : Refs -> Refs) (s : State) : State :=
  {| camera := camera s; recog := recog s; enroll := enroll s;
     refs := f (refs s); browser := browser s |}.

Definition withBrowser (f : Browser -> Browser) (s : State) : State :=
  {| camera := camera s; recog := recog s; enroll := enroll s;
     refs := refs s; browser := f (browser s) |}.

Definition setDoorStatus (d : DoorStatus) : State -> State :=
  withRecog (fun r =>
    {| doorStatus := d; recognitionStatus := recognitionStatus r;
       detectedFaces := detectedFaces r;
       autoRecognition := autoRecognition r |}).

Definition setRecognitionStatus (v : RecognitionStatus) : State -> State :=
  withRecog (fun r =>
    {| doorStatus := doorStatus r; recognitionStatus := v;
       detectedFaces := detectedFaces r;
       autoRecognition := autoRecognition r |}).

Definition setDetectedFaces (l : list DetectedFace) : State -> State :=
  withRecog (fun r =>
    {| doorStatus := doorStatus r;
       recognitionStatus := recognitionStatus r;
       detectedFaces := l; autoRecognition := autoRecognition r |}).

Definition setAutoRecognition
    (f : AutoRecognitionState -> AutoRecognitionState) : State -> State :=
  withRecog (fun r =>
    {| doorStatus := doorStatus r;
       recognitionStatus := recognitionStatus r;
       detectedFaces := detectedFaces r;
       autoRecognition := f (autoRecognition r) |}).

Definition setIsCapturingVariations (b : bool) : State -> State :=
  withEnroll (fun e =>
    {| isCapturingVariations := b;
       currentVariationIndex := currentVariationIndex e;
       capturedVariations := capturedVariations e;
       personNameForVariations := personNameForVariations e |}).

Definition setCurrentVariationIndex (f : nat -> nat) : State -> State :=
  withEnroll (fun e =>
    {| isCapturingVariations := isCapturingVariations e;
       currentVariationIndex := f (currentVariationIndex e);
       capturedVariations := capturedVariations e;
       personNameForVariations := personNameForVariations e |}).

Definition setCapturedVariations
    (f : list string -> list string) : State -> State :=
  withEnroll (fun e =>
    {| isCapturingVariations := isCapturingVariations e;
       currentVariationIndex := currentVariationIndex e;
       capturedVariations := f (capturedVariations e);
       personNameForVariations := personNameForVariations e |}).

Definition setPersonNameForVariations (n : string) : State -> State :=
  withEnroll (fun e =>
    {| isCapturingVariations := isCapturingVariations e;
       currentVariationIndex := currentVariationIndex e;
       capturedVariations := capturedVariations e;
       personNameForVariations := n |}).

Definition setDetectionIntervalRef (v : option Z) : State -> State :=
  withRefs (fun r =>
    {| detectionIntervalRef := v;
       autoRecognitionIntervalRef := autoRecognitionIntervalRef r |}).

Definition setAutoRecognitionIntervalRef (v : option Interval)
    : State -> State :=
  withRefs (fun r =>
    {| detectionIntervalRef := detectionIntervalRef r;
       autoRecognitionIntervalRef := v |}).

Definition setClock (t : Z) : State -> State :=
  withBrowser (fun b =>
    {| clock := t; canvas := canvas b; timers := timers b;
       pending := pending b; issued := issued b; passes := passes b;
       toasts := toasts b; toastCount := toastCount b;
       alerts := alerts b |}).

Definition setTimers (f : list (Z * TimerAction) -> list (Z * TimerAction))
    : State -> State :=
  withBrowser (fun b =>
    {| clock := clock b; canvas := canvas b; timers := f (timers b);
       pending := pending b; issued := issued b; passes := passes b;
       toasts := toasts b; toastCount := toastCount b;
       alerts := alerts b |}).

Definition setPending (f : list Attempt -> list Attempt) : State -> State :=
  withBrowser (fun b =>
    {| clock := clock b; canvas := canvas b; timers := timers b;
       pending := f (pending b); issued := issued b; passes := passes b;
       toasts := toasts b; toastCount := toastCount b;
       alerts := alerts b |}).

Definition setPasses (f : nat -> nat) : State -> State :=
  withBrowser (fun b =>
    {| clock := clock b; canvas := canvas b; timers := timers b;
       pending := pending b; issued := issued b; passes := f (passes b);
       toasts := toasts b; toastCount := toastCount b;
       alerts := alerts b |}).

Definition setToasts (f : list (nat * Toast) -> list (nat * Toast))
    : State -> State :=
  withBrowser (fun b =>
    {| clock := clock b; canvas := canvas b; timers := timers b;
       pending := pending b; issued := issued b; passes := passes b;
       toasts := f (toasts b); toastCount := toastCount b;
       alerts := alerts b |}).

(** [setTimeout(act, delay)] *)
Definition setTimeout (act : TimerAction) (delay : Z) (s : State) : State :=
  setTimers (fun l => l ++ [(clock (browser s) + delay, act)]) s.

(** [alert(msg)] *)
Definition alert (msg : string) : State -> State :=
  withBrowser (fun b =>
    {| clock := clock b; canvas := canvas b; timers := timers b;
       pending := pending b; issued := issued b; passes := passes b;
       toasts := toasts b; toastCount := toastCount b;
       alerts := alerts b ++ [msg] |}).

(** [document.body.appendChild(notification)] together with the
    [setTimeout] that removes the notification again. *)
Definition notify (t : Toast) (delay : Z) (s : State) : State :=
  let id := toastCount (browser s) in
  setTimeout (RemoveToast id) delay
    (withBrowser (fun b =>
       {| clock := clock b; canvas := canvas b; timers := timers b;
          pending := pending b; issued := issued b; passes := passes b;
          toasts := toasts b ++ [(id, t)]; toastCount := S id;
          alerts := alerts b |}) s).

(** The recognition call itself: [apiService.recognizeFace(image)]. *)
Definition recognizeFace (c : Closure) (now : Z) (image : string)
    (s : State) : State :=
  withBrowser (fun b =>
    {| clock := clock b; canvas := canvas b; timers := timers b;
       pending := pending b ++
                  [{| a_id := issued b; a_now := now; a_closure := c;
                      a_image := image |}];
       issued := S (issued b); passes := passes b;
       toasts := toasts b; toastCount := toastCount b;
       alerts := alerts b |}) s.

(** The values a render of [s] hands to the handlers it creates. *)
Definition render (s : State) : Closure :=
  {| c_isStreaming := isStreaming (camera s);
     c_detectedFaces := detectedFaces (recog s);
     c_recognitionStatus := recognitionStatus (recog s);
     c_autoRecognition := autoRecognition (recog s);
     c_currentVariationIndex := currentVariationIndex (enroll s);
     c_capturedVariations := capturedVariations (enroll s);
     c_personNameForVariations := personNameForVariations (enroll s) |}.

(** *** Automatic recognition *)

(** [autoRecognition.cooldownUntil && now < autoRecognition.cooldownUntil]:
    [null] and [0] are falsy. *)
Definition inCooldown (a : AutoRecognitionState) (now : Z) : bool :=
  match cooldownUntil a with
  | Some c => negb (c =? 0) && (now <? c)
  | None => false
  end.

(** The updater of the max-attempts branch. *)
Definition armCooldown (now : Z) (prev : AutoRecognitionState)
    : AutoRecognitionState :=
  {| isActive := isActive prev; attemptCount := 0;
     maxAttempts := maxAttempts prev;
     cooldownUntil := Some (now + 30000);
     lastAttempt := lastAttempt prev |}.

(** The updater applied once the recognition call has resolved. *)
Definition countAttempt (now : Z) (prev : AutoRecognitionState)
    : AutoRecognitionState :=
  {| isActive := isActive prev; attemptCount := attemptCount prev + 1;
     maxAttempts := maxAttempts prev;
     cooldownUntil := cooldownUntil prev;
     lastAttempt := now |}.

Definition startAutoRecognition : State -> State :=
  setAutoRecognition (fun prev =>
    {| isActive := true; attemptCount := 0;
       maxAttempts := maxAttempts prev; cooldownUntil := None;
       lastAttempt := lastAttempt prev |}).

Definition stopAutoRecognition (s : State) : State :=
  setAutoRecognitionIntervalRef None
    (setAutoRecognition (fun prev =>
       {| isActive := false; attemptCount := 0;
          maxAttempts := maxAttempts prev; cooldownUntil := None;
          lastAttempt := lastAttempt prev |}) s).

(** [performAutoRecognition] up to its [await]: [c] is the closure of
    the render that created this instance of the function, [now] is
    [Date.now()].  A capture that yields nothing throws, and the
    [catch] puts the status back to idle. *)
Definition performAutoRecognition (c : Closure) (now : Z) (s : State)
    : State :=
  if negb (c_isStreaming c)
     || Nat.eqb (List.length (c_detectedFaces c)) 0
     || RecognitionStatus_eqb (c_recognitionStatus c) scanning
  then s
  else
    let a := c_autoRecognition c in
    if inCooldown a now then s
    else if attemptCount a >=? maxAttempts a then
      setAutoRecognition (armCooldown now) s
    else if now - lastAttempt a <? 2000 then s
    else
      let s1 := setRecognitionStatus scanning s in
      let imageBase64 :=
        captureImage (c_isStreaming c) (videoRef (camera s1))
          (canvas (browser s1)) in
      match imageBase64 with
      | Some image =>
          if truthy imageBase64 then recognizeFace c now image s1
          else setRecognitionStatus idle s1
      | None => setRecognitionStatus idle s1
      end.

(** [best_variation || "default"] *)
Definition variationOrDefault (v : option string) : string :=
  match v with
  | Some x => if String.eqb x "" then "default" else x
  | None => "default"
  end.

(** [performAutoRecognition] from its [await] on, for the attempt [a]
    whose call settles with [reply]. *)
Definition performAutoRecognition_settled (a : Attempt) (reply : Reply)
    (s : State) : State :=
  match reply with
  | Rejected => setRecognitionStatus idle s
  | Resolved r =>
      let s1 := setAutoRecognition (countAttempt (a_now a)) s in
      match result r with
      | Some res =>
          if success r then
            if res_recognized res then
              let s2 := setDoorStatus unlocked
                          (setRecognitionStatus recognized s1) in
              let s3 := notify (Welcome (res_name res)
                                  (variationOrDefault
                                     (res_best_variation res)))
                          3000 s2 in
              setTimeout Relock 5000 (stopAutoRecognition s3)
            else
              let s2 := setRecognitionStatus unknown s1 in
              let ar := c_autoRecognition (a_closure a) in
              let s3 := if attemptCount ar >=? maxAttempts ar - 1
                        then notify RetryLater 3000 s2 else s2 in
              setTimeout BackToIdle 1000 s3
          else s1
      | None => s1
      end
  end.

(** The callbacks of the timeouts. *)
Definition runTimer (act : TimerAction) (s : State) : State :=
  match act with
  | RemoveToast id =>
      setToasts (filter (fun p => negb (Nat.eqb (fst p) id))) s
  | Relock => setRecognitionStatus idle (setDoorStatus locked s)
  | BackToIdle => setRecognitionStatus idle s
  end.

(** *** Detection *)

(** [detectFaces] up to its [await].  The callback is re-created, and
    the interval re-armed, whenever [isStreaming] or [modelsLoaded]
    changes, so the values it closes over are the current ones. *)
Definition detectFaces (s : State) : State :=
  match videoRef (camera s) with
  | None => s
  | Some v =>
      if negb (canvasRef (camera s))
         || negb (modelsLoaded (camera s))
         || negb (isStreaming (camera s))
         || (videoWidth v =? 0)
         || (videoHeight v =? 0)
      then s
      else if readyState v <? 2 then s
      else setPasses S s
  end.

(** [detectFaces] from its [await] on: the pass yields faces, or it
    throws and the [catch] only logs. *)
Definition detectFaces_settled (r : option (list DetectedFace))
    (s : State) : State :=
  match r with
  | Some faces => setDetectedFaces faces (setPasses Nat.pred s)
  | None => setPasses Nat.pred s
  end.

(** *** Effects *)

Definition sameDetectionDeps (old new : State) : bool :=
  Bool.eqb (isStreaming (camera old)) (isStreaming (camera new))
  && Bool.eqb (modelsLoaded (camera old)) (modelsLoaded (camera new)).

Definition sameRecognitionDeps (old new : State) : bool :=
  Bool.eqb (isActive (autoRecognition (recog old)))
           (isActive (autoRecognition (recog new)))
  && sameDetectionDeps old new.

(** The effect that starts the detection interval, after the cleanup
    of its previous run. *)
Definition detectionEffect (s : State) : State :=
  if isStreaming (camera s) && modelsLoaded (camera s)
  then setDetectionIntervalRef (Some (clock (browser s) + 300)) s
  else setDetectionIntervalRef None s.

(** The effect that starts the recognition interval, after the
    cleanup of its previous run; the interval gets the
    [performAutoRecognition] of the render the effect belongs to. *)
Definition autoRecognitionEffect (s : State) : State :=
  if isActive (autoRecognition (recog s))
     && isStreaming (camera s) && modelsLoaded (camera s)
  then setAutoRecognitionIntervalRef
         (Some {| due := clock (browser s) + 1000; callback := render s |})
         s
  else setAutoRecognitionIntervalRef None s.

(** Re-render after an event took the state from [old] to [new]: the
    effects whose dependencies changed run again. *)
Definition commit (old new : State) : State :=
  let s1 := if sameDetectionDeps old new then new
            else detectionEffect new in
  if sameRecognitionDeps old new then s1 else autoRecognitionEffect s1.

(** *** Multi-variation capture *)

Definition startMultiVariationCapture (personName : string) (s : State)
    : State :=
  setCapturedVariations (fun _ => [])
    (setCurrentVariationIndex (fun _ => O)
       (setIsCapturingVariations true
          (setPersonNameForVariations personName s))).

Definition finishMultiVariationCapture (c : Closure) (s : State) : State :=
  let s1 := setIsCapturingVariations false s in
  let s2 := notify (Finished (List.length (c_capturedVariations c))
                      (c_personNameForVariations c)) 4000 s1 in
  setCapturedVariations (fun _ => [])
    (setCurrentVariationIndex (fun _ => O)
       (setPersonNameForVariations "" s2)).

(** [addFaceVariation] of [useFaceManagement]: [true] when the upload
    resolves with [success], [false] when it resolves without or is
    rejected; it never throws. *)
Definition addFaceVariation (reply : Reply) : bool :=
  match reply with
  | Resolved r => success r
  | Rejected => false
  end.

(** [captureNextVariation], taken as one step: [reply] is how the
    upload it awaits settles. *)
Definition captureNextVariation (c : Closure) (reply : Reply) (s : State)
    : State :=
  if (List.length VARIATION_TYPES <=? c_currentVariationIndex c)%nat
  then finishMultiVariationCapture c s
  else
    match nth_error VARIATION_TYPES (c_currentVariationIndex c) with
    | None => s
    | Some currentVariationType =>
        let imageBase64 :=
          captureImage (c_isStreaming c) (videoRef (camera s))
            (canvas (browser s)) in
        if negb (truthy imageBase64)
        then alert "Không thể chụp ảnh! Vui lòng kiểm tra camera." s
        else if addFaceVariation reply then
          let s1 := setCapturedVariations
                      (fun prev => prev ++ [value currentVariationType])
                      s in
          let s2 := setCurrentVariationIndex (fun prev => S prev) s1 in
          if (c_currentVariationIndex c + 1 <? List.length VARIATION_TYPES)%nat
          then
            match nth_error VARIATION_TYPES
                    (c_currentVariationIndex c + 1) with
            | Some nextVariation =>
                notify (NextVariation currentVariationType nextVariation)
                  3000 s2
            | None => s2
            end
          else s2
        else s
    end.

(** *** The event loop *)

Inductive Event :=
| ClickStartAutoRecognition
| ClickStopAutoRecognition
| ClickStopStream
| AutoRecognitionTick
| RecognitionSettles (id : nat) (reply : Reply)
| DetectionTick
| DetectionSettles (r : option (list DetectedFace))
| TimeoutFires (i : nat).

Definition removeNth {A} (i : nat) (l : list A) : list A :=
  firstn i l ++ skipn (S i) l.

Definition hasId (id : nat) (a : Attempt) : bool := Nat.eqb (a_id a) id.

(** What the event does when the browser delivers it at time [t];
    [None] when it cannot happen in [s] (button disabled, timer not
    running or not due, no such call pending). *)
Definition handle (t : Z) (e : Event) (s : State) : option State :=
  match e with
  | ClickStartAutoRecognition =>
      if isStreaming (camera s)
         && negb (isActive (autoRecognition (recog s)))
      then Some (startAutoRecognition s) else None
  | ClickStopAutoRecognition =>
      if isStreaming (camera s) && modelsLoaded (camera s)
         && isActive (autoRecognition (recog s))
      then Some (stopAutoRecognition s) else None
  | ClickStopStream =>
      if isStreaming (camera s)
      then Some (withCamera stopStream s) else None
  | AutoRecognitionTick =>
      match autoRecognitionIntervalRef (refs s) with
      | Some iv =>
          if due iv <=? t
          then Some (performAutoRecognition (callback iv) t
                       (setAutoRecognitionIntervalRef
                          (Some {| due := t + 1000;
                                   callback := callback iv |}) s))
          else None
      | None => None
      end
  | RecognitionSettles id reply =>
      match find (hasId id) (pending (browser s)) with
      | Some a =>
          Some (performAutoRecognition_settled a reply
                  (setPending (filter (fun x => negb (hasId id x))) s))
      | None => None
      end
  | DetectionTick =>
      match detectionIntervalRef (refs s) with
      | Some d =>
          if d <=? t
          then Some (detectFaces
                       (setDetectionIntervalRef (Some (t + 300)) s))
          else None
      | None => None
      end
  | DetectionSettles r =>
      match passes (browser s) with
      | O => None
      | S _ => Some (detectFaces_settled r s)
      end
  | TimeoutFires i =>
      match nth_error (timers (browser s)) i with
      | Some (d, act) =>
          if d <=? t
          then Some (runTimer act (setTimers (removeNth i) s))
          else None
      | None => None
      end
  end.

Definition step (t : Z) (e : Event) (s : State) : option State :=
  if t <? clock (browser s) then None
  else
    let s0 := setClock t s in
    option_map (commit s0) (handle t e s0).

Fixpoint run (evs : list (Z * Event)) (s : State) : option State :=
  match evs with
  | [] => Some s
  | (t, e) :: rest =>
      match step t e s with
      | Some s' => run rest s'
      | None => None
      end
  end.

End Page.

Import Page.

(** ** A concrete page to run *)

Definition liveVideo : Video :=
  {| srcObject := true; paused := false; ended := false; readyState := 4;
     videoWidth := 1280; videoHeight := 720 |}.

Definition jpegCanvas : Canvas :=
  {| getContext := true;
     toDataURL := fun _ => Some "data:image/jpeg;base64,/9j/4AAQSkZJRg" |}.

(** [Date.now()] when the page was loaded; the runs below give their
    times as offsets from it. *)
Definition pageLoad : Z := 1700000000000.

(** The page as mounted ([useState] initial values), with the camera
    streaming, the models loaded, the detection interval running and one
    face reported by the last detection pass. *)
Definition watching : State :=
  {| camera :=
       {| CameraContext.isStreaming := true;
          CameraContext.cameraError := "";
          CameraContext.modelsLoaded := true;
          CameraContext.streamRef := true;
          CameraContext.videoRef := Some liveVideo;
          CameraContext.canvasRef := true |};
     recog :=
       {| doorStatus := locked; recognitionStatus := idle;
          detectedFaces := [ {| faceId := 0 |} ];
          autoRecognition :=
            {| isActive := false; attemptCount := 0; maxAttempts := 10;
               cooldownUntil := None; lastAttempt := 0 |} |};
     enroll :=
       {| isCapturingVariations := false; currentVariationIndex := 0;
          capturedVariations := []; personNameForVariations := "" |};
     refs :=
       {| detectionIntervalRef := Some (pageLoad + 300);
          autoRecognitionIntervalRef := None |};
     browser :=
       {| clock := pageLoad; canvas := jpegCanvas; timers := []; pending := [];
          issued := 0; passes := 0; toasts := []; toastCount := 0;
          alerts := [] |} |}.

Definition notRecognized : Reply :=
  Resolved {| success := true; message := "Unknown face";
              result := Some {| res_recognized := false; res_name := None;
                                res_best_variation := None |} |}.

Definition recognizedAs (who : string) : Reply :=
  Resolved {| success := true; message := "ok";
              result := Some {| res_recognized := true;
                                res_name := Some who;
                                res_best_variation := None |} |}.

Definition refused : Reply :=
  Resolved {| success := false; message := "No face found in image";
              result := None |}.

(** A video element whose stream has not delivered metadata yet. *)
Definition blankVideo : Video :=
  {| srcObject := true; paused := false; ended := false; readyState := 0;
     videoWidth := 0; videoHeight := 0 |}.

Definition brokenCanvas : Canvas :=
  {| getContext := true; toDataURL := fun _ => None |}.

(** A whole enrollment: one [captureNextVariation] per reply, each
    created by the render of the state the previous one left. *)
Definition captureAll (replies : list Reply) (s : State) : State :=
  fold_left (fun st reply => captureNextVariation (render st) reply st)
    replies s.

(** The capture a handler with closure [c] gets in state [s]. *)
Definition frameFor (c : Closure) (s : State) : option string :=
  CameraContext.captureImage (c_isStreaming c)
    (CameraContext.videoRef (camera s)) (canvas (browser s)).

(** The capture a handler created by the render of [s] gets. *)
Definition frameOf (s : State) : option string := frameFor (render s) s.

(** What a resolved recognition call says, as the page reads it:
    [result.success && result.result], then [recognized]. *)
Inductive Verdict := Match | NoMatch | NoVerdict.

Definition verdict (r : ApiResponse) : Verdict :=
  match result r with
  | Some res =>
      if success r then if res_recognized res then Match else NoMatch
      else NoVerdict
  | None => NoVerdict
  end.

Definition uploaded : Reply :=
  Resolved {| success := true; message := "added"; result := None |}.

(** The guard at the head of [performAutoRecognition]. *)
Definition earlyReturn (c : Closure) : bool :=
  negb (c_isStreaming c)
  || Nat.eqb (List.length (c_detectedFaces c)) 0
  || RecognitionStatus_eqb (c_recognitionStatus c) scanning.

Definition counters (s : State) : AutoRecognitionState :=
  autoRecognition (recog s).

Definition status (s : State) : RecognitionStatus :=
  recognitionStatus (recog s).

Definition door (s : State) : DoorStatus := doorStatus (recog s).

Definition outstanding (s : State) : list Attempt := pending (browser s).

Definition scheduled (s : State) : list (Z * TimerAction) :=
  timers (browser s).

(** The page after the start button and the first tick: one request
    out, status scanning. *)
Definition firstAttemptOut : State :=
  match run [(pageLoad + 9000, ClickStartAutoRecognition);
             (pageLoad + 10000, AutoRecognitionTick)] watching with
  | Some s => s
  | None => watching
  end.

(** The attempt that is out in [firstAttemptOut]. *)
Definition firstAttempt : Attempt :=
  {| a_id := 0; a_now := pageLoad + 10000;
     a_closure := render (startAutoRecognition watching);
     a_image := "data:image/jpeg;base64,/9j/4AAQSkZJRg" |}.

(** The page after the stop button was clicked with that attempt out. *)
Definition loopStopped : State :=
  match step (pageLoad + 10300) ClickStopAutoRecognition firstAttemptOut with
  | Some s => s
  | None => firstAttemptOut
  end.

(** [n] rounds of: a tick that issues request [id], a miss 400 ms
    later, the return to idle 1000 ms after the miss; one round every
    2000 ms, the first one at [from]. *)
Fixpoint missRounds (n id : nat) (from : Z) : list (Z * Event) :=
  match n with
  | O => []
  | S k =>
      (from, AutoRecognitionTick)
      :: (from + 400, RecognitionSettles id notRecognized)
      :: (from + 1400, TimeoutFires 0)
      :: missRounds k (S id) (from + 2000)
  end.

(** Start, nine such rounds, a tenth tick and the tenth miss. *)
Definition tenMisses : list (Z * Event) :=
  (pageLoad + 9000, ClickStartAutoRecognition)
  :: missRounds 9 0 (pageLoad + 10000)
  ++ [(pageLoad + 28000, AutoRecognitionTick);
      (pageLoad + 28400, RecognitionSettles 9 notRecognized)].

(** A closure whose control block is as a tick 10 s after the page
    load left it when it armed the cooldown. *)
Definition coolingDown : Closure :=
  {| c_isStreaming := true;
     c_detectedFaces := [ {| faceId := 0 |} ];
     c_recognitionStatus := idle;
     c_autoRecognition :=
       armCooldown (pageLoad + 10000)
         {| isActive := true; attemptCount := 10; maxAttempts := 10;
            cooldownUntil := None; lastAttempt := pageLoad + 9000 |};
     c_currentVariationIndex := 0;
     c_capturedVariations := [];
     c_personNameForVariations := "" |}.

(** The events that call [startAutoRecognition]. *)
Definition restarts (e : Event) : bool :=
  match e with
  | ClickStartAutoRecognition => true
  | _ => false
  end.

(** The page after [stopStream] was clicked while that first attempt
    was out. *)
Definition streamStopped : State :=
  match step (pageLoad + 10300) ClickStopStream firstAttemptOut with
  | Some s => s
  | None => firstAttemptOut
  end.

(** The page right after the first attempt was answered with a match. *)
Definition doorOpened : State :=
  match step (pageLoad + 10400) (RecognitionSettles 0 (recognizedAs "An"))
          firstAttemptOut with
  | Some s => s
  | None => firstAttemptOut
  end.

(** [startStream] of the camera provider when the browser grants the
    stream and the video element plays it, from the call to the timeout
    that sets [isStreaming]: the error is cleared, the stream is kept in
    [streamRef] and, if there is a video element, it gets the stream
    (and then reports [playing]) and [isStreaming] becomes true. *)
Definition startStream_played (playing : Video) (c : CameraContext.Camera)
    : CameraContext.Camera :=
  match CameraContext.videoRef c with
  | Some _ =>
      {| CameraContext.isStreaming := true;
         CameraContext.cameraError := "";
         CameraContext.modelsLoaded := CameraContext.modelsLoaded c;
         CameraContext.streamRef := true;
         CameraContext.videoRef := Some playing;
         CameraContext.canvasRef := CameraContext.canvasRef c |}
  | None =>
      {| CameraContext.isStreaming := CameraContext.isStreaming c;
         CameraContext.cameraError := "";
         CameraContext.modelsLoaded := CameraContext.modelsLoaded c;
         CameraContext.streamRef := true;
         CameraContext.videoRef := None;
         CameraContext.canvasRef := CameraContext.canvasRef c |}
  end.

(** The page when that timeout fires at time [t], with the re-render
    that follows. *)
Definition streamStarts (t : Z) (playing : Video) (s : State)
    : option State :=
  if t <? clock (browser s) then None
  else
    let s0 := setClock t s in
    Some (commit s0 (withCamera (startStream_played playing) s0)).

(** [n] ticks of the recognition interval, one every 1000 ms, the
    first one at [from]. *)
Fixpoint everySecond (n : nat) (from : Z) : list (Z * Event) :=
  match n with
  | O => []
  | S k => (from, AutoRecognitionTick) :: everySecond k (from + 1000)
  end.

(** The page after [tenMisses] and the return to idle that follows the
    tenth miss: ten attempts counted, no request out. *)
Definition limitReached : State :=
  match run (tenMisses ++ [(pageLoad + 29400, TimeoutFires 0)]) watching with
  | Some s => s
  | None => watching
  end.

(** From there the stream is stopped and started again: the stop
    button at 30 s, the new stream playing at 31 s. *)
Definition streamRestarted : State :=
  match step (pageLoad + 30000) ClickStopStream limitReached with
  | Some s =>
      match streamStarts (pageLoad + 31000) liveVideo s with
      | Some s' => s'
      | None => s
      end
  | None => limitReached
  end.

(** The first tick of the interval that restart created. *)
Definition rearmedOnce : State :=
  match step (pageLoad + 32000) AutoRecognitionTick streamRestarted with
  | Some s => s
  | None => streamRestarted
  end.

(** A hook of [useFaceDetection] with its models loaded. *)
Definition readyHook : UseFaceDetection.Hook :=
  {| UseFaceDetection.detectedFaces := [];
     UseFaceDetection.modelsLoaded := true;
     UseFaceDetection.detectionIntervalRef := false;
     UseFaceDetection.passes := 0 |}.

(** ** [types], continued *)

Module FaceTypes.

Record FaceVariation := {
  type : string;
  image_path : string;
  added_date : string
}.

(** The fields of [FaceInfo] the front end reads. *)
Record FaceInfo := {
  name : string;
  recognition_count : option Z;
  total_variations : option Z;
  variations : option (list FaceVariation)
}.

End FaceTypes.

(** ** [app/page.tsx], continued *)

(** [Math.ceil(x / 1000)] for an integer number of milliseconds [x].
    Both time stamps come from [Date.now()], so [x / 1000] is an
    integer or at least a thousandth away from one, and the ceiling of
    the floating-point quotient is the ceiling of the exact one. *)
Definition ceilSeconds (x : Z) : Z := - ((- x) / 1000).

(** [cooldownRemaining], computed on every render with [now = Date.now()]. *)
Definition cooldownRemaining (a : AutoRecognitionState) (now : Z) : Z :=
  match cooldownUntil a with
  | Some c => if c =? 0 then 0 else Z.max 0 (ceilSeconds (c - now))
  | None => 0
  end.

Definition dquote : string := String (Ascii.ascii_of_nat 34) EmptyString.

(** [handleAddFaceVariation], taken as one step: [faces] is the list the
    render that created the handler got from [useFaceManagement],
    [reply] is how the upload settles, [confirmed] is the answer to the
    [confirm] dialog, which is only asked for a new person with the
    default variation.  The refresh of the face list that follows a
    plain success lives in the hook and leaves the page state alone. *)
Definition handleAddFaceVariation (c : Closure)
    (faces : list FaceTypes.FaceInfo) (name variationType : string)
    (reply : Reply) (confirmed : bool) (s : State) : State :=
  let imageBase64 :=
    CameraContext.captureImage (c_isStreaming c)
      (CameraContext.videoRef (camera s)) (canvas (browser s)) in
  if negb (truthy imageBase64)
  then alert "Không thể chụp ảnh! Vui lòng kiểm tra camera." s
  else if addFaceVariation reply then
    let isNewPerson :=
      negb (existsb (fun face => String.eqb (FaceTypes.name face) name)
              faces) in
    let isDefaultVariation := String.eqb variationType "default" in
    if isNewPerson && isDefaultVariation && confirmed
    then startMultiVariationCapture name s
    else alert (String.append "✅ Đã thêm variation "
                  (String.append dquote
                     (String.append variationType
                        (String.append dquote
                           (String.append " cho "
                              (String.append name "!")))))) s
  else s.

(** The session state the enrollment invariants speak about. *)
Definition sessionIndex (s : State) : nat :=
  currentVariationIndex (enroll s).

Definition sessionCaptured (s : State) : list string :=
  capturedVariations (enroll s).

(** The door is not left unlocked without a relock on its way. *)
Definition relockPending (s : State) : Prop :=
  door s = unlocked ->
  exists d, In (d, Relock) (scheduled s) /\ d <= clock (browser s) + 5000.

(** Attempt counts are not negative and no request time lies ahead of
    the clock. *)
Definition countersSane (s : State) : Prop :=
  0 <= attemptCount (counters s)
  /\ lastAttempt (counters s) <= clock (browser s)
  /\ Forall (fun a => a_now a <= clock (browser s)) (outstanding s).



(** ** [services/api.ts] *)

(** The template literal [`${n}`] of a non-negative integer. *)
Definition number (n : nat) : string :=
  DecimalString.NilZero.string_of_uint (Nat.to_uint n).

(** [m || d] on strings: the empty string is falsy. *)
Definition orDefault (m d : string) : string :=
  if String.eqb m "" then d else m.

Module Api.

(** How an [async] call ends. *)
Inductive Settled (A : Type) := Throws (message : string) | Returns (a : A).
Arguments Throws {A} message.
Arguments Returns {A} a.

(** A parsed response body (a JSON object), by the fields the front
    end reads.
    [detail] is the text [new Error(errorData.detail)] gets, present
    when the body has a truthy [detail]. *)
Record Body := {
  success : bool;
  message : string;
  detail : option string;
  result : option FaceRecognitionResult;
  faces : option (list FaceTypes.FaceInfo)
}.

(** What [response.json()] does: it rejects with a syntax error or
    resolves to the body. *)
Inductive Json := Unparsable (message : string) | Parsed (b : Body).

(** What [fetch] does: it rejects (with an [Error] and its message, or
    with something that is not an [Error]) or resolves to a response. *)
Inductive Fetched :=
| NetworkError (message : option string)
| Responded (ok : bool) (status : nat) (statusText : string) (json : Json).

Definition makeRequest (f : Fetched) : Settled Body :=
  match f with
  | NetworkError (Some m) => Throws m
  | NetworkError None => Throws "Unknown API error"
  | Responded false status statusText json =>
      let errorDetail :=
        match json with
        | Parsed b => detail b
        | Unparsable _ => None
        end in
      Throws match errorDetail with
             | Some d => d
             | None =>
                 String.append "HTTP "
                   (String.append (number status)
                      (String.append ": " statusText))
             end
  | Responded true _ _ (Parsed b) => Returns b
  | Responded true _ _ (Unparsable m) => Throws m
  end.

(** [addFace], [recognizeFace], [getFaces], [deleteFace] differ in the
    request they build; each returns what [makeRequest] returns. *)
Definition addFace : Fetched -> Settled Body := makeRequest.
Definition recognizeFace : Fetched -> Settled Body := makeRequest.
Definition getFaces : Fetched -> Settled Body := makeRequest.
Definition deleteFace : Fetched -> Settled Body := makeRequest.

(** The same outcome as the page's handlers see it. *)
Definition toReply (r : Settled Body) : Reply :=
  match r with
  | Throws _ => Rejected
  | Returns b =>
      Resolved {| Types.success := success b; Types.message := message b;
                  Types.result := result b |}
  end.

End Api.

(** ** [hooks/useFaceManagement.ts] *)

Module UseFaceManagement.

Record Hook := {
  faces : list FaceTypes.FaceInfo;
  isLoading : bool;
  error : string
}.

(** [fetchFaces], from call to completion: [f] is how the request
    goes. *)
Definition fetchFaces (f : Api.Fetched) (h : Hook) : Hook :=
  match Api.getFaces f with
  | Api.Returns response =>
      {| faces := if Api.success response
                  then match Api.faces response with
                       | Some l => l
                       | None => faces h
                       end
                  else faces h;
         isLoading := false;
         error := "" |}
  | Api.Throws m =>
      {| faces := faces h; isLoading := false; error := m |}
  end.

(** The shape [addFace], [addFaceVariation] and [deleteFace] share:
    the request, on [success] the refresh of the list, otherwise the
    error [response.message || fallback]. *)
Definition change (fallback : string) (f refresh : Api.Fetched) (h : Hook)
    : bool * Hook :=
  match Api.makeRequest f with
  | Api.Returns response =>
      if Api.success response
      then
        let h1 := fetchFaces refresh
                    {| faces := faces h; isLoading := true; error := "" |} in
        (true, {| faces := faces h1; isLoading := false; error := error h1 |})
      else
        (false,
         {| faces := faces h; isLoading := false;
            error := orDefault (Api.message response) fallback |})
  | Api.Throws m =>
      (false, {| faces := faces h; isLoading := false; error := m |})
  end.

Definition addFace : Api.Fetched -> Api.Fetched -> Hook -> bool * Hook :=
  change "Không thể thêm khuôn mặt".

Definition addFaceVariation
    : Api.Fetched -> Api.Fetched -> Hook -> bool * Hook :=
  change "Không thể thêm variation".

Definition deleteFace : Api.Fetched -> Api.Fetched -> Hook -> bool * Hook :=
  change "Không thể xóa khuôn mặt".

End UseFaceManagement.

(** ** [components/FaceManagement/AddFaceDialog.tsx] *)

Module AddFaceDialog.

(** A JavaScript string as its UTF-16 code units: [length], [trim] and
    a regular expression without the [u] flag all work on those. *)
Definition jsstring := list Z.

Definition between (lo hi u : Z) : bool := (lo <=? u) && (u <=? hi).

(** White space and line terminators: what [trim] strips and [\s]
    matches. *)
Definition isSpace (u : Z) : bool :=
  between 9 13 u || (u =? 32) || (u =? 160) || (u =? 5760)
  || between 8192 8202 u || (u =? 8232) || (u =? 8233) || (u =? 8239)
  || (u =? 8287) || (u =? 12288) || (u =? 65279).

(** [\w] *)
Definition isWord (u : Z) : bool :=
  between 48 57 u || between 65 90 u || (u =? 95) || between 97 122 u.

(** One character of [/^[\w\sÀ-ɏḀ-ỿ]+$/]. *)
Definition nameChar (u : Z) : bool :=
  isWord u || isSpace u || between 192 591 u || between 7680 7935 u.

Fixpoint trimStart (s : jsstring) : jsstring :=
  match s with
  | u :: rest => if isSpace u then trimStart rest else s
  | [] => []
  end.

Definition trimEnd (s : jsstring) : jsstring := rev (trimStart (rev s)).

Definition trim (s : jsstring) : jsstring := trimEnd (trimStart s).

(** [validateName]: the verdict and the text it puts in [nameError]. *)
Definition validateName (inputName : jsstring) : bool * string :=
  let trimmedName := trim inputName in
  match trimmedName with
  | [] => (false, "Tên không được để trống")
  | _ =>
      if (List.length trimmedName <? 2)%nat
      then (false, "Tên phải có ít nhất 2 ký tự")
      else if (50 <? List.length trimmedName)%nat
      then (false, "Tên không được quá 50 ký tự")
      else if negb (forallb nameChar trimmedName)
      then (false,
            "Tên chỉ được chứa chữ cái, số, dấu cách và dấu gạch dưới")
      else (true, "")
  end.

Record Dialog := {
  open : bool;
  name : jsstring;
  variationType : string;
  existingPersonMode : bool;
  nameError : string
}.

(** [handleSubmit]: the state it leaves and the call of [onCapture] it
    makes, if any.  [onCapture] is the page's [handleAddFaceVariation],
    which catches its own failures. *)
Definition handleSubmit (d : Dialog) : Dialog * option (jsstring * string) :=
  if fst (validateName (name d))
  then ({| open := false; name := []; variationType := "default";
           existingPersonMode := false; nameError := "" |},
        Some (trim (name d), variationType d))
  else ({| open := open d; name := name d;
           variationType := variationType d;
           existingPersonMode := existingPersonMode d;
           nameError := snd (validateName (name d)) |},
        None).

(** [existingVariations.includes(v)] *)
Definition includes (l : list string) (v : string) : bool :=
  existsb (String.eqb v) l.

Definition getRecommendedVariations (faces : list FaceTypes.FaceInfo)
    (personName : string) : list string :=
  match find (fun f => String.eqb (FaceTypes.name f) personName) faces with
  | None => []
  | Some person =>
      match FaceTypes.variations person with
      | None => []
      | Some vs =>
          let existingVariations := map FaceTypes.type vs in
          filter (fun v => negb (includes existingVariations v))
            (map value VARIATION_TYPES)
      end
  end.

End AddFaceDialog.

(** ** Camera devices: [contexts/CameraContext.tsx] and
    [hooks/useCamera.ts] *)

Module CameraDevices.

(** An entry of [navigator.mediaDevices.enumerateDevices()]. *)
Module MediaDeviceInfo.
Record t := { kind : string; deviceId : string; label : string }.
End MediaDeviceInfo.

Record CameraDevice := { deviceId : string; label : string }.

(** What [checkCameraSupport] looks at: whether
    [navigator?.mediaDevices?.getUserMedia] is there, and the page's
    location. *)
Record Browser := {
  getUserMedia : bool;
  protocol : string;
  hostname : string
}.

(** The [useState] cells the device functions write. *)
Record State := {
  cameras : list CameraDevice;
  selectedCamera : string;
  cameraError : string
}.

Definition setCameraError (e : string) (s : State) : State :=
  {| cameras := cameras s; selectedCamera := selectedCamera s;
     cameraError := e |}.

Definition setCameras (l : list CameraDevice) (s : State) : State :=
  {| cameras := l; selectedCamera := selectedCamera s;
     cameraError := cameraError s |}.

Definition setSelectedCamera (id : string) (s : State) : State :=
  {| cameras := cameras s; selectedCamera := id;
     cameraError := cameraError s |}.

(** How [enumerateDevices] settles. *)
Inductive Enumerated :=
| Rejects (message : string)
| Devices (devices : list MediaDeviceInfo.t).

(** [.map((device, index) => ...)] from [index] on. *)
Fixpoint labelled (index : nat) (devices : list MediaDeviceInfo.t)
    : list CameraDevice :=
  match devices with
  | [] => []
  | device :: rest =>
      {| deviceId := MediaDeviceInfo.deviceId device;
         label := orDefault (MediaDeviceInfo.label device)
                    (String.append "Camera " (number (index + 1))) |}
      :: labelled (S index) rest
  end.

Definition isVideoInput (device : MediaDeviceInfo.t) : bool :=
  String.eqb (MediaDeviceInfo.kind device) "videoinput".

Definition videoDevices (devices : list MediaDeviceInfo.t)
    : list CameraDevice :=
  labelled 0 (filter isVideoInput devices).

(** [checkCameraSupport]: [None] for [true], the error it sets for
    [false]; the two files differ in the texts. *)
Definition checkCameraSupport (noApi noHttps : string) (b : Browser)
    : option string :=
  if negb (getUserMedia b) then Some noApi
  else if negb (String.eqb (protocol b) "https:")
          && negb (String.eqb (hostname b) "localhost")
  then Some noHttps
  else None.

(** The [deviceId] constraint of [startStream]:
    [selectedCamera ? { exact: selectedCamera } : undefined]. *)
Definition deviceConstraint (selectedCamera : string) : option string :=
  if String.eqb selectedCamera "" then None else Some selectedCamera.

(** *** The provider of [CameraContext.tsx] *)

Module Context.

(** What its callbacks read of the render that created them. *)
Record Closure := { c_isStreaming : bool; c_selectedCamera : string }.

Definition checkCameraSupport : Browser -> option string :=
  CameraDevices.checkCameraSupport
    "Trình duyệt không hỗ trợ camera API. Vui lòng sử dụng trình duyệt hiện đại khác."
    "Camera API yêu cầu HTTPS hoặc localhost để hoạt động.".

(** [getCameras], from call to completion: [permission] is whether the
    first [getUserMedia] resolves, [e] how [enumerateDevices]
    settles. *)
Definition getCameras (c : Closure) (b : Browser) (permission : bool)
    (e : Enumerated) (s : State) : State :=
  match checkCameraSupport b with
  | Some err => setCameraError err s
  | None =>
      if negb permission
      then setCameraError
             "Không có quyền truy cập camera. Vui lòng cấp quyền và làm mới trang."
             s
      else
        match e with
        | Rejects m =>
            setCameraError (String.append "Lỗi khi truy cập camera: " m) s
        | Devices devices =>
            match videoDevices devices with
            | [] =>
                setCameraError
                  "Không tìm thấy camera nào. Vui lòng kiểm tra kết nối camera."
                  s
            | (first :: _) as l =>
                let s1 := setCameras l s in
                let s2 := if String.eqb (c_selectedCamera c) ""
                          then setSelectedCamera (deviceId first) s1
                          else s1 in
                setCameraError "" s2
            end
        end
  end.

(** [startStream] up to its [await], by what it asks of the browser:
    nothing (with the error it sets), or a stream under a [deviceId]
    constraint. *)
Inductive Started :=
| NotStarted (error : string)
| Requested (constraint : option string).

Definition startStream (c : Closure) (b : Browser) : Started :=
  match checkCameraSupport b with
  | Some err => NotStarted err
  | None => Requested (deviceConstraint (c_selectedCamera c))
  end.

(** [switchCamera]: the new state, the camera after [stopStream] if it
    was streaming, and the timeout it sets: its delay and the
    [startStream] it will call, which is the one of the render
    [switchCamera] itself comes from. *)
Definition switchCamera (c : Closure) (newCameraId : string) (s : State)
    (cam : CameraContext.Camera)
    : State * CameraContext.Camera * option (Z * Closure) :=
  let s1 := setSelectedCamera newCameraId s in
  if c_isStreaming c
  then (s1, CameraContext.stopStream cam, Some (500, c))
  else (s1, cam, None).

End Context.

(** *** The hook of [useCamera.ts] *)

Module Hook.

Definition checkCameraSupport : Browser -> option string :=
  CameraDevices.checkCameraSupport
    "Trình duyệt không hỗ trợ camera API"
    "Camera API yêu cầu HTTPS hoặc localhost".

Definition getCameras (b : Browser) (permission : bool) (e : Enumerated)
    (s : State) : State :=
  match checkCameraSupport b with
  | Some err => setCameraError err s
  | None =>
      if negb permission
      then setCameraError "Không thể truy cập camera" s
      else
        match e with
        | Rejects _ => setCameraError "Không thể truy cập camera" s
        | Devices devices =>
            match videoDevices devices with
            | [] => setCameraError "Không tìm thấy camera nào" s
            | (first :: _) as l =>
                setCameraError ""
                  (setSelectedCamera (deviceId first) (setCameras l s))
            end
        end
  end.

End Hook.

End CameraDevices.

(** ** The door controller (ESP8266 sketch) *)

Module DoorController.

(** [unsigned long] has 32 bits on the ESP8266. *)
Definition wrap (x : Z) : Z := x mod 2 ^ 32.

(** [millis()] when the board has been up for [uptime] milliseconds. *)
Definition millis (uptime : Z) : Z := wrap uptime.

Definition checkInterval : Z := 2000.
Definition doorOpenDuration : Z := 5000.

(** The requests the sketch posts to the server. *)
Inductive Request :=
| Register
| Status (door_status : string)
| Acknowledge.

(** The globals, the three output pins ([true] for [HIGH]) and the
    requests posted so far, latest first. *)
Record State := {
  lastCheck : Z;
  doorIsOpen : bool;
  doorOpenedAt : Z;
  lastBlink : Z;
  DOOR_LED_PIN : bool;
  RELAY_PIN : bool;
  STATUS_LED_PIN : bool;
  posted : list Request
}.

(** The body of a command poll that [deserializeJson] accepted. *)
Record Command := { has_command : bool; command : string }.

(** What one pass of [loop] reads from outside, one field per place
    that reads: whether [WiFi.status()] is [WL_CONNECTED] there, the
    board's uptime where [millis()] is called, and the answer to the
    poll ([None] for a body that does not parse). *)
Record Readings := {
  wifiLoop : bool;
  wifiAfterConnect : bool;
  wifiRegister : bool;
  uptimePoll : Z;
  wifiPoll : bool;
  httpCode : Z;
  response : option Command;
  uptimeOpened : Z;
  wifiStatusOpen : bool;
  wifiAcknowledge : bool;
  uptimeChecked : Z;
  uptimeClose : Z;
  wifiStatusClose : bool;
  uptimeBlink : Z;
  uptimeBlinked : Z
}.

Definition post (wifi : bool) (q : Request) (s : State) : State :=
  if wifi
  then {| lastCheck := lastCheck s; doorIsOpen := doorIsOpen s;
          doorOpenedAt := doorOpenedAt s; lastBlink := lastBlink s;
          DOOR_LED_PIN := DOOR_LED_PIN s; RELAY_PIN := RELAY_PIN s;
          STATUS_LED_PIN := STATUS_LED_PIN s; posted := q :: posted s |}
  else s.

Definition registerDevice (wifi : bool) : State -> State :=
  post wifi Register.

Definition updateDoorStatus (wifi : bool) (status : string)
    : State -> State :=
  post wifi (Status status).

Definition acknowledgeCommand (wifi : bool) : State -> State :=
  post wifi Acknowledge.

Definition connectToWiFi (r : Readings) (s : State) : State :=
  if wifiAfterConnect r then registerDevice (wifiRegister r) s else s.

Definition openDoor (r : Readings) (s : State) : State :=
  if doorIsOpen s then s
  else
    updateDoorStatus (wifiStatusOpen r) "open"
      {| lastCheck := lastCheck s; doorIsOpen := true;
         doorOpenedAt := millis (uptimeOpened r); lastBlink := lastBlink s;
         DOOR_LED_PIN := false; RELAY_PIN := true;
         STATUS_LED_PIN := STATUS_LED_PIN s; posted := posted s |}.

Definition closeDoor (r : Readings) (s : State) : State :=
  if negb (doorIsOpen s) then s
  else
    updateDoorStatus (wifiStatusClose r) "closed"
      {| lastCheck := lastCheck s; doorIsOpen := false;
         doorOpenedAt := doorOpenedAt s; lastBlink := lastBlink s;
         DOOR_LED_PIN := true; RELAY_PIN := false;
         STATUS_LED_PIN := STATUS_LED_PIN s; posted := posted s |}.

Definition checkDoorCommand (r : Readings) (s : State) : State :=
  if negb (wifiPoll r) then s
  else if httpCode r =? 200
  then match response r with
       | Some doc =>
           if has_command doc && String.eqb (command doc) "open_door"
           then acknowledgeCommand (wifiAcknowledge r) (openDoor r s)
           else s
       | None => s
       end
  else s.

Definition setLastCheck (t : Z) (s : State) : State :=
  {| lastCheck := t; doorIsOpen := doorIsOpen s;
     doorOpenedAt := doorOpenedAt s; lastBlink := lastBlink s;
     DOOR_LED_PIN := DOOR_LED_PIN s; RELAY_PIN := RELAY_PIN s;
     STATUS_LED_PIN := STATUS_LED_PIN s; posted := posted s |}.

Definition blink (t : Z) (s : State) : State :=
  {| lastCheck := lastCheck s; doorIsOpen := doorIsOpen s;
     doorOpenedAt := doorOpenedAt s; lastBlink := t;
     DOOR_LED_PIN := DOOR_LED_PIN s; RELAY_PIN := RELAY_PIN s;
     STATUS_LED_PIN := negb (STATUS_LED_PIN s); posted := posted s |}.

(** One pass of [loop]; the subtractions are those of
    [unsigned long]. *)
Definition loop (r : Readings) (s : State) : State :=
  if negb (wifiLoop r) then connectToWiFi r s
  else
    let s1 :=
      if checkInterval <=? wrap (millis (uptimePoll r) - lastCheck s)
      then setLastCheck (millis (uptimeChecked r)) (checkDoorCommand r s)
      else s in
    let s2 :=
      if doorIsOpen s1
         && (doorOpenDuration
             <=? wrap (millis (uptimeClose r) - doorOpenedAt s1))
      then closeDoor r s1
      else s1 in
    if 1000 <=? wrap (millis (uptimeBlink r) - lastBlink s2)
    then blink (millis (uptimeBlinked r)) s2
    else s2.

(** [setup]: the pins and globals, then [connectToWiFi]. *)
Definition setup (r : Readings) : State :=
  connectToWiFi r
    {| lastCheck := 0; doorIsOpen := false; doorOpenedAt := 0;
       lastBlink := 0; DOOR_LED_PIN := true; RELAY_PIN := false;
       STATUS_LED_PIN := false; posted := [] |}.

(** One pass of [loop] per entry of [rs]. *)
Definition runLoop (rs : list Readings) (s : State) : State :=
  fold_left (fun s r => loop r s) rs s.

End DoorController.

(** The two door pins say what [doorIsOpen] says: the relay is on and
    the (inverted) LED pin low exactly while the door is open. *)
Definition pinsAgree (s : DoorController.State) : Prop :=
  DoorController.RELAY_PIN s = DoorController.doorIsOpen s
  /\ DoorController.DOOR_LED_PIN s = negb (DoorController.doorIsOpen s).

(** Case analysis on how [performAutoRecognition_settled] reads a
    resolved reply. *)
Ltac settle_cases r :=
  unfold performAutoRecognition_settled, verdict;
  destruct (result r) as [?res|];
  [ destruct (success r);
    [ destruct (res_recognized res); [| destruct (_ >=? _)] |] |].

(** Case analysis on which effects a re-render runs. *)
Ltac commit_cases :=
  unfold commit, detectionEffect, autoRecognitionEffect;
  repeat match goal with
         | |- context [if ?b then _ else _] => destruct b
         end; reflexivity.

(** ** Frame capture *)

(** C10 (as amended): [captureImage] of the camera context hands out an
    image only when streaming is true, the video element exists, is
    neither paused nor ended, has [readyState >= 2] (so its metadata is
    loaded) and has non-zero width and height; being a total function
    into [option string], every other case -- streaming false, no
    video element, [readyState < 2], zero width or zero height among
    them -- is a plain [None] and nothing is raised.  The
    stand-alone hook of [hooks/useCamera.ts] promises less: an image it
    returns only shows that the video element exists and that streaming
    is true. *)
Theorem C10_captureImage_guards :
  forall (streaming : bool) (video : option Video) (cv : Canvas) (img : string),
    (CameraContext.captureImage streaming video cv = Some img ->
     streaming = true /\
     exists v, video = Some v /\ paused v = false /\ ended v = false /\
               2 <= readyState v /\ videoWidth v <> 0 /\ videoHeight v <> 0)
    /\
    (streaming = false
     \/ (forall v, video = Some v ->
                   readyState v < 2 \/ videoWidth v = 0 \/ videoHeight v = 0) ->
     CameraContext.captureImage streaming video cv = None)
    /\
    (UseCamera.captureImage streaming video cv = UseCamera.Returns (Some img) ->
     streaming = true /\ exists v, video = Some v).
Proof.
  intros streaming video cv img; split; [|split].
  - unfold CameraContext.captureImage.
    destruct video as [v|]; [|discriminate].
    destruct streaming; simpl; [|discriminate].
    destruct (paused v) eqn:Hp; simpl; [discriminate|].
    destruct (ended v) eqn:He; simpl; [discriminate|].
    destruct (readyState v <? 2) eqn:Hr; [discriminate|].
    destruct (videoWidth v =? 0) eqn:Hw; simpl; [discriminate|].
    destruct (videoHeight v =? 0) eqn:Hh; simpl; [discriminate|].
    intros _. split; [reflexivity|]. exists v.
    apply Z.ltb_ge in Hr. apply Z.eqb_neq in Hw. apply Z.eqb_neq in Hh.
    repeat split; auto.
  - unfold CameraContext.captureImage.
    destruct video as [v|]; [|reflexivity].
    intros [-> | H]; [reflexivity|].
    destruct streaming; [cbn [negb]|reflexivity].
    destruct (paused v || ended v); [reflexivity|].
    destruct (H v eq_refl) as [Hr | [Hw | Hh]].
    + apply Z.ltb_lt in Hr. now rewrite Hr.
    + rewrite Hw. cbn. now destruct (readyState v <? 2).
    + rewrite Hh. cbn. rewrite orb_true_r. now destruct (readyState v <? 2).
  - unfold UseCamera.captureImage.
    destruct video as [v|]; [|discriminate].
    destruct streaming; simpl; [|discriminate].
    intros _. split; [reflexivity|]. exists v; reflexivity.
Qed.

(** C10, counterexample: with streaming true but no metadata and zero
    width and height, the hook of [hooks/useCamera.ts] sizes the canvas
    640 x 480 and returns an image all the same; and an exception
    thrown while drawing or encoding leaves the hook uncaught. *)
Lemma C10_hook_counterexample :
  UseCamera.captureImage true (Some blankVideo) jpegCanvas
    = UseCamera.Returns (Some "data:image/jpeg;base64,/9j/4AAQSkZJRg")
  /\ UseCamera.canvasSize blankVideo = (640, 480)
  /\ UseCamera.captureImage true (Some liveVideo) brokenCanvas
     = UseCamera.Throws
  /\ CameraContext.captureImage true (Some blankVideo) jpegCanvas = None.
Proof. repeat split. Qed.

(** The guards at a playing 1280 x 720 video. *)
Lemma C10_captureImage_guards_witness :
  true = true /\
  exists v, Some liveVideo = Some v /\ paused v = false /\ ended v = false /\
            2 <= readyState v /\ videoWidth v <> 0 /\ videoHeight v <> 0.
Proof.
  apply (proj1 (C10_captureImage_guards true (Some liveVideo) jpegCanvas
                  "data:image/jpeg;base64,/9j/4AAQSkZJRg")).
  reflexivity.
Defined.

(** ** Multi-variation capture *)

Lemma enroll_notify t d s : enroll (notify t d s) = enroll s.
Proof. reflexivity. Qed.

Lemma frameOf_notify t d s : frameOf (notify t d s) = frameOf s.
Proof. reflexivity. Qed.

Lemma nth_error_skipn {A} (l : list A) k x :
  nth_error l k = Some x -> skipn k l = x :: skipn (S k) l.
Proof.
  revert k; induction l as [|y l IH]; intros [|k] H; simpl in *;
    try discriminate.
  - now inversion H.
  - now apply IH.
Qed.

Lemma captureNextVariation_success s reply cur :
  nth_error VARIATION_TYPES (currentVariationIndex (enroll s)) = Some cur ->
  truthy (frameOf s) = true ->
  addFaceVariation reply = true ->
  let s' := captureNextVariation (render s) reply s in
  capturedVariations (enroll s') = capturedVariations (enroll s) ++ [value cur]
  /\ currentVariationIndex (enroll s') = S (currentVariationIndex (enroll s))
  /\ frameOf s' = frameOf s.
Proof.
  intros Hn Hf Ha. unfold captureNextVariation.
  cbn [render c_currentVariationIndex c_isStreaming].
  assert (Hlt : (currentVariationIndex (enroll s)
                 < List.length VARIATION_TYPES)%nat)
    by (apply nth_error_Some; congruence).
  apply Nat.leb_gt in Hlt. rewrite Hlt, Hn.
  change (CameraContext.captureImage _ _ _) with (frameOf s).
  rewrite Hf, Ha. cbn [negb].
  destruct (_ + 1 <? _)%nat;
    [destruct (nth_error VARIATION_TYPES (_ + 1))|];
    rewrite ?enroll_notify, ?frameOf_notify; repeat split.
Qed.

Lemma captureNextVariation_failure s reply :
  (currentVariationIndex (enroll s) < List.length VARIATION_TYPES)%nat ->
  truthy (frameOf s) = false \/ addFaceVariation reply = false ->
  enroll (captureNextVariation (render s) reply s) = enroll s.
Proof.
  intros Hlt H. unfold captureNextVariation.
  cbn [render c_currentVariationIndex c_isStreaming].
  apply Nat.leb_gt in Hlt. rewrite Hlt.
  destruct (nth_error _ _); [|reflexivity].
  change (CameraContext.captureImage _ _ _) with (frameOf s).
  destruct (truthy (frameOf s)); cbn [negb]; [|reflexivity].
  destruct H as [H|H]; [discriminate|]. now rewrite H.
Qed.

Lemma captureAll_success replies :
  forall s,
    Forall (fun r => addFaceVariation r = true) replies ->
    truthy (frameOf s) = true ->
    (currentVariationIndex (enroll s) + List.length replies
       <= List.length VARIATION_TYPES)%nat ->
    let s' := captureAll replies s in
    capturedVariations (enroll s')
      = capturedVariations (enroll s)
        ++ map value (firstn (List.length replies)
                        (skipn (currentVariationIndex (enroll s))
                           VARIATION_TYPES))
    /\ currentVariationIndex (enroll s')
       = (currentVariationIndex (enroll s) + List.length replies)%nat.
Proof.
  induction replies as [|r rs IH]; intros s Hall Hf Hle.
  - cbn. rewrite app_nil_r, Nat.add_0_r. split; reflexivity.
  - inversion Hall as [|? ? Hr Hrs]; subst.
    cbn [List.length] in Hle.
    destruct (nth_error VARIATION_TYPES (currentVariationIndex (enroll s)))
      as [cur|] eqn:Hn.
    2:{ apply nth_error_None in Hn. lia. }
    destruct (captureNextVariation_success s r cur Hn Hf Hr)
      as (Hc & Hi & Hf').
    set (s1 := captureNextVariation (render s) r s) in *.
    change (captureAll (r :: rs) s) with (captureAll rs s1).
    destruct (IH s1 Hrs) as (Hc2 & Hi2).
    + now rewrite Hf'.
    + rewrite Hi. lia.
    + cbn zeta. rewrite Hc2, Hi2, Hc, Hi.
      rewrite (nth_error_skipn _ _ _ Hn). cbn [List.length firstn map].
      rewrite <- app_assoc. split; [reflexivity | lia].
Qed.

(** C9: in an enrollment over the seven-entry catalog, a capture step
    whose upload succeeds appends the value of the current catalog
    entry to [capturedVariations] and advances the index by exactly
    one; a step that fails (no frame, or the upload resolves without
    success or is rejected) leaves the whole session state unchanged;
    and seven successful steps after [startMultiVariationCapture] leave
    the index at the catalog length with [capturedVariations] equal to
    the catalog values in catalog order. *)
Theorem C9_capture_sequence :
  List.length VARIATION_TYPES = 7%nat
  /\ (forall s reply cur,
        nth_error VARIATION_TYPES (currentVariationIndex (enroll s))
          = Some cur ->
        truthy (frameOf s) = true ->
        addFaceVariation reply = true ->
        capturedVariations (enroll (captureNextVariation (render s) reply s))
          = capturedVariations (enroll s) ++ [value cur]
        /\ currentVariationIndex
             (enroll (captureNextVariation (render s) reply s))
           = S (currentVariationIndex (enroll s)))
  /\ (forall s reply,
        (currentVariationIndex (enroll s) < List.length VARIATION_TYPES)%nat ->
        truthy (frameOf s) = false \/ addFaceVariation reply = false ->
        enroll (captureNextVariation (render s) reply s) = enroll s)
  /\ (forall s personName replies,
        List.length replies = 7%nat ->
        Forall (fun r => addFaceVariation r = true) replies ->
        truthy (frameOf s) = true ->
        let s' :=
          captureAll replies (startMultiVariationCapture personName s) in
        capturedVariations (enroll s') = map value VARIATION_TYPES
        /\ currentVariationIndex (enroll s') = List.length VARIATION_TYPES).
Proof.
  split; [reflexivity|]. split; [|split].
  - intros s reply cur Hn Hf Ha.
    destruct (captureNextVariation_success s reply cur Hn Hf Ha)
      as (H1 & H2 & _).
    split; assumption.
  - apply captureNextVariation_failure.
  - intros s personName replies Hlen Hall Hf.
    destruct (captureAll_success replies
                (startMultiVariationCapture personName s) Hall) as (Hc & Hi).
    + exact Hf.
    + rewrite Hlen. cbn. lia.
    + cbn zeta in *. rewrite Hc, Hi, Hlen. cbn. repeat split.
Qed.

(** Seven successful uploads on the running page. *)
Lemma C9_capture_sequence_witness :
  capturedVariations
    (enroll (captureAll (repeat uploaded 7)
               (startMultiVariationCapture "An" watching)))
    = map value VARIATION_TYPES
  /\ currentVariationIndex
       (enroll (captureAll (repeat uploaded 7)
                  (startMultiVariationCapture "An" watching)))
     = List.length VARIATION_TYPES.
Proof.
  apply (proj2 (proj2 (proj2 C9_capture_sequence)) watching "An"
           (repeat uploaded 7)).
  - reflexivity.
  - repeat constructor.
  - reflexivity.
Defined.

(** ** Automatic recognition: one tick, one reply *)

Example firstAttemptOut_outstanding :
  outstanding firstAttemptOut = [firstAttempt]
  /\ status firstAttemptOut = scanning.
Proof. vm_compute. split; reflexivity. Qed.

(** The five ways a call of [performAutoRecognition] ends before its
    [await]. *)
Lemma performAutoRecognition_cases c now s :
  let a := c_autoRecognition c in
  (performAutoRecognition c now s = s
   /\ (earlyReturn c = true \/ inCooldown a now = true
       \/ (attemptCount a < maxAttempts a /\ now - lastAttempt a < 2000)))
  \/ (earlyReturn c = false /\ inCooldown a now = false
      /\ maxAttempts a <= attemptCount a
      /\ performAutoRecognition c now s
         = setAutoRecognition (armCooldown now) s)
  \/ (earlyReturn c = false /\ inCooldown a now = false
      /\ attemptCount a < maxAttempts a /\ 2000 <= now - lastAttempt a
      /\ ((truthy (frameFor c s) = false
           /\ performAutoRecognition c now s
              = setRecognitionStatus idle (setRecognitionStatus scanning s))
          \/ (exists image,
                frameFor c s = Some image /\ truthy (frameFor c s) = true
                /\ performAutoRecognition c now s
                   = recognizeFace c now image
                       (setRecognitionStatus scanning s)))).
Proof.
  cbn zeta. unfold performAutoRecognition. fold (earlyReturn c).
  destruct (earlyReturn c) eqn:He; [left; auto|].
  destruct (inCooldown _ now) eqn:Hc; [left; auto|].
  destruct (_ >=? _) eqn:Hm.
  { right; left. apply Z.geb_le in Hm. auto. }
  assert (Hlt : attemptCount (c_autoRecognition c)
                < maxAttempts (c_autoRecognition c)).
  { rewrite Z.geb_leb in Hm. apply Z.leb_gt in Hm. exact Hm. }
  destruct (_ <? 2000) eqn:Hi.
  { left. apply Z.ltb_lt in Hi. auto. }
  apply Z.ltb_ge in Hi. right; right.
  do 4 (split; [first [reflexivity | assumption]|]).
  change (CameraContext.captureImage (c_isStreaming c)
            (CameraContext.videoRef
               (camera (setRecognitionStatus scanning s)))
            (canvas (browser (setRecognitionStatus scanning s))))
    with (frameFor c s).
  destruct (frameFor c s) as [image|] eqn:Hf.
  - destruct (truthy (Some image)) eqn:Ht.
    + right. exists image. auto.
    + left. auto.
  - left. auto.
Qed.

(** C1 (as amended): a call of [performAutoRecognition] that issues a
    recognition request sets the status to scanning and leaves
    [attemptCount] and [lastAttempt] (the whole control block) as they
    were; the request only carries the request-time [now].  The
    accounting is done when the call resolves: [lastAttempt] becomes
    that [now] and [attemptCount] goes up by one (and then back to 0
    with the stop that follows a match).  A call that is rejected does
    no accounting at all. *)
Theorem C1_accounting_when_call_resolves :
  forall c now s a r,
    (issued (browser (performAutoRecognition c now s)) <> issued (browser s) ->
     status (performAutoRecognition c now s) = scanning
     /\ counters (performAutoRecognition c now s) = counters s
     /\ exists image,
          outstanding (performAutoRecognition c now s)
          = outstanding s
            ++ [{| a_id := issued (browser s); a_now := now;
                   a_closure := c; a_image := image |}])
    /\ (lastAttempt (counters (performAutoRecognition_settled a (Resolved r) s))
        = a_now a
        /\ attemptCount
             (counters (performAutoRecognition_settled a (Resolved r) s))
           = match verdict r with
             | Match => 0
             | _ => attemptCount (counters s) + 1
             end)
    /\ counters (performAutoRecognition_settled a Rejected s) = counters s.
Proof.
  intros c now s a r. split; [|split].
  - intros Hi.
    destruct (performAutoRecognition_cases c now s)
      as [(E & _)
         | [(_ & _ & _ & E)
           | (_ & _ & _ & _ & [(_ & E) | (image & _ & _ & E)])]];
      rewrite E in *; try (exfalso; apply Hi; reflexivity).
    repeat split. exists image. reflexivity.
  - settle_cases r; split; reflexivity.
  - reflexivity.
Qed.

(** C1, counterexample: after the start button and the first tick the
    request is out and the status is scanning, yet [attemptCount] and
    [lastAttempt] are still 0. *)
Lemma C1_counterexample :
  option_map
    (fun s => (status s, List.length (outstanding s),
               attemptCount (counters s), lastAttempt (counters s)))
    (run [(pageLoad + 9000, ClickStartAutoRecognition);
          (pageLoad + 10000, AutoRecognitionTick)] watching)
  = Some (scanning, 1%nat, 0, 0).
Proof. vm_compute. reflexivity. Qed.

(** The first tick after the start button. *)
Lemma C1_accounting_when_call_resolves_witness :
  status (performAutoRecognition (render (startAutoRecognition watching))
            (pageLoad + 10000) (startAutoRecognition watching)) = scanning
  /\ counters (performAutoRecognition (render (startAutoRecognition watching))
                 (pageLoad + 10000) (startAutoRecognition watching))
     = counters (startAutoRecognition watching)
  /\ exists image,
       outstanding (performAutoRecognition
                      (render (startAutoRecognition watching))
                      (pageLoad + 10000)
                      (startAutoRecognition watching))
       = outstanding (startAutoRecognition watching)
         ++ [{| a_id := issued (browser (startAutoRecognition watching));
                a_now := pageLoad + 10000;
                a_closure := render (startAutoRecognition watching);
                a_image := image |}].
Proof.
  apply (proj1 (C1_accounting_when_call_resolves
                  (render (startAutoRecognition watching))
                  (pageLoad + 10000)
                  (startAutoRecognition watching)
                  firstAttempt
                  {| success := false; message := ""; result := None |})).
  vm_compute. discriminate.
Defined.

(** C3 (as amended): a reply that arrives after [stopAutoRecognition]
    is processed like any other.  What it leaves alone is [isActive]
    (still false) and [cooldownUntil] (still null).  A rejected call
    sets the status to idle.  A resolved call sets [lastAttempt] to the
    time of its request and then, on a match, sets the status to
    recognized, unlocks the door and leaves [attemptCount] at 0; on a
    miss sets the status to unknown and adds one to [attemptCount];
    otherwise only adds one to [attemptCount]. *)
Theorem C3_late_reply_is_processed :
  forall a reply s,
    isActive (counters s) = false ->
    cooldownUntil (counters s) = None ->
    let s' := performAutoRecognition_settled a reply s in
    isActive (counters s') = false
    /\ cooldownUntil (counters s') = None
    /\ match reply with
       | Rejected =>
           counters s' = counters s /\ status s' = idle /\ door s' = door s
       | Resolved r =>
           lastAttempt (counters s') = a_now a
           /\ match verdict r with
              | Match =>
                  status s' = recognized /\ door s' = unlocked
                  /\ attemptCount (counters s') = 0
              | NoMatch =>
                  status s' = unknown /\ door s' = door s
                  /\ attemptCount (counters s') = attemptCount (counters s) + 1
              | NoVerdict =>
                  status s' = status s /\ door s' = door s
                  /\ attemptCount (counters s') = attemptCount (counters s) + 1
              end
       end.
Proof.
  intros a reply s Ha Hc. cbn zeta. destruct reply as [|r].
  - cbn. repeat split; assumption.
  - settle_cases r; cbn; unfold counters in *; rewrite ?Ha, ?Hc;
      repeat split.
Qed.

(** C3, counterexample: start, first tick, stop, and then the reply to
    the attempt that was in flight.  Before the reply the control block
    is reset, the door locked, the status scanning; a late match
    unlocks the door, a late miss counts an attempt. *)
Lemma C3_counterexample :
  let view s := (counters s, door s, status s) in
  let stopped := [(pageLoad + 9000, ClickStartAutoRecognition);
                  (pageLoad + 10000, AutoRecognitionTick);
                  (pageLoad + 10300, ClickStopAutoRecognition)] in
  option_map view (run stopped watching)
  = Some ({| isActive := false; attemptCount := 0; maxAttempts := 10;
             cooldownUntil := None; lastAttempt := 0 |}, locked, scanning)
  /\ option_map view
       (run (stopped ++ [(pageLoad + 10800,
                          RecognitionSettles 0 (recognizedAs "An"))])
          watching)
     = Some ({| isActive := false; attemptCount := 0; maxAttempts := 10;
                cooldownUntil := None; lastAttempt := pageLoad + 10000 |},
             unlocked, recognized)
  /\ option_map view
       (run (stopped ++ [(pageLoad + 10800,
                          RecognitionSettles 0 notRecognized)])
          watching)
     = Some ({| isActive := false; attemptCount := 1; maxAttempts := 10;
                cooldownUntil := None; lastAttempt := pageLoad + 10000 |},
             locked, unknown).
Proof. vm_compute. repeat split. Qed.

(** A miss that arrives after the stop button. *)
Lemma C3_late_reply_is_processed_witness :
  isActive (counters (performAutoRecognition_settled firstAttempt
                        notRecognized loopStopped)) = false
  /\ status (performAutoRecognition_settled firstAttempt
               notRecognized loopStopped) = unknown.
Proof.
  destruct (C3_late_reply_is_processed firstAttempt notRecognized loopStopped)
    as (H1 & _ & _ & H2 & _).
  - reflexivity.
  - reflexivity.
  - split; [exact H1 | exact H2].
Defined.

(** ** Failed attempts and the cooldown *)

(** C5 (as amended): a resolved reply that reports no match sets the
    status to unknown, schedules the return to idle 1000 ms later and
    counts the attempt, and that is all it does to the control block:
    [cooldownUntil] and [isActive] stay as they are even when the count
    reaches [maxAttempts].  A rejected call (transport error, error
    status, unparsable body) sets the status straight to idle and
    changes nothing else.  The cooldown is armed by a later tick: one
    that passes the first guard, is not in a cooldown and reads
    [attemptCount >= maxAttempts] sets [cooldownUntil] to its own
    [now + 30000] and [attemptCount] to 0, leaves [isActive] unchanged
    and issues no request. *)
Theorem C5_failed_attempts :
  forall a r c now s,
    (verdict r = NoMatch ->
     status (performAutoRecognition_settled a (Resolved r) s) = unknown
     /\ (exists earlier,
           scheduled (performAutoRecognition_settled a (Resolved r) s)
           = earlier ++ [(clock (browser s) + 1000, BackToIdle)])
     /\ counters (performAutoRecognition_settled a (Resolved r) s)
        = countAttempt (a_now a) (counters s))
    /\ status (runTimer BackToIdle s) = idle
    /\ performAutoRecognition_settled a Rejected s
       = setRecognitionStatus idle s
    /\ (earlyReturn c = false ->
        inCooldown (c_autoRecognition c) now = false ->
        maxAttempts (c_autoRecognition c)
          <= attemptCount (c_autoRecognition c) ->
        performAutoRecognition c now s
          = setAutoRecognition (armCooldown now) s
        /\ cooldownUntil (counters (performAutoRecognition c now s))
           = Some (now + 30000)
        /\ attemptCount (counters (performAutoRecognition c now s)) = 0
        /\ isActive (counters (performAutoRecognition c now s))
           = isActive (counters s)
        /\ outstanding (performAutoRecognition c now s) = outstanding s).
Proof.
  intros a r c now s. split; [|split; [|split]].
  - revert s. settle_cases r; intros s Hv; try discriminate.
    + cbn. repeat split.
      exists (scheduled s ++ [(clock (browser s) + 3000,
                               RemoveToast (toastCount (browser s)))]).
      reflexivity.
    + cbn. repeat split. exists (scheduled s). reflexivity.
  - reflexivity.
  - reflexivity.
  - intros He Hc Hm.
    destruct (performAutoRecognition_cases c now s)
      as [(_ & [E | [E | (E & _)]]) | [(_ & _ & _ & E) | (_ & _ & E & _)]];
      try congruence; try lia.
    rewrite E. repeat split.
Qed.

(** C5, counterexample: a rejected call takes the status from scanning
    straight to idle, with no timer pending and no attempt counted; a
    reply without [success] leaves the status at scanning with no timer
    pending; and after ten misses in a row, 2 s apart, [attemptCount]
    is 10 and [cooldownUntil] is still null. *)
Lemma C5_counterexample :
  let view s := (status s, scheduled s, counters s) in
  option_map view
    (step (pageLoad + 10400) (RecognitionSettles 0 Rejected) firstAttemptOut)
  = Some (idle, [],
          {| isActive := true; attemptCount := 0; maxAttempts := 10;
             cooldownUntil := None; lastAttempt := 0 |})
  /\ option_map view
       (step (pageLoad + 10400) (RecognitionSettles 0 refused) firstAttemptOut)
     = Some (scanning, [],
             {| isActive := true; attemptCount := 1; maxAttempts := 10;
                cooldownUntil := None; lastAttempt := pageLoad + 10000 |})
  /\ option_map (fun s => (status s, counters s)) (run tenMisses watching)
     = Some (unknown,
             {| isActive := true; attemptCount := 10; maxAttempts := 10;
                cooldownUntil := None; lastAttempt := pageLoad + 28000 |}).
Proof. vm_compute. repeat split. Qed.

(** The first attempt answered with a miss. *)
Lemma C5_failed_attempts_witness :
  status (performAutoRecognition_settled firstAttempt notRecognized
            firstAttemptOut) = unknown.
Proof.
  apply (proj1 (C5_failed_attempts firstAttempt
                  {| success := true; message := "Unknown face";
                     result := Some {| res_recognized := false;
                                       res_name := None;
                                       res_best_variation := None |} |}
                  (render watching) 0 firstAttemptOut)).
  reflexivity.
Defined.

(** The effects only write the interval refs. *)
Lemma counters_commit old new : counters (commit old new) = counters new.
Proof. commit_cases. Qed.

Lemma browser_commit old new : browser (commit old new) = browser new.
Proof. commit_cases. Qed.

Lemma recog_commit old new : recog (commit old new) = recog new.
Proof. commit_cases. Qed.

Lemma camera_commit old new : camera (commit old new) = camera new.
Proof. commit_cases. Qed.

(** Every event either keeps [cooldownUntil], clears it, or is a tick
    of the recognition interval that reads [attemptCount >= maxAttempts]
    and arms it. *)
Lemma cooldown_written_by s t e s' :
  step t e s = Some s' ->
  cooldownUntil (counters s') = cooldownUntil (counters s)
  \/ cooldownUntil (counters s') = None
  \/ (cooldownUntil (counters s') = Some (t + 30000)
      /\ e = AutoRecognitionTick
      /\ exists iv,
           autoRecognitionIntervalRef (refs s) = Some iv
           /\ maxAttempts (c_autoRecognition (callback iv))
              <= attemptCount (c_autoRecognition (callback iv))).
Proof.
  unfold step. destruct (t <? clock (browser s)); [discriminate|].
  destruct (handle t e (setClock t s)) as [s1|] eqn:Hh; [|discriminate].
  cbn [option_map]. intros E; inversion E; subst s'; clear E.
  rewrite counters_commit.
  destruct e; cbn [handle] in Hh.
  - destruct (_ && _); inversion Hh; subst. right; left; reflexivity.
  - destruct (_ && _); inversion Hh; subst. right; left; reflexivity.
  - destruct (CameraContext.isStreaming _); inversion Hh; subst.
    left; reflexivity.
  - cbn in Hh.
    destruct (autoRecognitionIntervalRef (refs s)) as [iv|] eqn:Hr;
      [|discriminate].
    destruct (due iv <=? t); inversion Hh; subst; clear Hh.
    match goal with
    | |- context [performAutoRecognition ?c ?n ?x] =>
        destruct (performAutoRecognition_cases c n x)
          as [(E & _) | [(_ & _ & Hm & E)
                        | (_ & _ & _ & _ & [(_ & E) | (image & _ & _ & E)])]];
          rewrite E
    end; try (left; reflexivity).
    right; right. split; [reflexivity|]. split; [reflexivity|].
    exists iv. split; [reflexivity | exact Hm].
  - destruct (find _ _) as [a|]; inversion Hh; subst; clear Hh.
    destruct reply as [|r]; [left; reflexivity|].
    settle_cases r; cbn; auto.
  - cbn in Hh. destruct (detectionIntervalRef (refs s)); [|discriminate].
    destruct (_ <=? t); inversion Hh; subst; clear Hh.
    unfold detectFaces.
    repeat match goal with
           | |- context [match ?b with _ => _ end] => destruct b
           end; left; reflexivity.
  - cbn in Hh. destruct (passes (browser s)); inversion Hh; subst.
    destruct r; left; reflexivity.
  - cbn in Hh. destruct (nth_error _ i) as [[d act]|]; [|discriminate].
    destruct (d <=? t); inversion Hh; subst.
    destruct act; left; reflexivity.
Qed.

(** A tick of an interval whose callback reads no cooldown and
    [attemptCount >= maxAttempts] arms the cooldown and does nothing
    else; the interval keeps its callback. *)
Lemma tick_rearms s iv t :
  autoRecognitionIntervalRef (refs s) = Some iv ->
  due iv <= t ->
  clock (browser s) <= t ->
  earlyReturn (callback iv) = false ->
  cooldownUntil (c_autoRecognition (callback iv)) = None ->
  maxAttempts (c_autoRecognition (callback iv))
  <= attemptCount (c_autoRecognition (callback iv)) ->
  step t AutoRecognitionTick s
  = Some (setAutoRecognition (armCooldown t)
            (setAutoRecognitionIntervalRef
               (Some {| due := t + 1000; callback := callback iv |})
               (setClock t s))).
Proof.
  intros Hr Hdue Hclk He Hc Hm. unfold step.
  apply Z.ltb_ge in Hclk. rewrite Hclk.
  cbn [handle setClock withBrowser refs]. rewrite Hr.
  apply Z.leb_le in Hdue. rewrite Hdue.
  unfold performAutoRecognition.
  unfold earlyReturn in He. rewrite He.
  unfold inCooldown. rewrite Hc.
  apply Z.geb_le in Hm. rewrite Hm.
  unfold option_map. f_equal.
  unfold commit, sameRecognitionDeps, sameDetectionDeps. cbn.
  now rewrite !Bool.eqb_reflx.
Qed.

(** So do all the ticks that follow: however many there are, none
    issues a request, and each moves the deadline. *)
Lemma ticks_only_rearm n :
  forall from s iv,
    autoRecognitionIntervalRef (refs s) = Some iv ->
    due iv <= from ->
    clock (browser s) <= from ->
    earlyReturn (callback iv) = false ->
    cooldownUntil (c_autoRecognition (callback iv)) = None ->
    maxAttempts (c_autoRecognition (callback iv))
    <= attemptCount (c_autoRecognition (callback iv)) ->
    option_map (fun s' => (issued (browser s'), counters s'))
      (run (everySecond (S n) from) s)
    = Some (issued (browser s),
            armCooldown (from + 1000 * Z.of_nat n) (counters s)).
Proof.
  induction n as [|n IH]; intros from s iv Hr Hdue Hclk He Hc Hm.
  - cbn [everySecond run].
    rewrite (tick_rearms s iv from Hr Hdue Hclk He Hc Hm).
    cbn. do 3 f_equal. lia.
  - change (everySecond (S (S n)) from)
      with ((from, AutoRecognitionTick) :: everySecond (S n) (from + 1000)).
    cbn [run].
    rewrite (tick_rearms s iv from Hr Hdue Hclk He Hc Hm).
    set (iv1 := {| due := from + 1000; callback := callback iv |}).
    set (s1 := setAutoRecognition (armCooldown from)
                 (setAutoRecognitionIntervalRef (Some iv1)
                    (setClock from s))).
    rewrite (IH (from + 1000) s1 iv1 eq_refl ltac:(cbn; lia)
               ltac:(cbn; lia) He Hc Hm).
    rewrite Nat2Z.inj_succ. subst s1.
    unfold armCooldown, counters, setAutoRecognition, withRecog.
    cbn [recog autoRecognition isActive maxAttempts lastAttempt browser
         issued setAutoRecognitionIntervalRef withRefs setClock
         withBrowser].
    do 4 f_equal. lia.
Qed.

Lemma render_counters s : c_autoRecognition (render s) = counters s.
Proof. reflexivity. Qed.

(** The interval the restart created, and what its callback reads. *)
Lemma streamRestarted_interval :
  autoRecognitionIntervalRef (refs streamRestarted)
  = Some {| due := pageLoad + 32000; callback := render streamRestarted |}
  /\ clock (browser streamRestarted) = pageLoad + 31000
  /\ earlyReturn (render streamRestarted) = false
  /\ issued (browser streamRestarted) = 10%nat
  /\ counters streamRestarted
     = {| isActive := true; attemptCount := 10; maxAttempts := 10;
          cooldownUntil := None; lastAttempt := pageLoad + 28000 |}.
Proof. vm_compute. repeat split. Qed.

(** C6: the cooldown does not do on the page what the claim says.  A
    tick tests the control block of the render that created its
    interval, not the current one.  (1) The interval the start button
    creates reads [attemptCount = 0] for as long as it runs: after ten
    counted misses [attemptCount] is 10 = [maxAttempts], no deadline is
    written, and the next three ticks issue requests 10, 11 and 12.
    (2) When the stream is stopped and started again at that point
    ([stopStream] leaves [isActive] set), the new interval reads
    [attemptCount = 10] and no deadline for as long as it runs: (3)
    each of its ticks arms the cooldown again, the first one in a
    state with [attemptCount = 10], every later one in a state with
    [attemptCount = 0]; the deadline is always 30 s after the last
    tick, and no tick ever issues a request, also not the ticks after
    the first deadline (62 s) has passed. *)
Theorem C6_cooldown_not_enforced :
  option_map (fun s => (issued (browser s), counters s))
    (run (tenMisses ++ [(pageLoad + 29000, AutoRecognitionTick);
                        (pageLoad + 29400, TimeoutFires 0);
                        (pageLoad + 30000, AutoRecognitionTick);
                        (pageLoad + 31000, AutoRecognitionTick)])
       watching)
  = Some (13%nat,
          {| isActive := true; attemptCount := 10; maxAttempts := 10;
             cooldownUntil := None; lastAttempt := pageLoad + 28000 |})
  /\ (issued (browser streamRestarted), counters streamRestarted,
      option_map (fun iv => c_autoRecognition (callback iv))
        (autoRecognitionIntervalRef (refs streamRestarted)))
     = (10%nat,
        {| isActive := true; attemptCount := 10; maxAttempts := 10;
           cooldownUntil := None; lastAttempt := pageLoad + 28000 |},
        Some {| isActive := true; attemptCount := 10; maxAttempts := 10;
                cooldownUntil := None; lastAttempt := pageLoad + 28000 |})
  /\ forall n,
       option_map (fun s => (issued (browser s), counters s))
         (run (everySecond (S n) (pageLoad + 32000)) streamRestarted)
       = Some (10%nat,
               {| isActive := true; attemptCount := 0; maxAttempts := 10;
                  cooldownUntil :=
                    Some (pageLoad + 62000 + 1000 * Z.of_nat n);
                  lastAttempt := pageLoad + 28000 |}).
Proof.
  split; [vm_compute; reflexivity|].
  destruct streamRestarted_interval as (Hr & Hclk & He & Hi & Hk).
  split.
  - rewrite Hr, Hi, Hk. cbn [option_map callback].
    rewrite render_counters.
    rewrite Hk. reflexivity.
  - intros n.
    rewrite (ticks_only_rearm n (pageLoad + 32000) streamRestarted _ Hr).
    + rewrite Hi, Hk. unfold armCooldown.
      cbn [isActive maxAttempts lastAttempt]. do 4 f_equal. lia.
    + cbn [due]. lia.
    + rewrite Hclk. lia.
    + exact He.
    + cbn [callback].
      rewrite render_counters.
      rewrite Hk. reflexivity.
    + cbn [callback].
      rewrite render_counters.
      rewrite Hk. cbn. lia.
Qed.

(** ** Single flight *)

(** A tick whose closure reads the status as scanning does nothing. *)
Lemma tick_reading_scanning_is_noop c now s :
  c_recognitionStatus c = scanning -> performAutoRecognition c now s = s.
Proof.
  intros H. unfold performAutoRecognition. rewrite H.
  cbn [RecognitionStatus_eqb]. now rewrite !orb_true_r.
Qed.

(** C2, failing runs.  Ticks and latencies only: the first request is
    answered with a miss after 2.5 s, which sets the status to unknown
    and schedules the return to idle 1 s later; the tick 500 ms after
    the miss issues a second request and sets the status to scanning;
    500 ms later the timer of the first attempt sets the status to
    idle; the next tick, 1 s after the previous one, issues a third
    request while the second is still unanswered.  With a restart: a
    first attempt is answered with a match after 400 ms, which stops
    the loop and schedules the relock 5 s later; 3.5 s after the match
    the loop is started again; its first tick issues a request; 500 ms
    later the relock timer sets the status to idle; the next tick
    issues another request while the previous one is unanswered. *)
Theorem C2_two_attempts_outstanding :
  let view s := (status s, map a_id (outstanding s),
                 map a_now (outstanding s)) in
  option_map view
    (run [(pageLoad + 9000, ClickStartAutoRecognition);
          (pageLoad + 10000, AutoRecognitionTick);
          (pageLoad + 12500, RecognitionSettles 0 notRecognized);
          (pageLoad + 13000, AutoRecognitionTick);
          (pageLoad + 13500, TimeoutFires 0);
          (pageLoad + 14000, AutoRecognitionTick)] watching)
  = Some (scanning, [1%nat; 2%nat], [pageLoad + 13000; pageLoad + 14000])
  /\ option_map view
       (run [(pageLoad + 9000, ClickStartAutoRecognition);
             (pageLoad + 10000, AutoRecognitionTick);
             (pageLoad + 10400, RecognitionSettles 0 (recognizedAs "An"));
             (pageLoad + 13400, TimeoutFires 0);
             (pageLoad + 13900, ClickStartAutoRecognition);
             (pageLoad + 14900, AutoRecognitionTick);
             (pageLoad + 15400, TimeoutFires 0);
             (pageLoad + 15900, AutoRecognitionTick)] watching)
     = Some (scanning, [1%nat; 2%nat],
             [pageLoad + 14900; pageLoad + 15900]).
Proof. vm_compute. split; reflexivity. Qed.

(** ** Stopping the stream *)

(** Without an interval there is no tick. *)
Lemma tick_needs_interval t s :
  (autoRecognitionIntervalRef (refs s) = None ->
   step t AutoRecognitionTick s = None)
  /\ (detectionIntervalRef (refs s) = None ->
      step t DetectionTick s = None).
Proof.
  unfold step. split; intros H;
    destruct (t <? clock (browser s)); try reflexivity;
    cbn; rewrite H; reflexivity.
Qed.

(** C4 (as amended): [stopStream], called from its button while the
    page is streaming, sets [isStreaming] to false; the re-render that
    follows clears the detection interval and the recognition interval,
    so neither poller ticks again.  It leaves the recognition state as
    it is -- [isActive], [attemptCount], the status and the door -- and
    the requests in flight stay in flight. *)
Theorem C4_stopStream_leaves_controller :
  forall t s s',
    step t ClickStopStream s = Some s' ->
    CameraContext.isStreaming (camera s') = false
    /\ detectionIntervalRef (refs s') = None
    /\ autoRecognitionIntervalRef (refs s') = None
    /\ (forall t', step t' DetectionTick s' = None)
    /\ (forall t', step t' AutoRecognitionTick s' = None)
    /\ recog s' = recog s
    /\ outstanding s' = outstanding s.
Proof.
  intros t s s' Hstep.
  assert (H : CameraContext.isStreaming (camera s') = false
              /\ detectionIntervalRef (refs s') = None
              /\ autoRecognitionIntervalRef (refs s') = None
              /\ recog s' = recog s
              /\ outstanding s' = outstanding s).
  { revert Hstep. unfold step.
    destruct (t <? clock (browser s)); [discriminate|].
    cbn [handle].
    destruct (CameraContext.isStreaming (camera (setClock t s))) eqn:Hs;
      [|discriminate].
    unfold option_map. intros [= <-].
    unfold commit, sameRecognitionDeps, sameDetectionDeps.
    cbn in Hs. cbn. rewrite Hs. cbn.
    rewrite andb_false_r. cbn.
    unfold autoRecognitionEffect, detectionEffect. cbn.
    rewrite andb_false_r. cbn. repeat split. }
  destruct H as (H1 & H2 & H3 & H4 & H5).
  repeat split; try assumption.
  - intros t'. now apply tick_needs_interval.
  - intros t'. now apply tick_needs_interval.
Qed.

(** C4, counterexample: [stopStream] while the first attempt is in
    flight leaves [isActive] true and the status scanning; after the
    reply and the timer it schedules, the status is idle and
    [isActive] is still true. *)
Lemma C4_counterexample :
  let view s := (CameraContext.isStreaming (camera s),
                 isActive (counters s), status s) in
  option_map view
    (run [(pageLoad + 9000, ClickStartAutoRecognition);
          (pageLoad + 10000, AutoRecognitionTick);
          (pageLoad + 10300, ClickStopStream)] watching)
  = Some (false, true, scanning)
  /\ option_map view
       (run [(pageLoad + 9000, ClickStartAutoRecognition);
             (pageLoad + 10000, AutoRecognitionTick);
             (pageLoad + 10300, ClickStopStream);
             (pageLoad + 10800, RecognitionSettles 0 notRecognized);
             (pageLoad + 11800, TimeoutFires 0)] watching)
     = Some (false, true, idle).
Proof. vm_compute. split; reflexivity. Qed.

(** [stopStream] with the first attempt in flight. *)
Lemma C4_stopStream_leaves_controller_witness :
  CameraContext.isStreaming (camera streamStopped) = false
  /\ detectionIntervalRef (refs streamStopped) = None
  /\ autoRecognitionIntervalRef (refs streamStopped) = None
  /\ (forall t', step t' DetectionTick streamStopped = None)
  /\ (forall t', step t' AutoRecognitionTick streamStopped = None)
  /\ recog streamStopped = recog firstAttemptOut
  /\ outstanding streamStopped = outstanding firstAttemptOut.
Proof.
  apply (C4_stopStream_leaves_controller (pageLoad + 10300) firstAttemptOut
           streamStopped).
  vm_compute. reflexivity.
Defined.

(** ** Detection poller *)

(** C7 (as amended): the detection poller has no in-flight guard.  A
    tick of the page's poller whose preconditions hold (video element
    and canvas present, models loaded, streaming, non-zero width and
    height, [readyState >= 2]) starts a detection pass whatever the
    number of passes still running, and so does a tick of the hook's
    poller (video element and canvas present, models loaded).  What is
    guarded is the timer: [startDetection] of the hook does nothing
    when its interval is already running. *)
Theorem C7_no_in_flight_guard :
  (forall s v,
     CameraContext.videoRef (camera s) = Some v ->
     CameraContext.canvasRef (camera s) = true ->
     CameraContext.modelsLoaded (camera s) = true ->
     CameraContext.isStreaming (camera s) = true ->
     videoWidth v <> 0 -> videoHeight v <> 0 -> 2 <= readyState v ->
     passes (browser (detectFaces s)) = S (passes (browser s)))
  /\ (forall h v,
        UseFaceDetection.modelsLoaded h = true ->
        UseFaceDetection.passes
          (UseFaceDetection.detectFaces (Some v) true h)
        = S (UseFaceDetection.passes h))
  /\ (forall h,
        UseFaceDetection.startDetection (UseFaceDetection.startDetection h)
        = UseFaceDetection.startDetection h).
Proof.
  split; [|split].
  - intros s v Hv Hc Hm Hs Hw Hh Hr. unfold detectFaces.
    rewrite Hv, Hc, Hm, Hs.
    apply Z.eqb_neq in Hw. apply Z.eqb_neq in Hh. rewrite Hw, Hh.
    cbn [negb orb].
    destruct (readyState v <? 2) eqn:E; [apply Z.ltb_lt in E; lia|].
    reflexivity.
  - intros h v Hm. unfold UseFaceDetection.detectFaces.
    rewrite Hm. reflexivity.
  - intros h. unfold UseFaceDetection.startDetection.
    destruct (UseFaceDetection.modelsLoaded h) eqn:Hm;
      destruct (UseFaceDetection.detectionIntervalRef h) eqn:Hd;
      cbn; rewrite ?Hm, ?Hd; reflexivity.
Qed.

(** C7, counterexample: two ticks of the page's poller 300 ms apart,
    the first pass not yet complete at the second tick, leave two
    passes in flight; the same for two calls of the hook's
    [detectFaces]. *)
Lemma C7_counterexample :
  option_map (fun s => passes (browser s))
    (run [(pageLoad + 300, DetectionTick); (pageLoad + 600, DetectionTick)]
       watching)
  = Some 2%nat
  /\ UseFaceDetection.passes
       (UseFaceDetection.detectFaces (Some liveVideo) true
          (UseFaceDetection.detectFaces (Some liveVideo) true readyHook))
     = 2%nat.
Proof. vm_compute. split; reflexivity. Qed.

(** A tick of the poller on the running page. *)
Lemma C7_no_in_flight_guard_witness :
  passes (browser (detectFaces watching)) = S (passes (browser watching)).
Proof.
  apply (proj1 C7_no_in_flight_guard watching liveVideo);
    first [reflexivity | discriminate].
Defined.

(** ** A match *)

Lemma autoRef_commit old new :
  isActive (counters new) = false ->
  autoRecognitionIntervalRef (refs new) = None ->
  autoRecognitionIntervalRef (refs (commit old new)) = None.
Proof.
  intros Ha Hr. unfold commit, autoRecognitionEffect, detectionEffect.
  unfold counters in Ha.
  repeat match goal with
         | |- context [if ?b then _ else _] => destruct b eqn:?
         end; cbn in *; try assumption; try reflexivity;
    rewrite Ha in *; discriminate.
Qed.

(** While the loop is stopped, no event other than a start issues a
    request or restarts the loop. *)
Lemma step_while_stopped t e s s' :
  isActive (counters s) = false ->
  autoRecognitionIntervalRef (refs s) = None ->
  restarts e = false ->
  step t e s = Some s' ->
  isActive (counters s') = false
  /\ autoRecognitionIntervalRef (refs s') = None
  /\ issued (browser s') = issued (browser s).
Proof.
  intros Ha Hr He. unfold step.
  destruct (t <? clock (browser s)); [discriminate|].
  destruct (handle t e (setClock t s)) as [s1|] eqn:Hh; [|discriminate].
  cbn [option_map]. intros E; inversion E; subst s'; clear E.
  rewrite counters_commit, browser_commit.
  assert (H : isActive (counters s1) = false
              /\ autoRecognitionIntervalRef (refs s1) = None
              /\ issued (browser s1) = issued (browser s)).
  { unfold counters in *.
    destruct e; cbn [handle] in Hh; try discriminate He.
    - cbn in Hh. rewrite Ha in Hh. rewrite andb_false_r in Hh. discriminate.
    - destruct (CameraContext.isStreaming _); inversion Hh; subst.
      cbn. auto.
    - cbn in Hh. rewrite Hr in Hh. discriminate.
    - destruct (find _ _) as [a|]; inversion Hh; subst; clear Hh.
      destruct reply as [|r]; [cbn; auto|].
      settle_cases r; cbn; auto.
    - cbn in Hh. destruct (detectionIntervalRef (refs s)); [|discriminate].
      destruct (_ <=? t); inversion Hh; subst; clear Hh.
      unfold detectFaces.
      repeat match goal with
             | |- context [match ?b with _ => _ end] => destruct b
             end; cbn; auto.
    - cbn in Hh. destruct (passes (browser s)); inversion Hh; subst.
      destruct r; cbn; auto.
    - cbn in Hh. destruct (nth_error _ i) as [[d act]|]; [|discriminate].
      destruct (d <=? t); inversion Hh; subst.
      destruct act; cbn; auto. }
  destruct H as (H1 & H2 & H3).
  split; [exact H1|]. split; [|exact H3].
  apply autoRef_commit; assumption.
Qed.

Lemma run_while_stopped evs :
  forall s s',
    isActive (counters s) = false ->
    autoRecognitionIntervalRef (refs s) = None ->
    forallb (fun te => negb (restarts (snd te))) evs = true ->
    run evs s = Some s' ->
    issued (browser s') = issued (browser s).
Proof.
  induction evs as [|[t e] evs IH]; intros s s' Ha Hr Hall Hrun.
  - cbn in Hrun. now inversion Hrun.
  - cbn in Hall. apply andb_prop in Hall. destruct Hall as [He Hall].
    apply negb_true_iff in He.
    cbn [run] in Hrun.
    destruct (step t e s) as [s1|] eqn:Hs; [|discriminate].
    destruct (step_while_stopped t e s s1 Ha Hr He Hs) as (Ha1 & Hr1 & Hi1).
    rewrite (IH s1 s' Ha1 Hr1 Hall Hrun). exact Hi1.
Qed.

(** C8: when a recognition call resolves with [success], a result and
    [recognized = true], the status becomes recognized, the door is
    unlocked, [isActive] becomes false and the recognition interval is
    cleared; two timeouts are added, the removal of the welcome
    notification after 3000 ms and one relock after 5000 ms, which
    locks the door and sets the status to idle; and from then on, in
    every run of events that contains no start of the loop, no
    recognition request is issued. *)
Theorem C8_match_unlocks_and_stops :
  forall t id r s s',
    verdict r = Match ->
    step t (RecognitionSettles id (Resolved r)) s = Some s' ->
    status s' = recognized
    /\ door s' = unlocked
    /\ isActive (counters s') = false
    /\ autoRecognitionIntervalRef (refs s') = None
    /\ scheduled s'
       = scheduled s ++ [(t + 3000, RemoveToast (toastCount (browser s)));
                         (t + 5000, Relock)]
    /\ (forall x, door (runTimer Relock x) = locked
                  /\ status (runTimer Relock x) = idle)
    /\ (forall evs s'',
          forallb (fun te => negb (restarts (snd te))) evs = true ->
          run evs s' = Some s'' ->
          issued (browser s'') = issued (browser s')).
Proof.
  intros t id r s s' Hv. unfold step.
  destruct (t <? clock (browser s)); [discriminate|].
  cbn [handle].
  destruct (find _ _) as [a|]; [|discriminate].
  match goal with
  | |- context [performAutoRecognition_settled a (Resolved r) ?x] =>
      set (s1 := performAutoRecognition_settled a (Resolved r) x)
  end.
  unfold option_map. intros [= <-].
  assert (H : status s1 = recognized /\ door s1 = unlocked
              /\ isActive (counters s1) = false
              /\ autoRecognitionIntervalRef (refs s1) = None
              /\ scheduled s1
                 = scheduled s
                   ++ [(t + 3000, RemoveToast (toastCount (browser s)));
                       (t + 5000, Relock)]).
  { subst s1. revert Hv. settle_cases r; intros Hv; try discriminate.
    cbn. rewrite <- app_assoc. repeat split. }
  destruct H as (H1 & H2 & H3 & H4 & H5).
  unfold status, door, scheduled in *.
  pose proof (autoRef_commit (setClock t s) s1 H3 H4) as H6.
  assert (H7 : isActive (counters (commit (setClock t s) s1)) = false)
    by now rewrite counters_commit.
  rewrite recog_commit, browser_commit.
  repeat split; try assumption.
  intros evs s'' Hall Hrun.
  rewrite (run_while_stopped evs _ _ H7 H6 Hall Hrun).
  now rewrite browser_commit.
Qed.

(** The first attempt answered with a match. *)
Lemma C8_match_unlocks_and_stops_witness :
  status doorOpened = recognized
  /\ door doorOpened = unlocked
  /\ isActive (counters doorOpened) = false
  /\ autoRecognitionIntervalRef (refs doorOpened) = None.
Proof.
  destruct (C8_match_unlocks_and_stops (pageLoad + 10400) 0
              {| success := true; message := "ok";
                 result := Some {| res_recognized := true;
                                   res_name := Some "An";
                                   res_best_variation := None |} |}
              firstAttemptOut doorOpened)
    as (H1 & H2 & H3 & H4 & _).
  - reflexivity.
  - vm_compute. reflexivity.
  - repeat split; assumption.
Defined.

Lemma DoorStatus_eq_dec (a b : DoorStatus) : {a = b} + {a <> b}.
Proof. decide equality. Qed.

(** ** The recognition loop: further properties *)

Lemma earlyReturn_false c :
  earlyReturn c = false
  <-> c_isStreaming c = true /\ c_detectedFaces c <> []
      /\ c_recognitionStatus c <> scanning.
Proof.
  unfold earlyReturn.
  destruct (c_isStreaming c); destruct (c_detectedFaces c);
    destruct (c_recognitionStatus c); cbn; split;
    try discriminate; intros; repeat split; try discriminate;
    try reflexivity;
    match goal with
    | H : _ /\ _ /\ _ |- _ => destruct H as (H1 & H2 & H3); congruence
    end.
Qed.

(** X1: a tick issues a recognition request exactly when the render it
    reads shows streaming on, at least one detected face and a status
    other than scanning, no cooldown is running, [attemptCount] is below
    [maxAttempts], at least 2000 ms have passed since [lastAttempt], and
    the capture yields a non-empty image.  [isActive] is not among the
    conditions. *)
Theorem tick_issues_request_iff :
  forall c now s,
    issued (browser (performAutoRecognition c now s)) = S (issued (browser s))
    <-> c_isStreaming c = true
        /\ c_detectedFaces c <> []
        /\ c_recognitionStatus c <> scanning
        /\ inCooldown (c_autoRecognition c) now = false
        /\ attemptCount (c_autoRecognition c)
           < maxAttempts (c_autoRecognition c)
        /\ 2000 <= now - lastAttempt (c_autoRecognition c)
        /\ truthy (frameFor c s) = true.
Proof.
  intros c now s.
  destruct (performAutoRecognition_cases c now s)
    as [(E & H)
       | [(He & Hc & Hm & E)
         | (He & Hc & Hlt & Hi & [(Hf & E) | (image & _ & Hf & E)])]];
    rewrite E; cbn.
  - split; [intros X; exfalso; revert X; apply Nat.neq_succ_diag_r|].
    intros (H1 & H2 & H3 & H4 & H5 & H6 & _).
    destruct H as [H | [H | (_ & H)]].
    + assert (earlyReturn c = false) by (apply earlyReturn_false; auto).
      congruence.
    + congruence.
    + lia.
  - split; [intros X; exfalso; revert X; apply Nat.neq_succ_diag_r|].
    intros (_ & _ & _ & _ & H5 & _). lia.
  - split; [intros X; exfalso; revert X; apply Nat.neq_succ_diag_r|].
    intros (_ & _ & _ & _ & _ & _ & H7). congruence.
  - split; [|reflexivity]. intros _.
    apply earlyReturn_false in He. destruct He as (H1 & H2 & H3).
    repeat split; assumption.
Qed.

(** A tick of the recognition interval leaves the door alone. *)
Lemma door_performAutoRecognition c now s :
  door (performAutoRecognition c now s) = door s
  /\ scheduled (performAutoRecognition c now s) = scheduled s.
Proof.
  destruct (performAutoRecognition_cases c now s)
    as [(E & _)
       | [(_ & _ & _ & E)
         | (_ & _ & _ & _ & [(_ & E) | (image & _ & _ & E)])]];
    rewrite E; split; reflexivity.
Qed.

(** The door status has two writers.  It goes to unlocked only when
    a recognition call resolves with [success], a result and
    [recognized = true]; it goes to locked only when a relock timeout
    that is due fires; every other event leaves it as it is. *)
Lemma door_step_cases :
  forall t e s s',
    step t e s = Some s' ->
    door s' = door s
    \/ (door s' = unlocked
        /\ exists id r, e = RecognitionSettles id (Resolved r)
                        /\ verdict r = Match)
    \/ (door s' = locked
        /\ exists i d, e = TimeoutFires i
                       /\ nth_error (scheduled s) i = Some (d, Relock)
                       /\ d <= t).
Proof.
  intros t e s s'. unfold step.
  destruct (t <? clock (browser s)); [discriminate|].
  destruct (handle t e (setClock t s)) as [s1|] eqn:Hh; [|discriminate].
  unfold option_map. intros [= <-].
  unfold door at 1 3 4. rewrite recog_commit. fold (door s1).
  destruct e; cbn [handle] in Hh.
  - destruct (_ && _); inversion Hh; subst. left; reflexivity.
  - destruct (_ && _); inversion Hh; subst. left; reflexivity.
  - destruct (CameraContext.isStreaming _); inversion Hh; subst.
    left; reflexivity.
  - cbn in Hh.
    destruct (autoRecognitionIntervalRef (refs s)) as [iv|]; [|discriminate].
    destruct (due iv <=? t); inversion Hh; subst; clear Hh.
    left. now rewrite (proj1 (door_performAutoRecognition _ _ _)).
  - destruct (find _ _) as [a|]; inversion Hh; subst; clear Hh.
    destruct reply as [|r]; [left; reflexivity|].
    destruct (verdict r) eqn:Hv.
    + right; left. split; [|exists id, r; auto].
      revert Hv. settle_cases r; intros Hv; try discriminate. reflexivity.
    + left. revert Hv. settle_cases r; intros Hv; try discriminate;
        reflexivity.
    + left. revert Hv. settle_cases r; intros Hv; try discriminate;
        reflexivity.
  - cbn in Hh. destruct (detectionIntervalRef (refs s)); [|discriminate].
    destruct (_ <=? t); inversion Hh; subst; clear Hh.
    unfold detectFaces.
    repeat match goal with
           | |- context [match ?b with _ => _ end] => destruct b
           end; left; reflexivity.
  - cbn in Hh. destruct (passes (browser s)); inversion Hh; subst.
    destruct r; left; reflexivity.
  - cbn in Hh.
    destruct (nth_error (timers (browser s)) i) as [[d act]|] eqn:Hn;
      [|discriminate].
    destruct (d <=? t) eqn:Hd; inversion Hh; subst.
    destruct act; try (left; reflexivity).
    right; right. split; [reflexivity|].
    exists i, d. apply Z.leb_le in Hd. auto.
Qed.

(** X2: over any run of the page, a door that ends in another status
    than it started in was written by one of two events of that run:
    it ends unlocked only if a recognition call of the run resolved
    with a match, and locked only if a timeout of the run fired. *)
Theorem door_written_by :
  forall evs s s',
    run evs s = Some s' ->
    door s' <> door s ->
    (door s' = unlocked
     /\ exists t id r, In (t, RecognitionSettles id (Resolved r)) evs
                       /\ verdict r = Match)
    \/ (door s' = locked
        /\ exists t i, In (t, TimeoutFires i) evs).
Proof.
  induction evs as [|[t e] evs IH]; intros s s' Hrun Hne.
  - cbn in Hrun. inversion Hrun; subst. contradiction.
  - cbn [run] in Hrun.
    destruct (step t e s) as [s1|] eqn:Hs; [|discriminate].
    assert (Hlift :
      (door s' = unlocked
       /\ exists t0 id r, In (t0, RecognitionSettles id (Resolved r)) evs
                          /\ verdict r = Match)
      \/ (door s' = locked /\ exists t0 i, In (t0, TimeoutFires i) evs) ->
      (door s' = unlocked
       /\ exists t0 id r,
            In (t0, RecognitionSettles id (Resolved r)) ((t, e) :: evs)
            /\ verdict r = Match)
      \/ (door s' = locked
          /\ exists t0 i, In (t0, TimeoutFires i) ((t, e) :: evs))).
    { intros [(Hd & t0 & id & r & Hin & Hv) | (Hd & t0 & i & Hin)].
      - left. split; [exact Hd|]. exists t0, id, r.
        split; [right; exact Hin | exact Hv].
      - right. split; [exact Hd|]. exists t0, i. right; exact Hin. }
    destruct (door_step_cases _ _ _ _ Hs)
      as [Hd | [(Hu & id & r & -> & Hv) | (Hl & i & d & -> & _)]].
    + apply Hlift. apply (IH s1 s' Hrun). congruence.
    + destruct (DoorStatus_eq_dec (door s') (door s1)) as [E|E].
      * left. split; [congruence|]. exists t, id, r.
        split; [left; reflexivity | exact Hv].
      * apply Hlift. apply (IH s1 s' Hrun E).
    + destruct (DoorStatus_eq_dec (door s') (door s1)) as [E|E].
      * right. split; [congruence|]. exists t, i. left; reflexivity.
      * apply Hlift. apply (IH s1 s' Hrun E).
Qed.

(** The first attempt answered with a match. *)
Lemma door_written_by_witness :
  (door doorOpened = unlocked
   /\ exists t id r,
        In (t, RecognitionSettles id (Resolved r))
           [(pageLoad + 10400, RecognitionSettles 0 (recognizedAs "An"))]
        /\ verdict r = Match)
  \/ (door doorOpened = locked
      /\ exists t i,
           In (t, TimeoutFires i)
              [(pageLoad + 10400, RecognitionSettles 0 (recognizedAs "An"))]).
Proof.
  apply (door_written_by
           [(pageLoad + 10400, RecognitionSettles 0 (recognizedAs "An"))]
           firstAttemptOut doorOpened).
  - vm_compute. reflexivity.
  - vm_compute. discriminate.
Defined.

Lemma in_removeNth {A} (x y : A) (l : list A) (i : nat) :
  In x l -> nth_error l i = Some y -> x <> y -> In x (removeNth i l).
Proof.
  unfold removeNth. revert i.
  induction l as [|a l IH]; intros [|i] Hin Hn Hne; cbn in *;
    try contradiction; try discriminate.
  - inversion Hn; subst. destruct Hin as [->|Hin]; [contradiction|exact Hin].
  - destruct Hin as [->|Hin]; [left; reflexivity|right].
    now apply IH.
Qed.

Lemma clock_step t e s s' :
  step t e s = Some s' -> clock (browser s') = t /\ clock (browser s) <= t.
Proof.
  unfold step.
  destruct (t <? clock (browser s)) eqn:Ht; [discriminate|].
  apply Z.ltb_ge in Ht.
  destruct (handle t e (setClock t s)) as [s1|] eqn:Hh; [|discriminate].
  unfold option_map. intros [= <-]. rewrite browser_commit.
  split; [|exact Ht].
  destruct e; cbn [handle] in Hh.
  - destruct (_ && _); inversion Hh; subst. reflexivity.
  - destruct (_ && _); inversion Hh; subst. reflexivity.
  - destruct (CameraContext.isStreaming _); inversion Hh; subst. reflexivity.
  - cbn in Hh.
    destruct (autoRecognitionIntervalRef (refs s)) as [iv|]; [|discriminate].
    destruct (due iv <=? t); inversion Hh; subst; clear Hh.
    match goal with
    | |- context [performAutoRecognition ?c ?n ?x] =>
        destruct (performAutoRecognition_cases c n x)
          as [(E & _)
             | [(_ & _ & _ & E)
               | (_ & _ & _ & _ & [(_ & E) | (image & _ & _ & E)])]];
          rewrite E
    end; reflexivity.
  - destruct (find _ _) as [a|]; inversion Hh; subst; clear Hh.
    destruct reply as [|r]; [reflexivity|].
    settle_cases r; reflexivity.
  - cbn in Hh. destruct (detectionIntervalRef (refs s)); [|discriminate].
    destruct (_ <=? t); inversion Hh; subst; clear Hh.
    unfold detectFaces.
    repeat match goal with
           | |- context [match ?b with _ => _ end] => destruct b
           end; reflexivity.
  - cbn in Hh. destruct (passes (browser s)); inversion Hh; subst.
    destruct r; reflexivity.
  - cbn in Hh. destruct (nth_error _ i) as [[d act]|]; [|discriminate].
    destruct (d <=? t); inversion Hh; subst.
    destruct act; reflexivity.
Qed.

Lemma scheduled_commit old new : scheduled (commit old new) = scheduled new.
Proof. unfold scheduled. now rewrite browser_commit. Qed.

Lemma door_commit old new : door (commit old new) = door new.
Proof. unfold door. now rewrite recog_commit. Qed.

Lemma timer_eq_dec (x y : Z * TimerAction) : {x = y} + {x <> y}.
Proof.
  decide equality.
  - decide equality. apply Nat.eq_dec.
  - apply Z.eq_dec.
Qed.

(** An event either adds timeouts at the end of the list or is the
    firing of one of them, which removes it. *)
Lemma scheduled_step t e s s' :
  step t e s = Some s' ->
  (exists added, scheduled s' = scheduled s ++ added)
  \/ (exists i d act,
        e = TimeoutFires i
        /\ nth_error (scheduled s) i = Some (d, act)
        /\ scheduled s' = removeNth i (scheduled s)).
Proof.
  unfold step.
  destruct (t <? clock (browser s)); [discriminate|].
  destruct (handle t e (setClock t s)) as [s1|] eqn:Hh; [|discriminate].
  unfold option_map. intros [= <-].
  rewrite scheduled_commit.
  destruct e; cbn [handle] in Hh.
  - destruct (_ && _); inversion Hh; subst.
    left; exists []; now rewrite app_nil_r.
  - destruct (_ && _); inversion Hh; subst.
    left; exists []; now rewrite app_nil_r.
  - destruct (CameraContext.isStreaming _); inversion Hh; subst.
    left; exists []; now rewrite app_nil_r.
  - cbn in Hh.
    destruct (autoRecognitionIntervalRef (refs s)) as [iv|]; [|discriminate].
    destruct (due iv <=? t); inversion Hh; subst; clear Hh.
    left; exists [].
    rewrite (proj2 (door_performAutoRecognition _ _ _)).
    now rewrite app_nil_r.
  - destruct (find _ _) as [a|]; inversion Hh; subst; clear Hh. left.
    destruct reply as [|r]; [exists []; now rewrite app_nil_r|].
    settle_cases r; cbn; rewrite <- ?app_assoc;
      first [ now eexists | exists []; now rewrite app_nil_r ].
  - cbn in Hh. destruct (detectionIntervalRef (refs s)); [|discriminate].
    destruct (_ <=? t); inversion Hh; subst; clear Hh.
    left; exists []. unfold detectFaces.
    repeat match goal with
           | |- context [match ?b with _ => _ end] => destruct b
           end; now rewrite app_nil_r.
  - cbn in Hh. destruct (passes (browser s)); inversion Hh; subst.
    left; exists []. destruct r; now rewrite app_nil_r.
  - cbn in Hh.
    destruct (nth_error (timers (browser s)) i) as [[d act]|] eqn:Hn;
      [|discriminate].
    destruct (d <=? t); inversion Hh; subst.
    right. exists i, d, act. repeat split; [exact Hn|].
    destruct act; reflexivity.
Qed.

(** A match schedules the relock five seconds ahead. *)
Lemma match_schedules_relock t id r s s' :
  verdict r = Match ->
  step t (RecognitionSettles id (Resolved r)) s = Some s' ->
  In (t + 5000, Relock) (scheduled s').
Proof.
  intros Hv. unfold step.
  destruct (t <? clock (browser s)); [discriminate|].
  cbn [handle].
  destruct (find _ _) as [a|]; [|discriminate].
  unfold option_map. intros [= <-].
  unfold scheduled. rewrite browser_commit.
  revert Hv. settle_cases r; intros Hv; try discriminate.
  cbn. apply in_or_app. right. left. reflexivity.
Qed.

(** A relock that fires locks the door. *)
Lemma relock_fires_locks t i d s s' :
  step t (TimeoutFires i) s = Some s' ->
  nth_error (scheduled s) i = Some (d, Relock) ->
  door s' = locked.
Proof.
  unfold step. intros Hs Hn. revert Hs.
  destruct (t <? clock (browser s)); [discriminate|].
  cbn [handle].
  change (timers (browser (setClock t s))) with (scheduled s).
  rewrite Hn.
  destruct (d <=? t); [|discriminate].
  unfold option_map. intros [= <-].
  now rewrite door_commit.
Qed.

(** X3: the door is never left unlocked without a relock on its way.
    If in a state an unlocked door comes with a pending relock timeout
    due at most 5000 ms after the clock, the same holds after every run
    of events. *)
Theorem unlocked_door_has_relock_pending :
  forall evs s s',
    relockPending s ->
    run evs s = Some s' ->
    relockPending s'.
Proof.
  induction evs as [|[t e] evs IH]; intros s s' Hinv Hrun.
  - cbn in Hrun. inversion Hrun; subst. exact Hinv.
  - cbn [run] in Hrun.
    destruct (step t e s) as [s1|] eqn:Hs; [|discriminate].
    apply (IH s1 s'); [|exact Hrun]. clear IH Hrun s' evs.
    destruct (clock_step _ _ _ _ Hs) as (Hc & Hle).
    intros Hu. rewrite Hc.
    destruct (door_step_cases _ _ _ _ Hs)
      as [Hd | [(_ & id & r & -> & Hv) | (Hl & _)]].
    + pose proof Hu as Hu1. rewrite Hd in Hu.
      destruct (Hinv Hu) as (d & Hin & Hdue).
      exists d. split; [|lia].
      destruct (scheduled_step _ _ _ _ Hs)
        as [(added & ->) | (i & d' & act & -> & Hn & ->)].
      * apply in_or_app. left. exact Hin.
      * apply (in_removeNth _ (d', act)); [exact Hin | exact Hn |].
        intros E. injection E as E1 E2. rewrite <- E1, <- E2 in Hn.
        rewrite (relock_fires_locks _ _ _ _ _ Hs Hn) in Hu1.
        discriminate.
    + exists (t + 5000). split; [|lia].
      now apply (match_schedules_relock t id r s s1).
    + congruence.
Qed.

(** The first attempt answered with a match: the relock is pending. *)
Lemma unlocked_door_has_relock_pending_witness :
  exists d, In (d, Relock) (scheduled doorOpened)
            /\ d <= clock (browser doorOpened) + 5000.
Proof.
  apply (unlocked_door_has_relock_pending
           [(pageLoad + 10400, RecognitionSettles 0 (recognizedAs "An"))]
           firstAttemptOut doorOpened).
  - intros H. vm_compute in H. discriminate.
  - vm_compute. reflexivity.
  - vm_compute. reflexivity.
Defined.

Lemma sane_later t s :
  countersSane s -> clock (browser s) <= t -> countersSane (setClock t s).
Proof.
  unfold countersSane, counters, outstanding.
  intros (H1 & H2 & H3) Hle. cbn.
  split; [exact H1|]. split; [lia|].
  eapply Forall_impl; [|exact H3].
  cbn. intros a Ha. lia.
Qed.

Lemma sane_step t e s s' :
  countersSane s ->
  step t e s = Some s' ->
  countersSane s' /\ maxAttempts (counters s') = maxAttempts (counters s).
Proof.
  intros Hs. unfold step.
  destruct (t <? clock (browser s)) eqn:Ht; [discriminate|].
  apply Z.ltb_ge in Ht.
  pose proof (sane_later t s Hs Ht) as (H1 & H2 & H3).
  destruct (handle t e (setClock t s)) as [s1|] eqn:Hh; [|discriminate].
  unfold option_map. intros [= <-].
  unfold countersSane, outstanding.
  rewrite counters_commit, browser_commit.
  unfold counters, outstanding in *. cbn in H1, H2, H3.
  destruct e; cbn [handle] in Hh.
  - destruct (_ && _); inversion Hh; subst. cbn. repeat split; auto; lia.
  - destruct (_ && _); inversion Hh; subst. cbn. repeat split; auto; lia.
  - destruct (CameraContext.isStreaming _); inversion Hh; subst.
    cbn. repeat split; auto.
  - cbn in Hh.
    destruct (autoRecognitionIntervalRef (refs s)) as [iv|]; [|discriminate].
    destruct (due iv <=? t); inversion Hh; subst; clear Hh.
    match goal with
    | |- context [performAutoRecognition ?c ?n ?x] =>
        destruct (performAutoRecognition_cases c n x)
          as [(E & _)
             | [(_ & _ & _ & E)
               | (_ & _ & _ & _ & [(_ & E) | (image & _ & _ & E)])]];
          rewrite E
    end; cbn; repeat split; auto; try lia.
    apply Forall_app. split; [exact H3|].
    constructor; [cbn; lia | constructor].
  - destruct (find _ _) as [a|] eqn:Hf; inversion Hh; subst; clear Hh.
    apply find_some in Hf. destruct Hf as (Hin & _).
    cbn in Hin.
    assert (Ha : a_now a <= t).
    { rewrite Forall_forall in H3. exact (H3 a Hin). }
    assert (H4 : Forall (fun x => a_now x <= t)
                   (filter (fun x => negb (hasId id x))
                      (pending (browser s)))).
    { rewrite Forall_forall in *. intros x Hx.
      apply filter_In in Hx. apply H3. tauto. }
    destruct reply as [|r]; [cbn; repeat split; auto|].
    settle_cases r; cbn; repeat split; auto; lia.
  - cbn in Hh. destruct (detectionIntervalRef (refs s)); [|discriminate].
    destruct (_ <=? t); inversion Hh; subst; clear Hh.
    unfold detectFaces.
    repeat match goal with
           | |- context [match ?b with _ => _ end] => destruct b
           end; cbn; repeat split; auto.
  - cbn in Hh. destruct (passes (browser s)); inversion Hh; subst.
    destruct r; cbn; repeat split; auto.
  - cbn in Hh. destruct (nth_error _ i) as [[d act]|]; [|discriminate].
    destruct (d <=? t); inversion Hh; subst.
    destruct act; cbn; repeat split; auto.
Qed.

(** X4: along every run [maxAttempts] keeps its value, [attemptCount]
    is never negative, and neither [lastAttempt] nor the request time
    of a call in flight lies ahead of the clock -- so the spacing
    [now - lastAttempt] a tick computes is never negative. *)
Theorem counters_stay_sane :
  forall evs s s',
    countersSane s ->
    run evs s = Some s' ->
    countersSane s'
    /\ maxAttempts (counters s') = maxAttempts (counters s).
Proof.
  induction evs as [|[t e] evs IH]; intros s s' Hs Hrun.
  - cbn in Hrun. inversion Hrun; subst. split; [exact Hs | reflexivity].
  - cbn [run] in Hrun.
    destruct (step t e s) as [s1|] eqn:Hst; [|discriminate].
    destruct (sane_step t e s s1 Hs Hst) as (Hs1 & Hm1).
    destruct (IH s1 s' Hs1 Hrun) as (Hs' & Hm').
    split; [exact Hs' | congruence].
Qed.

(** Ten misses in a row on the page that was watching. *)
Lemma counters_stay_sane_witness :
  (0 <= attemptCount (counters firstAttemptOut)
   /\ lastAttempt (counters firstAttemptOut) <= clock (browser firstAttemptOut)
   /\ Forall (fun a => a_now a <= clock (browser firstAttemptOut))
        (outstanding firstAttemptOut))
  /\ maxAttempts (counters firstAttemptOut) = maxAttempts (counters watching).
Proof.
  apply (counters_stay_sane
           [(pageLoad + 9000, ClickStartAutoRecognition);
            (pageLoad + 10000, AutoRecognitionTick)] watching firstAttemptOut).
  - unfold countersSane, counters, outstanding, watching, pageLoad. cbn.
    repeat split; [lia | lia | constructor].
  - vm_compute. reflexivity.
Defined.

(** X5: restarting the loop clears a cooldown but not the spacing.
    After [startAutoRecognition] no cooldown is running whatever the
    time; a stop before the start changes nothing in the control block
    it leaves; and since [lastAttempt] is kept, a tick created by the
    new render less than 2000 ms after the last counted attempt still
    does nothing. *)
Theorem restart_clears_cooldown_keeps_spacing :
  forall s now,
    inCooldown (counters (startAutoRecognition s)) now = false
    /\ counters (startAutoRecognition (stopAutoRecognition s))
       = counters (startAutoRecognition s)
    /\ lastAttempt (counters (startAutoRecognition s))
       = lastAttempt (counters s)
    /\ (0 < maxAttempts (counters s) ->
        now - lastAttempt (counters s) < 2000 ->
        performAutoRecognition (render (startAutoRecognition s)) now
          (startAutoRecognition s)
        = startAutoRecognition s).
Proof.
  intros s now. repeat split.
  intros Hmax Hsoon.
  destruct (performAutoRecognition_cases
              (render (startAutoRecognition s)) now (startAutoRecognition s))
    as [(E & _)
       | [(_ & _ & Hm & _) | (_ & _ & _ & Hi & _)]].
  - exact E.
  - cbn in Hm. unfold counters in Hmax. lia.
  - cbn in Hi. unfold counters in Hsoon. lia.
Qed.

(** A restart one second after a counted attempt. *)
Lemma restart_clears_cooldown_keeps_spacing_witness :
  performAutoRecognition (render (startAutoRecognition doorOpened))
    (pageLoad + 11000) (startAutoRecognition doorOpened)
  = startAutoRecognition doorOpened.
Proof.
  apply (restart_clears_cooldown_keeps_spacing doorOpened (pageLoad + 11000)).
  - vm_compute. reflexivity.
  - vm_compute. reflexivity.
Defined.

Lemma ceilSeconds_bounds x :
  x <= 1000 * ceilSeconds x < x + 1000.
Proof. unfold ceilSeconds. Z.to_euclidean_division_equations. lia. Qed.

(** X6: the cooldown badge.  [cooldownRemaining] is never negative;
    it is positive exactly when the cooldown test of
    [performAutoRecognition] holds of the same control block, which is
    what the handler of the render that shows the badge tests; while
    positive it is the remaining time rounded up to whole seconds; and
    from the moment a cooldown is armed it is at most 30.  The ticks of
    a running interval test the block of the render that created the
    interval instead: one second after the interval of
    [streamRestarted] armed the cooldown the badge shows 29, while
    that interval's callback reads no cooldown and its tick arms
    again. *)
Theorem cooldownRemaining_badge :
  (forall a now,
     0 <= cooldownRemaining a now
     /\ (0 < cooldownRemaining a now <-> inCooldown a now = true)
     /\ (forall c,
           cooldownUntil a = Some c -> inCooldown a now = true ->
           c - now <= 1000 * cooldownRemaining a now < c - now + 1000)
     /\ (forall t0 prev,
           t0 <= now -> cooldownRemaining (armCooldown t0 prev) now <= 30))
  /\ cooldownRemaining (counters rearmedOnce) (pageLoad + 33000) = 29
  /\ option_map
       (fun iv => inCooldown (c_autoRecognition (callback iv))
                    (pageLoad + 33000))
       (autoRecognitionIntervalRef (refs rearmedOnce))
     = Some false
  /\ option_map (fun s => cooldownUntil (counters s))
       (step (pageLoad + 33000) AutoRecognitionTick rearmedOnce)
     = Some (Some (pageLoad + 63000)).
Proof.
  split; [|vm_compute; repeat split].
  intros a now. unfold cooldownRemaining, inCooldown.
  split; [|split; [|split]].
  - destruct (cooldownUntil a) as [c|]; [|lia].
    destruct (c =? 0); lia.
  - destruct (cooldownUntil a) as [c|]; [|split; [lia|discriminate]].
    destruct (c =? 0); [split; [lia|discriminate]|]. cbn [negb andb].
    pose proof (ceilSeconds_bounds (c - now)).
    rewrite Z.ltb_lt. lia.
  - intros c Hc. rewrite Hc.
    destruct (c =? 0); [discriminate|]. cbn [negb andb].
    rewrite Z.ltb_lt. intros H.
    pose proof (ceilSeconds_bounds (c - now)). lia.
  - intros t0 prev Ht. cbn [armCooldown cooldownUntil].
    destruct (t0 + 30000 =? 0); [lia|].
    pose proof (ceilSeconds_bounds (t0 + 30000 - now)). lia.
Qed.

(** Half a second into a cooldown armed 10 s after the page load. *)
Lemma cooldownRemaining_badge_witness :
  cooldownRemaining (c_autoRecognition coolingDown) (pageLoad + 10500) <= 30.
Proof.
  apply (proj1 cooldownRemaining_badge
           (c_autoRecognition coolingDown) (pageLoad + 10500)).
  vm_compute. discriminate.
Defined.

(** ** The enrollment session: further properties *)


(** What one capture click does to the session, whatever render the
    handler belongs to. *)
Lemma captureNextVariation_session c reply s :
  let s' := captureNextVariation c reply s in
  (sessionCaptured s' = [] /\ sessionIndex s' = O
   /\ (List.length VARIATION_TYPES <= c_currentVariationIndex c)%nat)
  \/ (sessionCaptured s' = sessionCaptured s
      /\ sessionIndex s' = sessionIndex s)
  \/ (exists cur,
        nth_error VARIATION_TYPES (c_currentVariationIndex c) = Some cur
        /\ sessionCaptured s' = sessionCaptured s ++ [value cur]
        /\ sessionIndex s' = S (sessionIndex s)).
Proof.
  cbn zeta. unfold captureNextVariation, sessionCaptured, sessionIndex.
  destruct (_ <=? _)%nat eqn:Hle.
  { left. apply Nat.leb_le in Hle. repeat split. exact Hle. }
  destruct (nth_error VARIATION_TYPES (c_currentVariationIndex c))
    as [cur|] eqn:Hn; [|right; left; split; reflexivity].
  destruct (negb _); [right; left; split; reflexivity|].
  destruct (addFaceVariation reply); [|right; left; split; reflexivity].
  right; right. exists cur. split; [reflexivity|].
  destruct (_ + 1 <? _)%nat;
    [destruct (nth_error VARIATION_TYPES (_ + 1))|]; split; reflexivity.
Qed.

(** X7: in a session [capturedVariations] always has as many entries as
    [currentVariationIndex] says: starting and finishing a session
    establish it, and a capture click keeps it whatever its outcome and
    whatever render its handler was created by. *)
Theorem session_length_invariant :
  forall c reply personName s,
    List.length (sessionCaptured (startMultiVariationCapture personName s))
    = sessionIndex (startMultiVariationCapture personName s)
    /\ List.length (sessionCaptured (finishMultiVariationCapture c s))
       = sessionIndex (finishMultiVariationCapture c s)
    /\ (List.length (sessionCaptured s) = sessionIndex s ->
        List.length (sessionCaptured (captureNextVariation c reply s))
        = sessionIndex (captureNextVariation c reply s)).
Proof.
  intros c reply personName s. split; [reflexivity|]. split; [reflexivity|].
  intros H.
  destruct (captureNextVariation_session c reply s)
    as [(E1 & E2 & _) | [(E1 & E2) | (cur & _ & E1 & E2)]];
    rewrite E1, E2; [reflexivity | exact H |].
  rewrite length_app. cbn. lia.
Qed.

(** A failed upload on the running page keeps the empty session sound. *)
Lemma session_length_invariant_witness :
  List.length (sessionCaptured
                 (captureNextVariation (render watching) refused watching))
  = sessionIndex (captureNextVariation (render watching) refused watching).
Proof.
  apply (session_length_invariant (render watching) refused "An" watching).
  reflexivity.
Defined.





(** X10: [handleAddFaceVariation] starts a multi-variation session in
    exactly one case: a frame was captured, the upload succeeded, the
    name is not in the face list of its render, the variation is the
    default one and the user confirmed.  In every other case the
    session state is untouched; an upload that fails changes nothing at
    all, not even an alert; and the recognition state is never
    touched. *)
Theorem handleAddFaceVariation_session :
  forall c faces name variationType reply confirmed s,
    let s' := handleAddFaceVariation c faces name variationType reply
                confirmed s in
    let starts :=
      truthy (frameFor c s) && addFaceVariation reply
      && negb (existsb (fun face => String.eqb (FaceTypes.name face) name)
                 faces)
      && String.eqb variationType "default" && confirmed in
    enroll s'
    = (if starts
       then {| isCapturingVariations := true; currentVariationIndex := 0;
               capturedVariations := []; personNameForVariations := name |}
       else enroll s)
    /\ (starts = true -> alerts (browser s') = alerts (browser s))
    /\ (truthy (frameFor c s) = true -> addFaceVariation reply = false ->
        s' = s)
    /\ recog s' = recog s
    /\ camera s' = camera s.
Proof.
  intros c faces name variationType reply confirmed s. cbn zeta.
  unfold handleAddFaceVariation.
  change (CameraContext.captureImage _ _ _) with (frameFor c s).
  destruct (truthy (frameFor c s)); cbn [negb andb];
    [|repeat split; discriminate].
  destruct (addFaceVariation reply); cbn [andb];
    [|repeat split; discriminate].
  destruct (negb _ && _ && confirmed) eqn:E.
  - repeat split. discriminate.
  - repeat split; discriminate.
Qed.

(** A new person, the default variation, a successful upload, a yes. *)
Lemma handleAddFaceVariation_session_witness :
  alerts (browser (handleAddFaceVariation (render watching) [] "An"
                     "default" uploaded true watching))
  = alerts (browser watching).
Proof.
  apply (handleAddFaceVariation_session (render watching) [] "An" "default"
           uploaded true watching).
  vm_compute. reflexivity.
Defined.

(** ** The camera context: further properties *)

Lemma clearSrcObject_twice v :
  CameraContext.clearSrcObject (CameraContext.clearSrcObject v)
  = CameraContext.clearSrcObject v.
Proof. reflexivity. Qed.

(** X11: [stopStream] is idempotent and releases everything: after it
    streaming is false, the stream ref is empty, the video element has
    no source, the error is cleared -- whatever the state before -- and
    a [captureImage] created by the next render returns null whatever
    the video element and the canvas do. *)
Theorem stopStream_idempotent_and_releases :
  forall c cv,
    CameraContext.stopStream (CameraContext.stopStream c)
    = CameraContext.stopStream c
    /\ CameraContext.isStreaming (CameraContext.stopStream c) = false
    /\ CameraContext.streamRef (CameraContext.stopStream c) = false
    /\ CameraContext.cameraError (CameraContext.stopStream c) = ""
    /\ (forall v,
          CameraContext.videoRef (CameraContext.stopStream c) = Some v ->
          srcObject v = false)
    /\ CameraContext.captureImage
         (CameraContext.isStreaming (CameraContext.stopStream c))
         (CameraContext.videoRef (CameraContext.stopStream c)) cv
       = None.
Proof.
  intros c cv. unfold CameraContext.stopStream. cbn.
  repeat split.
  - f_equal. destruct (CameraContext.videoRef c); reflexivity.
  - intros v. destruct (CameraContext.videoRef c) as [v0|]; cbn;
      [|discriminate].
    intros [= <-]. reflexivity.
  - destruct (CameraContext.videoRef c); reflexivity.
Qed.

(** The stream of the running page, stopped. *)
Lemma stopStream_idempotent_and_releases_witness :
  srcObject (CameraContext.clearSrcObject liveVideo) = false.
Proof.
  apply (stopStream_idempotent_and_releases (camera watching) jpegCanvas).
  reflexivity.
Defined.

(** X12: once the stop button has stopped the stream, the handlers of
    the new render capture nothing: a recognition tick does nothing, a
    capture click in an unfinished session only raises the alert, and
    [handleAddFaceVariation] only raises the alert; none of them
    changes the recognition state or the session. *)
Theorem nothing_captured_after_stopStream :
  forall t s s' now reply faces name variationType confirmed,
    step t ClickStopStream s = Some s' ->
    frameOf s' = None
    /\ performAutoRecognition (render s') now s' = s'
    /\ ((sessionIndex s' < List.length VARIATION_TYPES)%nat ->
        captureNextVariation (render s') reply s'
        = alert "Không thể chụp ảnh! Vui lòng kiểm tra camera." s')
    /\ handleAddFaceVariation (render s') faces name variationType reply
         confirmed s'
       = alert "Không thể chụp ảnh! Vui lòng kiểm tra camera." s'.
Proof.
  intros t s s' now reply faces name variationType confirmed Hs.
  assert (Hstr : CameraContext.isStreaming (camera s') = false).
  { revert Hs. unfold step.
    destruct (t <? clock (browser s)); [discriminate|].
    cbn [handle].
    destruct (CameraContext.isStreaming (camera (setClock t s)));
      [|discriminate].
    unfold option_map. intros [= <-]. now rewrite camera_commit. }
  assert (Hf : frameOf s' = None).
  { unfold frameOf, frameFor, CameraContext.captureImage.
    cbn [render c_isStreaming]. rewrite Hstr.
    destruct (CameraContext.videoRef (camera s')); reflexivity. }
  split; [exact Hf|]. split; [|split].
  - unfold performAutoRecognition. cbn [render c_isStreaming].
    now rewrite Hstr.
  - intros Hlt. unfold captureNextVariation.
    cbn [render c_currentVariationIndex c_isStreaming].
    apply Nat.leb_gt in Hlt. unfold sessionIndex in Hlt. rewrite Hlt.
    destruct (nth_error _ _) eqn:Hn.
    + change (CameraContext.captureImage _ _ _) with (frameOf s').
      now rewrite Hf.
    + apply nth_error_None in Hn. apply Nat.leb_gt in Hlt. lia.
  - unfold handleAddFaceVariation.
    change (CameraContext.captureImage _ _ _) with (frameOf s').
    now rewrite Hf.
Qed.

(** The stop button on the running page. *)
Lemma nothing_captured_after_stopStream_witness :
  frameOf streamStopped = None.
Proof.
  apply (nothing_captured_after_stopStream (pageLoad + 10300)
           firstAttemptOut streamStopped 0 uploaded [] "An" "default" true).
  vm_compute. reflexivity.
Defined.
(** ** The HTTP layer and [useFaceManagement] *)

(** X13: the page reads a match out of a recognition request only if
    the response had an ok status and a body that parsed, with
    [success], a result and [recognized = true]; a response with an
    error status never yields one, whatever its body says. *)
Theorem match_needs_ok_response :
  forall f,
    (exists r, Api.toReply (Api.recognizeFace f) = Resolved r
               /\ verdict r = Match)
    <-> (exists status statusText b res,
           f = Api.Responded true status statusText (Api.Parsed b)
           /\ Api.success b = true
           /\ Api.result b = Some res
           /\ res_recognized res = true).
Proof.
  intros f. unfold Api.recognizeFace. split.
  - intros (r & Hr & Hv).
    destruct f as [[m|]|[] status statusText [m|b]]; cbn in Hr;
      try discriminate.
    inversion Hr; subst r. unfold verdict in Hv. cbn in Hv.
      destruct (Api.result b) as [res|] eqn:Hres; [|discriminate].
      destruct (Api.success b) eqn:Hs; [|discriminate].
      destruct (res_recognized res) eqn:Hrec; [|discriminate].
      exists status, statusText, b, res. repeat split; assumption.
  - intros (status & statusText & b & res & -> & Hs & Hres & Hrec).
    cbn. eexists. split; [reflexivity|].
    unfold verdict. cbn. rewrite Hres, Hs, Hrec. reflexivity.
Qed.

(** X14: the boolean [addFaceVariation] of the hook returns is the one
    the page's sequencer is modelled with: it depends on the upload
    alone, not on the list refresh that follows it, and the hook is
    never left loading. *)
Theorem hook_addFaceVariation_result :
  forall f refresh h,
    fst (UseFaceManagement.addFaceVariation f refresh h)
    = Page.addFaceVariation (Api.toReply (Api.addFace f))
    /\ UseFaceManagement.isLoading
         (snd (UseFaceManagement.addFaceVariation f refresh h)) = false.
Proof.
  intros f refresh h.
  unfold UseFaceManagement.addFaceVariation, UseFaceManagement.change,
    Api.addFace.
  destruct (Api.makeRequest f) as [m|b]; cbn; [split; reflexivity|].
  destruct (Api.success b); cbn; split; reflexivity.
Qed.

(** X15: a change the server accepts returns [true] even when the
    refresh of the list then fails: the list stays as it was and the
    hook's error is the refresh's. *)
Theorem change_succeeds_with_stale_list :
  forall fallback f refresh h b m,
    Api.makeRequest f = Api.Returns b ->
    Api.success b = true ->
    Api.makeRequest refresh = Api.Throws m ->
    UseFaceManagement.change fallback f refresh h
    = (true, {| UseFaceManagement.faces := UseFaceManagement.faces h;
                UseFaceManagement.isLoading := false;
                UseFaceManagement.error := m |}).
Proof.
  intros fallback f refresh h b m Hf Hs Hr.
  unfold UseFaceManagement.change, UseFaceManagement.fetchFaces,
    Api.getFaces.
  rewrite Hf, Hs, Hr. reflexivity.
Qed.

Lemma change_succeeds_with_stale_list_witness :
  UseFaceManagement.deleteFace
    (Api.Responded true 200 "OK"
       (Api.Parsed {| Api.success := true; Api.message := "deleted";
                      Api.detail := None; Api.result := None;
                      Api.faces := None |}))
    (Api.Responded false 503 "Service Unavailable" (Api.Unparsable "eof"))
    {| UseFaceManagement.faces :=
         [ {| FaceTypes.name := "An"; FaceTypes.recognition_count := None;
              FaceTypes.total_variations := None;
              FaceTypes.variations := None |} ];
       UseFaceManagement.isLoading := false;
       UseFaceManagement.error := "" |}
  = (true,
     {| UseFaceManagement.faces :=
          [ {| FaceTypes.name := "An"; FaceTypes.recognition_count := None;
               FaceTypes.total_variations := None;
               FaceTypes.variations := None |} ];
        UseFaceManagement.isLoading := false;
        UseFaceManagement.error := "HTTP 503: Service Unavailable" |}).
Proof.
  unfold UseFaceManagement.deleteFace.
  eapply (change_succeeds_with_stale_list "Không thể xóa khuôn mặt").
  - vm_compute. reflexivity.
  - reflexivity.
  - vm_compute. reflexivity.
Defined.

(** X16: a change that fails (the request is rejected, the response has
    an error status, or the body lacks [success]) returns [false],
    leaves the list untouched and asks for no refresh; its error is the
    thrown message, or the body's [message], or the fallback when that
    message is empty. *)
Theorem failed_change_keeps_list :
  forall fallback f refresh h,
    fst (UseFaceManagement.change fallback f refresh h) = false ->
    UseFaceManagement.change fallback f refresh h
    = (false,
       {| UseFaceManagement.faces := UseFaceManagement.faces h;
          UseFaceManagement.isLoading := false;
          UseFaceManagement.error :=
            match Api.makeRequest f with
            | Api.Throws m => m
            | Api.Returns b => orDefault (Api.message b) fallback
            end |})
    /\ forall refresh',
         UseFaceManagement.change fallback f refresh' h
         = UseFaceManagement.change fallback f refresh h.
Proof.
  intros fallback f refresh h. unfold UseFaceManagement.change.
  destruct (Api.makeRequest f) as [m|b].
  - intros _. split; reflexivity.
  - destruct (Api.success b); cbn; [discriminate|].
    intros _. split; reflexivity.
Qed.

Lemma failed_change_keeps_list_witness :
  UseFaceManagement.change "Không thể thêm variation"
    (Api.Responded true 200 "OK"
       (Api.Parsed {| Api.success := false; Api.message := "";
                      Api.detail := None; Api.result := None;
                      Api.faces := None |}))
    (Api.NetworkError None)
    {| UseFaceManagement.faces := []; UseFaceManagement.isLoading := false;
       UseFaceManagement.error := "" |}
  = (false,
     {| UseFaceManagement.faces := []; UseFaceManagement.isLoading := false;
        UseFaceManagement.error := "Không thể thêm variation" |}).
Proof.
  apply (failed_change_keeps_list "Không thể thêm variation"
           (Api.Responded true 200 "OK"
              (Api.Parsed {| Api.success := false; Api.message := "";
                             Api.detail := None; Api.result := None;
                             Api.faces := None |}))
           (Api.NetworkError None)
           {| UseFaceManagement.faces := [];
              UseFaceManagement.isLoading := false;
              UseFaceManagement.error := "" |}).
  reflexivity.
Defined.

(** X17: [fetchFaces] replaces the list only by a list the server sent
    with [success]; an answer without [success] or without [faces]
    changes nothing and reports no error. *)
Theorem fetchFaces_ignores_unsuccessful :
  forall f h b,
    Api.getFaces f = Api.Returns b ->
    Api.success b = false \/ Api.faces b = None ->
    UseFaceManagement.fetchFaces f h
    = {| UseFaceManagement.faces := UseFaceManagement.faces h;
         UseFaceManagement.isLoading := false;
         UseFaceManagement.error := "" |}.
Proof.
  intros f h b Hf Hb. unfold UseFaceManagement.fetchFaces. rewrite Hf.
  destruct Hb as [-> | ->]; [reflexivity|].
  destruct (Api.success b); reflexivity.
Qed.

Lemma fetchFaces_ignores_unsuccessful_witness :
  UseFaceManagement.fetchFaces
    (Api.Responded true 200 "OK"
       (Api.Parsed {| Api.success := false; Api.message := "database down";
                      Api.detail := None; Api.result := None;
                      Api.faces := Some [] |}))
    {| UseFaceManagement.faces :=
         [ {| FaceTypes.name := "An"; FaceTypes.recognition_count := None;
              FaceTypes.total_variations := None;
              FaceTypes.variations := None |} ];
       UseFaceManagement.isLoading := true;
       UseFaceManagement.error := "old" |}
  = {| UseFaceManagement.faces :=
         [ {| FaceTypes.name := "An"; FaceTypes.recognition_count := None;
              FaceTypes.total_variations := None;
              FaceTypes.variations := None |} ];
       UseFaceManagement.isLoading := false;
       UseFaceManagement.error := "" |}.
Proof.
  eapply fetchFaces_ignores_unsuccessful.
  - vm_compute. reflexivity.
  - left. reflexivity.
Defined.
(** ** [AddFaceDialog] *)

(** [trimStart] cuts a prefix of white space and stops at the first
    other code unit. *)
Lemma trimStart_split (s : AddFaceDialog.jsstring) :
  exists pre,
    s = pre ++ AddFaceDialog.trimStart s
    /\ forallb AddFaceDialog.isSpace pre = true
    /\ match AddFaceDialog.trimStart s with
       | [] => True
       | u :: _ => AddFaceDialog.isSpace u = false
       end.
Proof.
  induction s as [|u s IH]; cbn.
  - exists []. repeat split.
  - destruct (AddFaceDialog.isSpace u) eqn:Hu.
    + destruct IH as (pre & Hs & Hpre & Hh).
      exists (u :: pre). cbn. rewrite Hu, Hpre, <- Hs. repeat split.
      exact Hh.
    + exists []. cbn. repeat split. exact Hu.
Qed.

Lemma trimStart_fixed (s : AddFaceDialog.jsstring) :
  match s with [] => True | u :: _ => AddFaceDialog.isSpace u = false end ->
  AddFaceDialog.trimStart s = s.
Proof.
  destruct s as [|u s]; cbn; [reflexivity|]. intros ->. reflexivity.
Qed.

(** [trim s] is [s] without a prefix and a suffix of white space; it is
    empty or starts and ends with another code unit. *)
Lemma trim_split (s : AddFaceDialog.jsstring) :
  exists pre post,
    s = pre ++ AddFaceDialog.trim s ++ post
    /\ forallb AddFaceDialog.isSpace pre = true
    /\ forallb AddFaceDialog.isSpace post = true
    /\ match AddFaceDialog.trim s with
       | [] => True
       | u :: _ => AddFaceDialog.isSpace u = false
       end
    /\ match rev (AddFaceDialog.trim s) with
       | [] => True
       | u :: _ => AddFaceDialog.isSpace u = false
       end.
Proof.
  unfold AddFaceDialog.trim, AddFaceDialog.trimEnd.
  destruct (trimStart_split s) as (pre & Hs & Hpre & Hh).
  set (a := AddFaceDialog.trimStart s) in *.
  destruct (trimStart_split (rev a)) as (q & Ha & Hq & Hl).
  set (b := AddFaceDialog.trimStart (rev a)) in *.
  assert (Ea : a = rev b ++ rev q).
  { rewrite <- rev_app_distr, <- Ha, rev_involutive. reflexivity. }
  exists pre, (rev q). repeat split.
  - rewrite <- Ea. exact Hs.
  - exact Hpre.
  - rewrite forallb_forall in *. intros x Hx. apply Hq.
    apply in_rev. exact Hx.
  - destruct (rev b) as [|u r] eqn:Hb; [exact I|].
    rewrite Ea in Hh. cbn in Hh. exact Hh.
  - rewrite rev_involutive. exact Hl.
Qed.

Lemma trim_idempotent (s : AddFaceDialog.jsstring) :
  AddFaceDialog.trim (AddFaceDialog.trim s) = AddFaceDialog.trim s.
Proof.
  destruct (trim_split s) as (_ & _ & _ & _ & _ & Hh & Hl).
  set (b := AddFaceDialog.trim s) in *.
  unfold AddFaceDialog.trim, AddFaceDialog.trimEnd.
  rewrite (trimStart_fixed b Hh), (trimStart_fixed (rev b) Hl).
  apply rev_involutive.
Qed.

(** A code unit that is not white space survives [trim]. *)
Lemma trim_keeps (s : AddFaceDialog.jsstring) (u : Z) :
  In u s -> AddFaceDialog.isSpace u = false -> In u (AddFaceDialog.trim s).
Proof.
  intros Hin Hu.
  destruct (trim_split s) as (pre & post & Hs & Hpre & Hpost & _).
  rewrite Hs in Hin. rewrite forallb_forall in Hpre, Hpost.
  apply in_app_or in Hin. destruct Hin as [Hin|Hin].
  - rewrite (Hpre _ Hin) in Hu. discriminate.
  - apply in_app_or in Hin. destruct Hin as [Hin|Hin]; [exact Hin|].
    rewrite (Hpost _ Hin) in Hu. discriminate.
Qed.

Lemma validateName_accepts (s : AddFaceDialog.jsstring) :
  fst (AddFaceDialog.validateName s) = true ->
  (2 <= List.length (AddFaceDialog.trim s) <= 50)%nat
  /\ forallb AddFaceDialog.nameChar (AddFaceDialog.trim s) = true
  /\ AddFaceDialog.validateName s = (true, "").
Proof.
  unfold AddFaceDialog.validateName.
  destruct (AddFaceDialog.trim s) as [|u r] eqn:Ht; [discriminate|].
  destruct (List.length (u :: r) <? 2)%nat eqn:H2; [discriminate|].
  destruct (50 <? List.length (u :: r))%nat eqn:H50; [discriminate|].
  destruct (forallb AddFaceDialog.nameChar (u :: r)) eqn:Hf;
    [|discriminate].
  intros _. apply Nat.ltb_ge in H2, H50. repeat split; assumption.
Qed.

(** X18: what [handleSubmit] hands to [onCapture] is the trimmed name,
    and that name is itself valid: it has no white space at either
    end, 2 to 50 code units, all of them allowed by the pattern.  The
    dialog is then closed and reset, whatever [onCapture] did with the
    name. *)
Theorem handleSubmit_hands_over_valid_name :
  forall d d' n v,
    AddFaceDialog.handleSubmit d = (d', Some (n, v)) ->
    n = AddFaceDialog.trim (AddFaceDialog.name d)
    /\ v = AddFaceDialog.variationType d
    /\ AddFaceDialog.trim n = n
    /\ (2 <= List.length n <= 50)%nat
    /\ Forall (fun u => AddFaceDialog.nameChar u = true) n
    /\ AddFaceDialog.validateName n = (true, "")
    /\ AddFaceDialog.open d' = false
    /\ AddFaceDialog.name d' = [].
Proof.
  intros d d' n v. unfold AddFaceDialog.handleSubmit.
  destruct (fst (AddFaceDialog.validateName (AddFaceDialog.name d)))
    eqn:Hv; [|discriminate].
  intros [= <- <- <-].
  destruct (validateName_accepts _ Hv) as (Hlen & Hall & Hok).
  repeat split; try (apply Hlen).
  - apply trim_idempotent.
  - apply Forall_forall. rewrite forallb_forall in Hall. exact Hall.
  - unfold AddFaceDialog.validateName in *.
    rewrite trim_idempotent. exact Hok.
Qed.

(** " Ân " typed with a space on either side. *)
Lemma handleSubmit_hands_over_valid_name_witness :
  [194; 110] = AddFaceDialog.trim [32; 194; 110; 32]
  /\ "with_glasses" = "with_glasses"
  /\ AddFaceDialog.trim [194; 110] = [194; 110]
  /\ (2 <= List.length [194; 110] <= 50)%nat
  /\ Forall (fun u => AddFaceDialog.nameChar u = true) [194; 110]
  /\ AddFaceDialog.validateName [194; 110] = (true, "")
  /\ false = false
  /\ @nil Z = [].
Proof.
  apply (handleSubmit_hands_over_valid_name
           {| AddFaceDialog.open := true;
              AddFaceDialog.name := [32; 194; 110; 32];
              AddFaceDialog.variationType := "with_glasses";
              AddFaceDialog.existingPersonMode := false;
              AddFaceDialog.nameError := "" |}
           {| AddFaceDialog.open := false;
              AddFaceDialog.name := [];
              AddFaceDialog.variationType := "default";
              AddFaceDialog.existingPersonMode := false;
              AddFaceDialog.nameError := "" |}
           [194; 110] "with_glasses").
  vm_compute. reflexivity.
Defined.

(** X19: a name is rejected as soon as it holds a combining diacritic
    (U+0300 to U+036F, as in a Vietnamese name typed in decomposed
    form) or a surrogate (a character outside the basic plane),
    wherever it stands and however long the name is. *)
Theorem validateName_rejects_decomposed :
  forall s u,
    In u s ->
    768 <= u <= 879 \/ 55296 <= u <= 57343 ->
    fst (AddFaceDialog.validateName s) = false.
Proof.
  intros s u Hin Hu.
  assert (Hsp : AddFaceDialog.isSpace u = false).
  { unfold AddFaceDialog.isSpace, AddFaceDialog.between.
    repeat rewrite Bool.orb_false_iff. repeat split;
      try (apply Bool.andb_false_iff); lia. }
  assert (Hnc : AddFaceDialog.nameChar u = false).
  { unfold AddFaceDialog.nameChar. rewrite Hsp.
    unfold AddFaceDialog.isWord, AddFaceDialog.between.
    repeat rewrite Bool.orb_false_iff. repeat split;
      try (apply Bool.andb_false_iff); lia. }
  pose proof (trim_keeps s u Hin Hsp) as Ht.
  destruct (fst (AddFaceDialog.validateName s)) eqn:Hv; [|reflexivity].
  destruct (validateName_accepts _ Hv) as (_ & Hall & _).
  rewrite forallb_forall in Hall. rewrite (Hall _ Ht) in Hnc.
  discriminate.
Qed.

(** "Ân" typed as A, combining circumflex, n. *)
Lemma validateName_rejects_decomposed_witness :
  fst (AddFaceDialog.validateName [65; 770; 110]) = false.
Proof.
  apply (validateName_rejects_decomposed [65; 770; 110] 770).
  - right. left. reflexivity.
  - left. lia.
Defined.

(** The catalogue's values are pairwise distinct: filtering out the
    first [k] leaves the rest. *)
Lemma recommended_after_prefix (k : nat) :
  filter (fun v => negb (AddFaceDialog.includes
                           (map value (firstn k VARIATION_TYPES)) v))
    (map value VARIATION_TYPES)
  = map value (skipn k VARIATION_TYPES).
Proof.
  do 8 (destruct k as [|k]; [vm_compute; reflexivity|]).
  vm_compute. reflexivity.
Qed.

(** X20: for a person whose stored variations are the first [k] of the
    catalogue, in that order (what a multi-variation session that
    stopped after [k] uploads leaves), the dialog recommends exactly
    the remaining ones, in catalogue order. *)
Theorem getRecommendedVariations_after_session :
  forall faces person vs k,
    find (fun f => String.eqb (FaceTypes.name f) (FaceTypes.name person))
      faces = Some person ->
    FaceTypes.variations person = Some vs ->
    map FaceTypes.type vs = map value (firstn k VARIATION_TYPES) ->
    AddFaceDialog.getRecommendedVariations faces (FaceTypes.name person)
    = map value (skipn k VARIATION_TYPES).
Proof.
  intros faces person vs k Hf Hvs Hk.
  unfold AddFaceDialog.getRecommendedVariations.
  rewrite Hf, Hvs. cbv zeta. rewrite Hk.
  apply recommended_after_prefix.
Qed.

Lemma getRecommendedVariations_after_session_witness :
  AddFaceDialog.getRecommendedVariations
    [ {| FaceTypes.name := "An"; FaceTypes.recognition_count := None;
         FaceTypes.total_variations := Some 2;
         FaceTypes.variations :=
           Some [ {| FaceTypes.type := "default";
                     FaceTypes.image_path := "an/default.jpg";
                     FaceTypes.added_date := "2025-01-01" |};
                  {| FaceTypes.type := "with_glasses";
                     FaceTypes.image_path := "an/with_glasses.jpg";
                     FaceTypes.added_date := "2025-01-01" |} ] |} ]
    "An"
  = ["no_glasses"; "left_angle"; "right_angle"; "slight_smile"; "serious"].
Proof.
  apply (getRecommendedVariations_after_session
           [ {| FaceTypes.name := "An"; FaceTypes.recognition_count := None;
                FaceTypes.total_variations := Some 2;
                FaceTypes.variations :=
                  Some [ {| FaceTypes.type := "default";
                            FaceTypes.image_path := "an/default.jpg";
                            FaceTypes.added_date := "2025-01-01" |};
                         {| FaceTypes.type := "with_glasses";
                            FaceTypes.image_path := "an/with_glasses.jpg";
                            FaceTypes.added_date := "2025-01-01" |} ] |} ]
           {| FaceTypes.name := "An"; FaceTypes.recognition_count := None;
              FaceTypes.total_variations := Some 2;
              FaceTypes.variations :=
                Some [ {| FaceTypes.type := "default";
                          FaceTypes.image_path := "an/default.jpg";
                          FaceTypes.added_date := "2025-01-01" |};
                       {| FaceTypes.type := "with_glasses";
                          FaceTypes.image_path := "an/with_glasses.jpg";
                          FaceTypes.added_date := "2025-01-01" |} ] |}
           [ {| FaceTypes.type := "default";
                FaceTypes.image_path := "an/default.jpg";
                FaceTypes.added_date := "2025-01-01" |};
             {| FaceTypes.type := "with_glasses";
                FaceTypes.image_path := "an/with_glasses.jpg";
                FaceTypes.added_date := "2025-01-01" |} ]
           2%nat).
  - vm_compute. reflexivity.
  - reflexivity.
  - vm_compute. reflexivity.
Defined.
(** ** Camera devices *)

Import CameraDevices.

Lemma orDefault_nonempty (m d : string) : d <> "" -> orDefault m d <> "".
Proof.
  intros Hd. unfold orDefault.
  destruct (String.eqb m "") eqn:E; [exact Hd|].
  apply String.eqb_neq. exact E.
Qed.

Lemma labelled_ids (devices : list MediaDeviceInfo.t) :
  forall index,
    map deviceId (labelled index devices)
    = map MediaDeviceInfo.deviceId devices.
Proof.
  induction devices as [|d l IH]; intros index; cbn; [reflexivity|].
  rewrite IH. reflexivity.
Qed.

Lemma labelled_labels (devices : list MediaDeviceInfo.t) :
  forall index, Forall (fun d => label d <> "") (labelled index devices).
Proof.
  induction devices as [|d l IH]; intros index; cbn; constructor.
  - cbn. apply orDefault_nonempty. cbn. discriminate.
  - apply IH.
Qed.

Lemma checkCameraSupport_texts (noApi noHttps noApi' noHttps' : string)
    (b : Browser) :
  checkCameraSupport noApi noHttps b = None ->
  checkCameraSupport noApi' noHttps' b = None.
Proof.
  unfold checkCameraSupport.
  destruct (negb (getUserMedia b)); [discriminate|].
  destruct (_ && _); [discriminate|]. reflexivity.
Qed.

Lemma checkCameraSupport_error (noApi noHttps : string) (b : Browser)
    (err : string) :
  noApi <> "" -> noHttps <> "" ->
  checkCameraSupport noApi noHttps b = Some err -> err <> "".
Proof.
  intros H1 H2. unfold checkCameraSupport.
  destruct (negb (getUserMedia b)); [intros [= <-]; exact H1|].
  destruct (_ && _); [intros [= <-]; exact H2 | discriminate].
Qed.

(** X21: when [getCameras] of the provider gets through, the list it
    stores holds the video inputs, in the browser's order and with
    their ids, and no entry has an empty label; the error is cleared;
    the selection becomes the first camera only if the render it ran
    in had none, and stays what it is otherwise, whether or not that
    camera is still in the list. *)
Theorem getCameras_lists_video_inputs :
  forall c b devices s,
    Context.checkCameraSupport b = None ->
    filter isVideoInput devices <> [] ->
    let s' := Context.getCameras c b true (Devices devices) s in
    map deviceId (cameras s')
    = map MediaDeviceInfo.deviceId (filter isVideoInput devices)
    /\ Forall (fun d => label d <> "") (cameras s')
    /\ cameraError s' = ""
    /\ selectedCamera s'
       = if String.eqb (Context.c_selectedCamera c) ""
         then hd "" (map MediaDeviceInfo.deviceId
                       (filter isVideoInput devices))
         else selectedCamera s.
Proof.
  intros c b devices s Hsup Hne. cbv zeta.
  unfold Context.getCameras. rewrite Hsup. cbn [negb].
  pose proof (labelled_ids (filter isVideoInput devices) 0) as Hids.
  pose proof (labelled_labels (filter isVideoInput devices) 0) as Hlab.
  fold (videoDevices devices) in Hids, Hlab.
  destruct (videoDevices devices) as [|first rest] eqn:Hv.
  - destruct (filter isVideoInput devices); [congruence|discriminate].
  - destruct (String.eqb (Context.c_selectedCamera c) "");
      cbn [cameras selectedCamera cameraError setCameraError setCameras
           setSelectedCamera];
      (split; [exact Hids | split; [exact Hlab | split; [reflexivity|]]]).
    + rewrite <- Hids. reflexivity.
    + reflexivity.
Qed.

Lemma getCameras_lists_video_inputs_witness :
  exists s',
    s' = Context.getCameras
           {| Context.c_isStreaming := false;
              Context.c_selectedCamera := "usb-1" |}
           {| getUserMedia := true; protocol := "http:";
              hostname := "localhost" |}
           true
           (Devices
              [ {| MediaDeviceInfo.kind := "audioinput";
                   MediaDeviceInfo.deviceId := "mic";
                   MediaDeviceInfo.label := "Microphone" |};
                {| MediaDeviceInfo.kind := "videoinput";
                   MediaDeviceInfo.deviceId := "front";
                   MediaDeviceInfo.label := "" |} ])
           {| cameras := []; selectedCamera := "usb-1";
              cameraError := "old" |}
    /\ map deviceId (cameras s') = ["front"]
    /\ Forall (fun d => label d <> "") (cameras s')
    /\ cameraError s' = ""
    /\ selectedCamera s' = "usb-1".
Proof.
  eexists. split; [reflexivity|].
  apply (getCameras_lists_video_inputs
           {| Context.c_isStreaming := false;
              Context.c_selectedCamera := "usb-1" |}
           {| getUserMedia := true; protocol := "http:";
              hostname := "localhost" |}
           [ {| MediaDeviceInfo.kind := "audioinput";
                MediaDeviceInfo.deviceId := "mic";
                MediaDeviceInfo.label := "Microphone" |};
             {| MediaDeviceInfo.kind := "videoinput";
                MediaDeviceInfo.deviceId := "front";
                MediaDeviceInfo.label := "" |} ]
           {| cameras := []; selectedCamera := "usb-1";
              cameraError := "old" |}).
  - vm_compute. reflexivity.
  - vm_compute. discriminate.
Defined.

(** X22: every way [getCameras] can fail (no camera API or no secure
    origin, permission refused, enumeration rejected, no video input)
    leaves the camera list and the selection as they were and sets an
    error that is not empty; this holds for the provider and for the
    hook of [useCamera.ts]. *)
Theorem getCameras_failure_keeps_devices :
  forall c b permission e s,
    Context.checkCameraSupport b <> None
    \/ permission = false
    \/ (exists m, e = Rejects m)
    \/ (exists devices, e = Devices devices
                        /\ filter isVideoInput devices = []) ->
    (cameras (Context.getCameras c b permission e s) = cameras s
     /\ selectedCamera (Context.getCameras c b permission e s)
        = selectedCamera s
     /\ cameraError (Context.getCameras c b permission e s) <> "")
    /\ (cameras (Hook.getCameras b permission e s) = cameras s
        /\ selectedCamera (Hook.getCameras b permission e s)
           = selectedCamera s
        /\ cameraError (Hook.getCameras b permission e s) <> "").
Proof.
  intros c b permission e s H.
  unfold Context.getCameras, Hook.getCameras.
  destruct (Context.checkCameraSupport b) as [err|] eqn:Hc.
  - destruct (Hook.checkCameraSupport b) as [err'|] eqn:Hh.
    + cbn. repeat split.
      * refine (checkCameraSupport_error _ _ _ _ _ _ Hc); discriminate.
      * refine (checkCameraSupport_error _ _ _ _ _ _ Hh); discriminate.
    + assert (Hc' : Context.checkCameraSupport b = None)
        by apply (checkCameraSupport_texts _ _ _ _ b Hh).
      congruence.
  - assert (Hh : Hook.checkCameraSupport b = None)
      by apply (checkCameraSupport_texts _ _ _ _ b Hc).
    rewrite Hh.
    destruct permission; cbn [negb].
    + destruct e as [m|devices].
      * cbn. repeat split; discriminate.
      * destruct H as [H | [H | [(m & H) | (devices' & H & Hnil)]]];
          try congruence; try discriminate.
        injection H as <-. unfold videoDevices. rewrite Hnil. cbn.
        repeat split; discriminate.
    + cbn. repeat split; discriminate.
Qed.

Lemma getCameras_failure_keeps_devices_witness :
  (cameras
     (Context.getCameras
        {| Context.c_isStreaming := false; Context.c_selectedCamera := "" |}
        {| getUserMedia := true; protocol := "http:";
           hostname := "192.168.1.135" |}
        true (Devices [])
        {| cameras := [ {| deviceId := "front"; label := "Front" |} ];
           selectedCamera := "front"; cameraError := "" |})
   = [ {| deviceId := "front"; label := "Front" |} ]
   /\ selectedCamera
        (Context.getCameras
           {| Context.c_isStreaming := false;
              Context.c_selectedCamera := "" |}
           {| getUserMedia := true; protocol := "http:";
              hostname := "192.168.1.135" |}
           true (Devices [])
           {| cameras := [ {| deviceId := "front"; label := "Front" |} ];
              selectedCamera := "front"; cameraError := "" |})
      = "front"
   /\ cameraError
        (Context.getCameras
           {| Context.c_isStreaming := false;
              Context.c_selectedCamera := "" |}
           {| getUserMedia := true; protocol := "http:";
              hostname := "192.168.1.135" |}
           true (Devices [])
           {| cameras := [ {| deviceId := "front"; label := "Front" |} ];
              selectedCamera := "front"; cameraError := "" |})
      <> "")
  /\ (cameras
        (Hook.getCameras
           {| getUserMedia := true; protocol := "http:";
              hostname := "192.168.1.135" |}
           true (Devices [])
           {| cameras := [ {| deviceId := "front"; label := "Front" |} ];
              selectedCamera := "front"; cameraError := "" |})
      = [ {| deviceId := "front"; label := "Front" |} ]
      /\ selectedCamera
           (Hook.getCameras
              {| getUserMedia := true; protocol := "http:";
                 hostname := "192.168.1.135" |}
              true (Devices [])
              {| cameras := [ {| deviceId := "front"; label := "Front" |} ];
                 selectedCamera := "front"; cameraError := "" |})
         = "front"
      /\ cameraError
           (Hook.getCameras
              {| getUserMedia := true; protocol := "http:";
                 hostname := "192.168.1.135" |}
              true (Devices [])
              {| cameras := [ {| deviceId := "front"; label := "Front" |} ];
                 selectedCamera := "front"; cameraError := "" |})
         <> "").
Proof.
  apply (getCameras_failure_keeps_devices
           {| Context.c_isStreaming := false;
              Context.c_selectedCamera := "" |}
           {| getUserMedia := true; protocol := "http:";
              hostname := "192.168.1.135" |}
           true (Devices [])
           {| cameras := [ {| deviceId := "front"; label := "Front" |} ];
              selectedCamera := "front"; cameraError := "" |}).
  left. vm_compute. discriminate.
Defined.

(** X23: the hook and the provider store the same camera list; they
    agree on the selection when the provider's render had none, and
    otherwise the hook moves the selection to the first camera where
    the provider keeps it. *)
Theorem hook_getCameras_resets_selection :
  forall c b permission e s,
    cameras (Hook.getCameras b permission e s)
    = cameras (Context.getCameras c b permission e s)
    /\ (Context.c_selectedCamera c = "" ->
        selectedCamera (Hook.getCameras b permission e s)
        = selectedCamera (Context.getCameras c b permission e s))
    /\ (Context.c_selectedCamera c <> "" ->
        selectedCamera (Context.getCameras c b permission e s)
        = selectedCamera s)
    /\ (forall first rest,
          Context.checkCameraSupport b = None ->
          permission = true ->
          e = Devices (first :: rest) ->
          isVideoInput first = true ->
          selectedCamera (Hook.getCameras b permission e s)
          = MediaDeviceInfo.deviceId first).
Proof.
  intros c b permission e s.
  unfold Context.getCameras, Hook.getCameras.
  destruct (Context.checkCameraSupport b) as [err|] eqn:Hc.
  - destruct (Hook.checkCameraSupport b) as [err'|] eqn:Hh.
    + cbn. repeat split; try reflexivity. intros; discriminate.
    + assert (Hc' : Context.checkCameraSupport b = None)
        by apply (checkCameraSupport_texts _ _ _ _ b Hh).
      congruence.
  - assert (Hh : Hook.checkCameraSupport b = None)
      by apply (checkCameraSupport_texts _ _ _ _ b Hc).
    rewrite Hh.
    destruct permission; cbn [negb].
    + destruct e as [m|devices].
      * cbn. repeat split; try reflexivity. intros; discriminate.
      * unfold videoDevices.
        destruct (filter isVideoInput devices) as [|d l] eqn:Hf.
        -- cbn. repeat split; try reflexivity.
           intros first rest _ _ [= ->] Hv. cbn in Hf. rewrite Hv in Hf.
           discriminate.
        -- cbn [labelled]. repeat split.
           ++ destruct (String.eqb (Context.c_selectedCamera c) "");
                reflexivity.
           ++ intros ->. reflexivity.
           ++ intros Hn. apply String.eqb_neq in Hn. rewrite Hn.
              reflexivity.
           ++ intros first rest _ _ [= ->] Hv. cbn in Hf.
              rewrite Hv in Hf. injection Hf as <- _. reflexivity.
    + cbn. repeat split; try reflexivity. intros; discriminate.
Qed.

(** X24: switching cameras while streaming stores the new id, stops
    the stream and sets a 500 ms timeout; the [startStream] that
    timeout calls is the one of the render [switchCamera] came from,
    so what it asks the browser for is the camera selected before the
    switch. *)
Theorem switchCamera_restarts_previous_camera :
  forall c newCameraId s cam b,
    Context.c_isStreaming c = true ->
    Context.checkCameraSupport b = None ->
    Context.c_selectedCamera c <> "" ->
    exists c0,
      Context.switchCamera c newCameraId s cam
      = (setSelectedCamera newCameraId s, CameraContext.stopStream cam,
         Some (500, c0))
      /\ Context.startStream c0 b
         = Context.Requested (Some (Context.c_selectedCamera c)).
Proof.
  intros c newCameraId s cam b Hs Hb Hsel. exists c.
  unfold Context.switchCamera, Context.startStream, deviceConstraint.
  rewrite Hs, Hb. apply String.eqb_neq in Hsel. rewrite Hsel.
  split; reflexivity.
Qed.

Lemma switchCamera_restarts_previous_camera_witness :
  exists c0,
    Context.switchCamera
      {| Context.c_isStreaming := true;
         Context.c_selectedCamera := "front" |}
      "back"
      {| cameras := [ {| deviceId := "front"; label := "Front" |};
                      {| deviceId := "back"; label := "Back" |} ];
         selectedCamera := "front"; cameraError := "" |}
      (camera watching)
    = (setSelectedCamera "back"
         {| cameras := [ {| deviceId := "front"; label := "Front" |};
                         {| deviceId := "back"; label := "Back" |} ];
            selectedCamera := "front"; cameraError := "" |},
       CameraContext.stopStream (camera watching),
       Some (500, c0))
    /\ Context.startStream c0
         {| getUserMedia := true; protocol := "https:";
            hostname := "door.example" |}
       = Context.Requested (Some "front").
Proof.
  apply (switchCamera_restarts_previous_camera
           {| Context.c_isStreaming := true;
              Context.c_selectedCamera := "front" |}
           "back"
           {| cameras := [ {| deviceId := "front"; label := "Front" |};
                           {| deviceId := "back"; label := "Back" |} ];
              selectedCamera := "front"; cameraError := "" |}
           (camera watching)
           {| getUserMedia := true; protocol := "https:";
              hostname := "door.example" |}).
  - reflexivity.
  - vm_compute. reflexivity.
  - discriminate.
Defined.
(** ** The door controller *)

Import DoorController.

Lemma post_door (wifi : bool) (q : Request) (s : DoorController.State) :
  doorIsOpen (post wifi q s) = doorIsOpen s
  /\ doorOpenedAt (post wifi q s) = doorOpenedAt s
  /\ RELAY_PIN (post wifi q s) = RELAY_PIN s
  /\ DOOR_LED_PIN (post wifi q s) = DOOR_LED_PIN s
  /\ lastCheck (post wifi q s) = lastCheck s.
Proof. destruct wifi; repeat split. Qed.

Lemma pinsAgree_post (wifi : bool) (q : Request) (s : DoorController.State) :
  pinsAgree s -> pinsAgree (post wifi q s).
Proof. destruct wifi; intros H; exact H. Qed.

Lemma pinsAgree_openDoor (r : Readings) (s : DoorController.State) :
  pinsAgree s -> pinsAgree (openDoor r s).
Proof.
  intros H. unfold openDoor. destruct (doorIsOpen s); [exact H|].
  apply pinsAgree_post. split; reflexivity.
Qed.

Lemma pinsAgree_closeDoor (r : Readings) (s : DoorController.State) :
  pinsAgree s -> pinsAgree (closeDoor r s).
Proof.
  intros H. unfold closeDoor. destruct (negb (doorIsOpen s)); [exact H|].
  apply pinsAgree_post. split; reflexivity.
Qed.

Lemma pinsAgree_checkDoorCommand (r : Readings) (s : DoorController.State) :
  pinsAgree s -> pinsAgree (checkDoorCommand r s).
Proof.
  intros H. unfold checkDoorCommand.
  destruct (negb (wifiPoll r)); [exact H|].
  destruct (httpCode r =? 200); [|exact H].
  destruct (response r) as [doc|]; [|exact H].
  destruct (_ && _); [|exact H].
  apply pinsAgree_post, pinsAgree_openDoor, H.
Qed.

Lemma pinsAgree_loop (r : Readings) (s : DoorController.State) :
  pinsAgree s -> pinsAgree (loop r s).
Proof.
  intros H. unfold loop.
  destruct (negb (wifiLoop r)).
  { unfold connectToWiFi. destruct (wifiAfterConnect r); [|exact H].
    apply pinsAgree_post, H. }
  cbv zeta.
  set (s1 := if checkInterval <=? _ then _ else s).
  assert (H1 : pinsAgree s1).
  { subst s1. destruct (checkInterval <=? _); [|exact H].
    apply (pinsAgree_checkDoorCommand r) in H. exact H. }
  set (s2 := if doorIsOpen s1 && _ then _ else s1).
  assert (H2 : pinsAgree s2).
  { subst s2. destruct (doorIsOpen s1 && _); [|exact H1].
    apply pinsAgree_closeDoor, H1. }
  destruct (1000 <=? _); [|exact H2]. exact H2.
Qed.

Lemma runLoop_app (rs : list Readings) (r : Readings)
    (s : DoorController.State) :
  runLoop (rs ++ [r]) s = loop r (runLoop rs s).
Proof. unfold runLoop. rewrite fold_left_app. reflexivity. Qed.

(** X25: from [setup] on and after any number of passes of [loop],
    whatever the network and the server do, the relay is on and the
    door LED lit exactly while [doorIsOpen] is set. *)
Theorem relay_follows_doorIsOpen :
  forall r0 rs,
    RELAY_PIN (runLoop rs (setup r0)) = doorIsOpen (runLoop rs (setup r0))
    /\ DOOR_LED_PIN (runLoop rs (setup r0))
       = negb (doorIsOpen (runLoop rs (setup r0))).
Proof.
  intros r0 rs. change (pinsAgree (runLoop rs (setup r0))).
  induction rs as [|r rs IH] using rev_ind.
  - unfold runLoop, setup, connectToWiFi. cbn.
    destruct (wifiAfterConnect r0); [apply pinsAgree_post|];
      split; reflexivity.
  - rewrite runLoop_app. apply pinsAgree_loop, IH.
Qed.

(** X26: a pass of [loop] that finds the WiFi down returns before the
    auto-close check.  However many such passes follow each other and
    however much time they take, an open door stays open: the flag,
    the relay and the opening time are not touched, and no poll is
    made. *)
Theorem door_stays_open_while_wifi_down :
  forall rs s,
    Forall (fun r => wifiLoop r = false) rs ->
    doorIsOpen (runLoop rs s) = doorIsOpen s
    /\ RELAY_PIN (runLoop rs s) = RELAY_PIN s
    /\ doorOpenedAt (runLoop rs s) = doorOpenedAt s
    /\ lastCheck (runLoop rs s) = lastCheck s.
Proof.
  intros rs s H. revert s.
  induction H as [|r rs Hr _ IH]; intros s; [repeat split|].
  unfold runLoop. cbn [fold_left]. fold (runLoop rs (loop r s)).
  destruct (IH (loop r s)) as (-> & -> & -> & ->).
  unfold loop. rewrite Hr. cbn [negb]. unfold connectToWiFi.
  destruct (wifiAfterConnect r); [|repeat split].
  unfold registerDevice.
  destruct (post_door (wifiRegister r) Register s)
    as (-> & -> & -> & _ & ->).
  repeat split.
Qed.

(** Opened at 10 s of uptime, the WiFi lost right after: a minute
    later the relay is still on. *)
Lemma door_stays_open_while_wifi_down_witness :
  doorIsOpen
    (runLoop
       [ {| wifiLoop := false; wifiAfterConnect := false;
            wifiRegister := false;
            uptimePoll := 20500; wifiPoll := false; httpCode := 0;
            response := None; uptimeOpened := 20500;
            wifiStatusOpen := false; wifiAcknowledge := false;
            uptimeChecked := 20500; uptimeClose := 20500;
            wifiStatusClose := false; uptimeBlink := 20500;
            uptimeBlinked := 20500 |};
         {| wifiLoop := false; wifiAfterConnect := true;
            wifiRegister := true;
            uptimePoll := 70000; wifiPoll := true; httpCode := 404;
            response := None; uptimeOpened := 70000;
            wifiStatusOpen := true; wifiAcknowledge := true;
            uptimeChecked := 70000; uptimeClose := 70000;
            wifiStatusClose := true; uptimeBlink := 70000;
            uptimeBlinked := 70000 |} ]
       {| lastCheck := 10000; doorIsOpen := true; doorOpenedAt := 10050;
          lastBlink := 10000; DOOR_LED_PIN := false; RELAY_PIN := true;
          STATUS_LED_PIN := true; posted := [Acknowledge; Status "open"] |})
  = true
  /\ RELAY_PIN
       (runLoop
          [ {| wifiLoop := false; wifiAfterConnect := false;
               wifiRegister := false;
               uptimePoll := 20500; wifiPoll := false; httpCode := 0;
               response := None; uptimeOpened := 20500;
               wifiStatusOpen := false; wifiAcknowledge := false;
               uptimeChecked := 20500; uptimeClose := 20500;
               wifiStatusClose := false; uptimeBlink := 20500;
               uptimeBlinked := 20500 |};
            {| wifiLoop := false; wifiAfterConnect := true;
               wifiRegister := true;
               uptimePoll := 70000; wifiPoll := true; httpCode := 404;
               response := None; uptimeOpened := 70000;
               wifiStatusOpen := true; wifiAcknowledge := true;
               uptimeChecked := 70000; uptimeClose := 70000;
               wifiStatusClose := true; uptimeBlink := 70000;
               uptimeBlinked := 70000 |} ]
          {| lastCheck := 10000; doorIsOpen := true; doorOpenedAt := 10050;
             lastBlink := 10000; DOOR_LED_PIN := false; RELAY_PIN := true;
             STATUS_LED_PIN := true;
             posted := [Acknowledge; Status "open"] |})
     = true.
Proof.
  destruct (door_stays_open_while_wifi_down
              [ {| wifiLoop := false; wifiAfterConnect := false;
                   wifiRegister := false;
                   uptimePoll := 20500; wifiPoll := false; httpCode := 0;
                   response := None; uptimeOpened := 20500;
                   wifiStatusOpen := false; wifiAcknowledge := false;
                   uptimeChecked := 20500; uptimeClose := 20500;
                   wifiStatusClose := false; uptimeBlink := 20500;
                   uptimeBlinked := 20500 |};
                {| wifiLoop := false; wifiAfterConnect := true;
                   wifiRegister := true;
                   uptimePoll := 70000; wifiPoll := true; httpCode := 404;
                   response := None; uptimeOpened := 70000;
                   wifiStatusOpen := true; wifiAcknowledge := true;
                   uptimeChecked := 70000; uptimeClose := 70000;
                   wifiStatusClose := true; uptimeBlink := 70000;
                   uptimeBlinked := 70000 |} ]
              {| lastCheck := 10000; doorIsOpen := true;
                 doorOpenedAt := 10050; lastBlink := 10000;
                 DOOR_LED_PIN := false; RELAY_PIN := true;
                 STATUS_LED_PIN := true;
                 posted := [Acknowledge; Status "open"] |})
    as (H1 & H2 & _).
  - repeat constructor.
  - split; [exact H1 | exact H2].
Defined.

Lemma wrap_elapsed (opened e : Z) :
  0 <= e < 2 ^ 32 -> wrap (millis (opened + e) - millis opened) = e.
Proof.
  intros He. unfold millis, wrap.
  rewrite <- Zminus_mod.
  replace (opened + e - opened) with e by lia.
  apply Z.mod_small. exact He.
Qed.

Lemma checkDoorCommand_open (r : Readings) (s : DoorController.State) :
  doorIsOpen s = true ->
  doorIsOpen (checkDoorCommand r s) = true
  /\ doorOpenedAt (checkDoorCommand r s) = doorOpenedAt s.
Proof.
  intros H. unfold checkDoorCommand.
  destruct (negb (wifiPoll r)); [split; [exact H|reflexivity]|].
  destruct (httpCode r =? 200); [|split; [exact H|reflexivity]].
  destruct (response r) as [doc|]; [|split; [exact H|reflexivity]].
  destruct (_ && _); [|split; [exact H|reflexivity]].
  unfold acknowledgeCommand, openDoor. rewrite H.
  destruct (post_door (wifiAcknowledge r) Acknowledge s)
    as (-> & -> & _).
  split; [exact H|reflexivity].
Qed.

(** X27: with the WiFi up, a pass of [loop] closes an open door exactly
    when 5000 ms or more have passed since it was opened.  The
    comparison is on 32-bit differences, so it is right across the
    roll-over of [millis()], and an open command that arrives while
    the door is open does not postpone the closing. *)
Theorem auto_close_after_5000_ms :
  forall r s opened e,
    wifiLoop r = true ->
    doorIsOpen s = true ->
    doorOpenedAt s = millis opened ->
    uptimeClose r = opened + e ->
    0 <= e < 2 ^ 32 ->
    doorIsOpen (loop r s) = (e <? 5000)
    /\ doorOpenedAt (loop r s) = millis opened.
Proof.
  intros r s opened e Hw Ho Hat Hc He. unfold loop. rewrite Hw.
  cbn [negb]. cbv zeta.
  set (s1 := if checkInterval <=? _ then _ else s).
  assert (H1 : doorIsOpen s1 = true /\ doorOpenedAt s1 = millis opened).
  { subst s1. destruct (checkInterval <=? _); [|split; assumption].
    destruct (checkDoorCommand_open r s Ho) as (Ha & Hb).
    cbn. rewrite Ha, Hb. split; [reflexivity | exact Hat]. }
  destruct H1 as (Ho1 & Hat1). rewrite Ho1, Hat1, Hc.
  rewrite (wrap_elapsed opened e He). cbn [andb].
  unfold doorOpenDuration.
  assert (Hblink : forall s2,
            doorIsOpen (if 1000 <=? wrap (millis (uptimeBlink r)
                                          - lastBlink s2)
                        then blink (millis (uptimeBlinked r)) s2 else s2)
            = doorIsOpen s2
            /\ doorOpenedAt (if 1000 <=? wrap (millis (uptimeBlink r)
                                               - lastBlink s2)
                             then blink (millis (uptimeBlinked r)) s2
                             else s2)
               = doorOpenedAt s2).
  { intros s2. destruct (1000 <=? _); split; reflexivity. }
  destruct (5000 <=? e) eqn:E.
  - destruct (Hblink (closeDoor r s1)) as (-> & ->).
    unfold closeDoor. rewrite Ho1. cbn [negb]. unfold updateDoorStatus.
    match goal with
    | |- context [post ?w ?q ?x] =>
        destruct (post_door w q x) as (-> & -> & _)
    end.
    cbn. split; [|exact Hat1].
    symmetry. apply Z.ltb_ge. apply Z.leb_le. exact E.
  - destruct (Hblink s1) as (-> & ->). rewrite Ho1, Hat1.
    split; [|reflexivity].
    symmetry. apply Z.ltb_lt. apply Z.leb_gt. exact E.
Qed.

(** Opened 1000 ms before [millis()] rolls over, looked at 5500 ms
    later, while the server repeats the open command. *)
Lemma auto_close_after_5000_ms_witness :
  doorIsOpen
    (loop
       {| wifiLoop := true; wifiAfterConnect := true; wifiRegister := true;
          uptimePoll := 2 ^ 32 + 4400; wifiPoll := true; httpCode := 200;
          response := Some {| has_command := true;
                              command := "open_door" |};
          uptimeOpened := 2 ^ 32 + 4450; wifiStatusOpen := true;
          wifiAcknowledge := true; uptimeChecked := 2 ^ 32 + 4480;
          uptimeClose := (2 ^ 32 - 1000) + 5500; wifiStatusClose := true;
          uptimeBlink := 2 ^ 32 + 4600; uptimeBlinked := 2 ^ 32 + 4600 |}
       {| lastCheck := 2400; doorIsOpen := true;
          doorOpenedAt := 2 ^ 32 - 1000; lastBlink := 4000;
          DOOR_LED_PIN := false; RELAY_PIN := true;
          STATUS_LED_PIN := false; posted := [] |})
  = false
  /\ doorOpenedAt
       (loop
          {| wifiLoop := true; wifiAfterConnect := true;
             wifiRegister := true;
             uptimePoll := 2 ^ 32 + 4400; wifiPoll := true; httpCode := 200;
             response := Some {| has_command := true;
                                 command := "open_door" |};
             uptimeOpened := 2 ^ 32 + 4450; wifiStatusOpen := true;
             wifiAcknowledge := true; uptimeChecked := 2 ^ 32 + 4480;
             uptimeClose := (2 ^ 32 - 1000) + 5500; wifiStatusClose := true;
             uptimeBlink := 2 ^ 32 + 4600; uptimeBlinked := 2 ^ 32 + 4600 |}
          {| lastCheck := 2400; doorIsOpen := true;
             doorOpenedAt := 2 ^ 32 - 1000; lastBlink := 4000;
             DOOR_LED_PIN := false; RELAY_PIN := true;
             STATUS_LED_PIN := false; posted := [] |})
     = 2 ^ 32 - 1000.
Proof.
  apply (auto_close_after_5000_ms
           {| wifiLoop := true; wifiAfterConnect := true;
              wifiRegister := true;
              uptimePoll := 2 ^ 32 + 4400; wifiPoll := true;
              httpCode := 200;
              response := Some {| has_command := true;
                                  command := "open_door" |};
              uptimeOpened := 2 ^ 32 + 4450; wifiStatusOpen := true;
              wifiAcknowledge := true; uptimeChecked := 2 ^ 32 + 4480;
              uptimeClose := (2 ^ 32 - 1000) + 5500;
              wifiStatusClose := true;
              uptimeBlink := 2 ^ 32 + 4600;
              uptimeBlinked := 2 ^ 32 + 4600 |}
           {| lastCheck := 2400; doorIsOpen := true;
              doorOpenedAt := 2 ^ 32 - 1000; lastBlink := 4000;
              DOOR_LED_PIN := false; RELAY_PIN := true;
              STATUS_LED_PIN := false; posted := [] |}
           (2 ^ 32 - 1000) 5500).
  - reflexivity.
  - reflexivity.
  - vm_compute. reflexivity.
  - reflexivity.
  - lia.
Defined.

(** X28: the door is opened by nothing but a command: if a pass of
    [loop] finds the door closed and leaves it open, the WiFi was up,
    a poll was due (2000 ms since the last one, in 32-bit arithmetic),
    the server answered it with status 200 and a body that parsed, with
    [has_command] set and [command] equal to "open_door". *)
Theorem door_opens_only_on_command :
  forall r s,
    doorIsOpen s = false ->
    doorIsOpen (loop r s) = true ->
    wifiLoop r = true
    /\ checkInterval <= wrap (millis (uptimePoll r) - lastCheck s)
    /\ wifiPoll r = true
    /\ httpCode r = 200
    /\ exists doc, response r = Some doc
                   /\ has_command doc = true
                   /\ command doc = "open_door".
Proof.
  intros r s Hc. unfold loop.
  destruct (wifiLoop r).
  2:{ cbn [negb]. unfold connectToWiFi, registerDevice.
      destruct (wifiAfterConnect r); [|congruence].
      destruct (post_door (wifiRegister r) Register s) as (-> & _).
      congruence. }
  cbn [negb]. cbv zeta.
  set (s1 := if checkInterval <=? _ then _ else s).
  assert (Hb : forall s2,
            doorIsOpen (if 1000 <=? wrap (millis (uptimeBlink r)
                                          - lastBlink s2)
                        then blink (millis (uptimeBlinked r)) s2 else s2)
            = doorIsOpen s2).
  { intros s2. destruct (1000 <=? _); reflexivity. }
  rewrite Hb.
  assert (Hcl : doorIsOpen (closeDoor r s1) = false).
  { unfold closeDoor. destruct (doorIsOpen s1) eqn:E; cbn [negb];
      [|exact E].
    unfold updateDoorStatus.
    match goal with
    | |- context [post ?w ?q ?x] => destruct (post_door w q x) as (-> & _)
    end.
    reflexivity. }
  destruct (doorIsOpen s1 && _) eqn:Ec.
  { rewrite Hcl. discriminate. }
  intros H1. subst s1.
  destruct (checkInterval <=? _) eqn:Hdue; [|congruence].
  cbn in H1. unfold checkDoorCommand in H1.
  destruct (wifiPoll r); cbn [negb] in H1; [|congruence].
  destruct (httpCode r =? 200) eqn:Hcode; [|congruence].
  destruct (response r) as [doc|]; [|congruence].
  destruct (has_command doc) eqn:Hh; cbn [andb] in H1; [|congruence].
  destruct (String.eqb (command doc) "open_door") eqn:Hcmd; [|congruence].
  repeat split.
  - apply Z.leb_le. exact Hdue.
  - apply Z.eqb_eq. exact Hcode.
  - exists doc. split; [reflexivity|]. split; [exact Hh|].
    apply String.eqb_eq. exact Hcmd.
Qed.

Lemma door_opens_only_on_command_witness :
  true = true
  /\ checkInterval <= wrap (millis 10000 - 7900)
  /\ true = true
  /\ 200 = 200
  /\ exists doc, Some {| has_command := true; command := "open_door" |}
                 = Some doc
                 /\ has_command doc = true
                 /\ command doc = "open_door".
Proof.
  apply (door_opens_only_on_command
           {| wifiLoop := true; wifiAfterConnect := true;
              wifiRegister := true;
              uptimePoll := 10000; wifiPoll := true; httpCode := 200;
              response := Some {| has_command := true;
                                  command := "open_door" |};
              uptimeOpened := 10120; wifiStatusOpen := true;
              wifiAcknowledge := true; uptimeChecked := 10300;
              uptimeClose := 10300; wifiStatusClose := true;
              uptimeBlink := 10300; uptimeBlinked := 10300 |}
           {| lastCheck := 7900; doorIsOpen := false;
              doorOpenedAt := 0; lastBlink := 9400;
              DOOR_LED_PIN := true; RELAY_PIN := false;
              STATUS_LED_PIN := false; posted := [] |}).
  - reflexivity.
  - vm_compute. reflexivity.
Defined.

(** X29: a pass that receives an open command while the door is closed
    opens it and posts the status before the acknowledgement; whether
    the door is still open at the end of that pass depends on how long
    the two posts took: after 5000 ms or more the same pass closes it
    again. *)
Theorem command_opens_door :
  forall r s doc e,
    wifiLoop r = true ->
    doorIsOpen s = false ->
    checkInterval <= wrap (millis (uptimePoll r) - lastCheck s) ->
    wifiPoll r = true ->
    httpCode r = 200 ->
    response r = Some doc ->
    has_command doc = true ->
    command doc = "open_door" ->
    uptimeClose r = uptimeOpened r + e ->
    0 <= e < 2 ^ 32 ->
    doorIsOpen (loop r s) = (e <? 5000)
    /\ doorOpenedAt (loop r s) = millis (uptimeOpened r)
    /\ posted (loop r s)
       = (if (e <? 5000) || negb (wifiStatusClose r) then []
          else [Status "closed"])
         ++ (if wifiAcknowledge r then [Acknowledge] else [])
         ++ (if wifiStatusOpen r then [Status "open"] else [])
         ++ posted s.
Proof.
  intros r s doc e Hw Hc Hdue Hp Hcode Hresp Hh Hcmd Hcl He.
  unfold loop. rewrite Hw. cbn [negb]. cbv zeta.
  apply Z.leb_le in Hdue. rewrite Hdue.
  unfold checkDoorCommand. rewrite Hp, Hcode, Hresp, Hh, Hcmd.
  cbn [negb andb Z.eqb Pos.eqb String.eqb Ascii.eqb Bool.eqb].
  unfold openDoor. rewrite Hc.
  unfold acknowledgeCommand, updateDoorStatus.
  assert (Hb : forall s2,
            doorIsOpen (if 1000 <=? wrap (millis (uptimeBlink r)
                                          - lastBlink s2)
                        then blink (millis (uptimeBlinked r)) s2 else s2)
            = doorIsOpen s2
            /\ doorOpenedAt (if 1000 <=? wrap (millis (uptimeBlink r)
                                               - lastBlink s2)
                             then blink (millis (uptimeBlinked r)) s2
                             else s2)
               = doorOpenedAt s2
            /\ posted (if 1000 <=? wrap (millis (uptimeBlink r)
                                         - lastBlink s2)
                       then blink (millis (uptimeBlinked r)) s2
                       else s2)
               = posted s2).
  { intros s2. destruct (1000 <=? _); repeat split. }
  match goal with
  | |- context [setLastCheck ?t ?x] => set (s1 := setLastCheck t x)
  end.
  assert (H1 : doorIsOpen s1 = true
               /\ doorOpenedAt s1 = millis (uptimeOpened r)
               /\ posted s1
                  = (if wifiAcknowledge r then [Acknowledge] else [])
                    ++ (if wifiStatusOpen r then [Status "open"] else [])
                    ++ posted s).
  { subst s1. destruct (wifiAcknowledge r); destruct (wifiStatusOpen r);
      repeat split. }
  destruct H1 as (Ho1 & Hat1 & Hp1). clearbody s1.
  rewrite Ho1, Hat1, Hcl, (wrap_elapsed _ _ He). cbn [andb].
  unfold doorOpenDuration.
  destruct (5000 <=? e) eqn:E.
  - destruct (Hb (closeDoor r s1)) as (-> & -> & ->).
    assert (Elt : (e <? 5000) = false)
      by (apply Z.ltb_ge; apply Z.leb_le; exact E).
    rewrite Elt. cbn [orb].
    unfold closeDoor. rewrite Ho1. cbn [negb]. unfold updateDoorStatus.
    destruct (wifiStatusClose r); cbn; rewrite ?Hp1, ?Hat1;
      repeat split.
  - destruct (Hb s1) as (-> & -> & ->).
    assert (Elt : (e <? 5000) = true)
      by (apply Z.ltb_lt; apply Z.leb_gt; exact E).
    rewrite Elt, Ho1, Hat1, Hp1. cbn [orb]. repeat split.
Qed.

(** Both posts time out: 6000 ms pass between the opening and the
    auto-close check of the same pass. *)
Lemma command_opens_door_witness :
  doorIsOpen
    (loop
       {| wifiLoop := true; wifiAfterConnect := true; wifiRegister := true;
          uptimePoll := 10000; wifiPoll := true; httpCode := 200;
          response := Some {| has_command := true;
                              command := "open_door" |};
          uptimeOpened := 10120; wifiStatusOpen := true;
          wifiAcknowledge := true; uptimeChecked := 16100;
          uptimeClose := 10120 + 6000; wifiStatusClose := true;
          uptimeBlink := 16200; uptimeBlinked := 16200 |}
       {| lastCheck := 7900; doorIsOpen := false;
          doorOpenedAt := 0; lastBlink := 9400;
          DOOR_LED_PIN := true; RELAY_PIN := false;
          STATUS_LED_PIN := false; posted := [] |})
  = false.
Proof.
  apply (command_opens_door
           {| wifiLoop := true; wifiAfterConnect := true;
              wifiRegister := true;
              uptimePoll := 10000; wifiPoll := true; httpCode := 200;
              response := Some {| has_command := true;
                                  command := "open_door" |};
              uptimeOpened := 10120; wifiStatusOpen := true;
              wifiAcknowledge := true; uptimeChecked := 16100;
              uptimeClose := 10120 + 6000; wifiStatusClose := true;
              uptimeBlink := 16200; uptimeBlinked := 16200 |}
           {| lastCheck := 7900; doorIsOpen := false;
              doorOpenedAt := 0; lastBlink := 9400;
              DOOR_LED_PIN := true; RELAY_PIN := false;
              STATUS_LED_PIN := false; posted := [] |}
           {| has_command := true; command := "open_door" |}
           6000).
  - reflexivity.
  - reflexivity.
  - vm_compute. discriminate.
  - reflexivity.
  - reflexivity.
  - reflexivity.
  - reflexivity.
  - reflexivity.
  - reflexivity.
  - lia.
Defined.
